(** * Traceability audit runner: a shallow embedding and its properties

    The development follows
    [governance-framework/automation-runner/traceability/traceability.py].
    Python dictionaries are finite maps ([gmap]), lists are lists, the
    file system is an explicit value: the listing that [rglob] returns and,
    for the evidence archive, the entries of the evidence directory. *)

From Stdlib Require Import ZArith List Ascii String Bool Lia Finite.
From stdpp Require Import base option list gmap strings pretty.

Set Warnings "-register-all".

Local Open Scope string_scope.
Local Open Scope list_scope.
Local Open Scope Z_scope.

(** ** Python string primitives *)

Module PyStr.

(** Strings are byte strings, and [lower] is [str.lower()] on ASCII text:
    it maps [A]..[Z] to [a]..[z] and leaves every other byte alone. Every
    keyword and file pattern of the program is ASCII; file names and
    sampled contents are taken to be ASCII text as well, so a name or
    content with a letter outside ASCII whose lower case Python computes
    is outside the trees described here. *)
Definition lower_ascii (c : ascii) : ascii :=
  let n := nat_of_ascii c in
  if ((65 <=? n)%nat && (n <=? 90)%nat)%bool then ascii_of_nat (n + 32) else c.

Fixpoint lower (s : string) : string :=
  match s with
  | EmptyString => EmptyString
  | String c s' => String (lower_ascii c) (lower s')
  end.

(** [s.startswith(p)] *)
Definition startswith (p s : string) : bool := String.prefix p s.

(** [needle in hay] on strings *)
Fixpoint contains (needle hay : string) : bool :=
  if String.prefix needle hay then true
  else match hay with
       | EmptyString => false
       | String _ hay' => contains needle hay'
       end.

(** [s[:n]] *)
Definition take (n : nat) (s : string) : string := String.substring 0 n s.

(** [sep.join(l)] *)
Fixpoint join (sep : string) (l : list string) : string :=
  match l with
  | [] => ""
  | [x] => x
  | x :: rest => x +:+ sep +:+ join sep rest
  end.

(** [s.rfind(".")], scanning left to right and remembering the last hit. *)
Fixpoint rfind_dot_from (s : string) (i : nat) (last : option nat) : option nat :=
  match s with
  | EmptyString => last
  | String c s' =>
      rfind_dot_from s' (S i) (if Ascii.eqb c "."%char then Some i else last)
  end.

Definition rfind_dot (s : string) : option nat := rfind_dot_from s 0 None.

End PyStr.

(** ** Paths and the audited tree *)

(** An absolute path is the list of its components below [/]; [main]
    resolves the repository path before the audit starts. *)
Definition Path := list string.

(** [PurePath.suffix]: the part of the name from its last dot, when that
    dot is neither the first nor the last character. *)
Definition path_suffix (name : string) : string :=
  match PyStr.rfind_dot name with
  | Some i =>
      if ((0 <? i)%nat && (i <? String.length name - 1)%nat)%bool
      then String.substring i (String.length name - i) name
      else ""
  | None => ""
  end.

(** [Path.parents] of an absolute path, nearest first, ending with [/]. *)
Fixpoint path_parents_rev (p : Path) : list Path :=
  match p with
  | [] => []
  | x :: rest => [] :: map (cons x) (path_parents_rev rest)
  end.

Definition path_parents (p : Path) : list Path := rev (path_parents_rev p).

(** [p.relative_to(root)]: [None] stands for the [ValueError] raised when
    [p] is not below [root]. *)
Fixpoint relative_to (p root : Path) : option Path :=
  match root, p with
  | [], _ => Some p
  | r :: root', x :: p' => if String.eqb r x then relative_to p' root' else None
  | _ :: _, [] => None
  end.

(** [str(path)] of an absolute path *)
Definition path_str (p : Path) : string := "/" +:+ PyStr.join "/" p.

(** JSON-like values: what [json.loads], [yaml.safe_load] and
    [csv.DictReader] hand back. A float is kept as the text [str] prints
    for it; dictionary keys are strings (a key of another type never equals
    the string keys the program looks up). *)
Inductive pyval : Type :=
| PyNone
| PyBool (b : bool)
| PyInt (z : Z)
| PyFloat (shown : string)
| PyStr (s : string)
| PyList (l : list pyval)
| PyDict (d : list (string * pyval)).

(** [isinstance(v, dict) and key in v], then [v[key]] *)
Fixpoint dict_lookup (key : string) (d : list (string * pyval)) : option pyval :=
  match d with
  | [] => None
  | (k, v) :: rest => if String.eqb k key then Some v else dict_lookup key rest
  end.

Definition dict_field (key : string) (v : pyval) : option pyval :=
  match v with
  | PyDict d => dict_lookup key d
  | _ => None
  end.

(** [v == s] for a Python string [s]: only an equal string is equal. *)
Definition py_eq_str (v : pyval) (s : string) : bool :=
  match v with
  | PyStr t => String.eqb t s
  | _ => false
  end.

(** One entry of [root.rglob("*")]. The fields that stand for I/O hold what
    the corresponding call returns on a regular file, or the message of
    the exception it raises. Reading a sample, hashing and copying are
    separate calls, each with an outcome of its own. *)
Record File : Type := mkFile {
  rel_parts : list string;       (* components below the audited root *)
  is_file : bool;                (* [Path.is_file()] *)
  st_mtime : Z;                  (* [int(stat().st_mtime)], 0 when [stat] raises *)
  read_sample : option string;   (* decoded first 8192 bytes, [None] on a read error *)
  load_result : pyval;           (* what [load_file] parses *)
  sha256_hex : string;           (* hex digest of the content *)
  hash_error : option string;    (* [str(e)] when opening or reading for the digest raises *)
  copy_error : option string     (* [str(e)] when [shutil.copy2] of the file raises *)
}.

Definition file_name (f : File) : string := List.last (rel_parts f) "".

(** [str(file_path.relative_to(repo_root))]; the empty relative path
    prints as a dot. *)
Definition rel_path (f : File) : string :=
  match rel_parts f with
  | [] => "."
  | parts => PyStr.join "/" parts
  end.

Definition abs_path (root : Path) (f : File) : Path := root ++ rel_parts f.

Definition sha256_of_file (f : File) : string :=
  if negb (is_file f) then "error: not a file"
  else match hash_error f with
       | Some e => "error: " +:+ e
       | None => sha256_hex f
       end.

Definition safe_read_text (f : File) : option string :=
  if negb (is_file f) then None else read_sample f.

Definition load_file (f : File) : pyval :=
  if negb (is_file f) then PyNone else load_result f.

(** The audited repository: its resolved root, whether that root is an
    existing directory, and the [rglob] listing in traversal order. *)
Record Repo : Type := mkRepo {
  repo_root : Path;
  root_is_dir : bool;
  repo_listing : list File
}.

(** ** Configuration tables *)

Definition FILE_PATTERNS : list (string * list string) :=
  [ ("metadata_files", ["metadata"; "model_card"; "about"; "info"]);
    ("model_artifacts", [".pt"; ".pth"; ".onnx"; ".joblib"; ".pkl"; "model."; "checkpoint"]);
    ("dataset_files", ["dataset"; "data"; "train"; "test"; "validation"; ".csv"; ".parquet"; ".jsonl"]);
    ("decision_logs", ["decision"; "inference"; "prediction"; "log"; "output"]);
    ("training_configs", ["config"; "hyperparameters"; "train_config"; "settings"; "parameters"]);
    ("requirements_files", ["requirements.txt"; "pyproject.toml"; "environment.yml"; "pipfile"; "setup.py"]);
    ("pipelines", ["pipeline"; "dag"; "workflow"; "orchestration"; "mlflow"]);
    ("approvals", ["approval"; "committee"; "signoff"; "approved"; "review"; "audit"]);
    ("monitoring_reports", ["monitor"; "dashboard"; "metrics"; "report"; "performance"]);
    ("documentation", [".md"; ".txt"; "readme"; "docs"; "documentation"]);
    ("other_text", [".json"; ".yaml"; ".yml"; ".csv"; ".txt"; ".md"]) ].

Definition IGNORED_DIRS : list string :=
  [ ".git"; "__pycache__"; ".pytest_cache"; "node_modules"; ".mypy_cache";
    ".vscode"; ".idea"; "venv"; "env"; ".DS_Store"; "dist"; "build"; ".eggs" ].

Definition str_in_list (s : string) (l : list string) : bool :=
  existsb (String.eqb s) l.

(** ** Scanner *)

(** The [except Exception: return True] arm is reached exactly when
    [relative_to] raises. *)
Definition should_ignore_dir (dir_path root : Path) : bool :=
  match relative_to dir_path root with
  | Some parts => existsb (fun part => str_in_list part IGNORED_DIRS) parts
  | None => true
  end.

Definition pattern_matches (file_name file_suffix pattern : string) : bool :=
  (PyStr.startswith "." pattern && String.eqb file_suffix pattern)
  || (negb (PyStr.startswith "." pattern) && PyStr.contains pattern file_name).

(** The two nested loops over [FILE_PATTERNS.items()] with their [break]s:
    the category of the first pattern list with a matching pattern. *)
Fixpoint first_category (table : list (string * list string))
    (file_name file_suffix : string) : option string :=
  match table with
  | [] => None
  | (category, patterns) :: rest =>
      if existsb (pattern_matches file_name file_suffix) patterns
      then Some category
      else first_category rest file_name file_suffix
  end.

(** [candidates.get(category, [])] *)
Definition cand (c : gmap string (list File)) (category : string) : list File :=
  default [] (c !! category).

Definition empty_candidates : gmap string (list File) :=
  list_to_map (map (fun kv => (fst kv, [])) FILE_PATTERNS).

Definition is_skipped (root : Path) (f : File) : bool :=
  existsb (fun parent => should_ignore_dir parent root)
          (path_parents (abs_path root f)).

Definition scan_step (root : Path) (c : gmap string (list File)) (f : File)
    : gmap string (list File) :=
  if negb (is_file f) then c
  else if is_skipped root f then c
  else
    let name := PyStr.lower (file_name f) in
    let suffix := PyStr.lower (path_suffix (file_name f)) in
    match first_category FILE_PATTERNS name suffix with
    | Some category => <[category := cand c category ++ [f]]> c
    | None => c
    end.

Definition scan_repository (r : Repo) : gmap string (list File) :=
  if negb (root_is_dir r) then empty_candidates
  else fold_left (scan_step (repo_root r)) (repo_listing r) empty_candidates.

(** [candidates.items()] in the insertion order of the dictionary, which is
    the order of [FILE_PATTERNS]. *)
Definition candidates_items (c : gmap string (list File)) : list (string * list File) :=
  map (fun kv => (fst kv, cand c (fst kv))) FILE_PATTERNS.

(** ** Requirement catalog *)

(** The fields of a catalog entry that the evaluator reads. The localized
    names, the description and the legal citations are carried through to
    the report unchanged and take no part in any decision. *)
Record ItemMeta : Type := mkItemMeta {
  weight : Z;
  en_name : string;
  keywords : list string;
  required_for : list string
}.

Definition TRACEABILITY_ITEMS : list (string * ItemMeta) :=
  [ ("dataset_versioning",
     mkItemMeta 10 "Dataset Versioning & Provenance"
       ["dataset"; "version"; "hash"; "provenance"; "data lineage"]
       ["high"; "limited"; "low"]);
    ("model_versioning",
     mkItemMeta 10 "Model Versioning & Artifacts"
       ["model"; "version"; "checkpoint"; "artifact"; "serialization"]
       ["high"; "limited"; "low"]);
    ("decision_logs",
     mkItemMeta 9 "Decision / Inference Logs"
       ["decision"; "prediction"; "log"; "timestamp"; "inference"]
       ["high"; "limited"]);
    ("model_change_documentation",
     mkItemMeta 8 "Model Change History"
       ["change"; "modification"; "update"; "migration"; "changelog"]
       ["high"]);
    ("hyperparameters_config",
     mkItemMeta 8 "Hyperparameters & Training Config"
       ["hyperparameter"; "config"; "parameter"; "setting"; "training"]
       ["high"; "limited"; "low"]);
    ("audit_evidence",
     mkItemMeta 9 "Audit Approvals & Evidence"
       ["audit"; "evidence"; "approval"; "review"; "committee"]
       ["high"]);
    ("performance_monitoring",
     mkItemMeta 7 "Performance Monitoring"
       ["performance"; "metric"; "monitor"; "dashboard"; "accuracy"]
       ["high"]);
    ("file_integrity_hash",
     mkItemMeta 8 "File Integrity Hashes"
       ["hash"; "checksum"; "integrity"; "sha256"; "md5"]
       ["high"; "limited"; "low"]);
    ("cross_reference",
     mkItemMeta 9 "Cross-Reference Validation"
       ["reference"; "link"; "correlate"; "associate"; "cross-reference"]
       ["high"; "limited"]);
    ("dependency_documentation",
     mkItemMeta 7 "Dependency Documentation"
       ["dependency"; "requirement"; "environment"; "library"; "package"]
       ["high"]);
    ("monitoring_events",
     mkItemMeta 7 "Monitoring Events & Alerts"
       ["event"; "alert"; "notification"; "incident"; "monitoring"]
       ["high"]);
    ("reproducibility_capability",
     mkItemMeta 10 "Reproducibility Capability"
       ["reproduce"; "replicate"; "recreate"; "repeatable"; "reproducibility"]
       ["high"; "limited"; "low"]);
    ("approvals_reviews",
     mkItemMeta 8 "Approvals & Reviews"
       ["approval"; "review"; "signoff"; "authorization"; "peer review"]
       ["high"]);
    ("regulatory_compliance",
     mkItemMeta 9 "Regulatory Compliance"
       ["compliance"; "regulation"; "standard"; "requirement"; "gdpr"]
       ["high"; "limited"]);
    ("design_decisions",
     mkItemMeta 7 "Design Decisions Documentation"
       ["design"; "decision"; "architecture"; "choice"; "rationale"]
       ["high"]);
    ("pipeline_auditability",
     mkItemMeta 8 "Pipeline Auditability"
       ["pipeline"; "workflow"; "process"; "orchestration"; "mlops"]
       ["high"]);
    ("bias_metrics",
     mkItemMeta 8 "Bias/Fairness Metrics"
       ["bias"; "fairness"; "equity"; "discrimination"; "fair"]
       ["high"; "limited"]);
    ("risk_mitigation",
     mkItemMeta 8 "Risk Mitigation Evidence"
       ["risk"; "mitigation"; "control"; "safeguard"; "assessment"]
       ["high"]);
    ("inference_logs",
     mkItemMeta 9 "Production Inference Logs"
       ["inference"; "prediction"; "output"; "result"; "production"]
       ["high"; "limited"]);
    ("continuous_monitoring",
     mkItemMeta 7 "Continuous Monitoring Reports"
       ["continuous"; "monitoring"; "ongoing"; "real-time"; "report"]
       ["high"]);
    ("historical_reconstruction",
     mkItemMeta 9 "Historical Reconstruction Capability"
       ["historical"; "reconstruct"; "restore"; "timeline"; "backup"]
       ["high"]);
    ("incident_documentation",
     mkItemMeta 8 "Incident Documentation"
       ["incident"; "issue"; "problem"; "corrective"; "action"]
       ["high"]) ].

Definition RISK_LEVELS : list (string * list string) :=
  [ ("high",
     [ "dataset_versioning"; "model_versioning"; "decision_logs"; "model_change_documentation";
       "hyperparameters_config"; "audit_evidence"; "performance_monitoring"; "file_integrity_hash";
       "cross_reference"; "dependency_documentation"; "monitoring_events"; "reproducibility_capability";
       "approvals_reviews"; "regulatory_compliance"; "design_decisions"; "pipeline_auditability";
       "bias_metrics"; "risk_mitigation"; "inference_logs"; "continuous_monitoring";
       "historical_reconstruction"; "incident_documentation" ]);
    ("limited",
     [ "dataset_versioning"; "model_versioning"; "decision_logs"; "hyperparameters_config";
       "file_integrity_hash"; "cross_reference"; "reproducibility_capability";
       "regulatory_compliance"; "bias_metrics"; "inference_logs" ]);
    ("low",
     [ "dataset_versioning"; "model_versioning"; "hyperparameters_config";
       "file_integrity_hash"; "reproducibility_capability" ]) ].

(** Lookup in a table written as a dictionary literal. *)
Fixpoint table_get {A : Type} (key : string) (table : list (string * A)) : option A :=
  match table with
  | [] => None
  | (k, v) :: rest => if String.eqb k key then Some v else table_get key rest
  end.

(** [sum(...)] over integers *)
Definition sum_Z (l : list Z) : Z := fold_right Z.add 0 l.

(** [TRACEABILITY_ITEMS[item]["weight"]]; every identifier of
    [RISK_LEVELS] is a catalog key (lemma [risk_levels_in_catalog]), so the
    [KeyError] arm is never taken and is given the value [0]. *)
Definition catalog_weight (item : string) : Z :=
  match table_get item TRACEABILITY_ITEMS with
  | Some meta => weight meta
  | None => 0
  end.

(** [RISK_LEVELS.get(risk_level, [])] *)
Definition required_items (risk_level : string) : list string :=
  default [] (table_get risk_level RISK_LEVELS).

Definition max_score_for (risk_level : string) : Z :=
  sum_Z (map catalog_weight (required_items risk_level)).

(** ** Evidence archiver *)

(** An entry of the evidence directory: its file name and the source it
    was copied from, written as the source path relative to the audited
    root. *)
Record ArchiveEntry : Type := mkEntry {
  entry_name : string;
  entry_src : string
}.

Record EvidenceDir : Type := mkEvidenceDir {
  dir_name : string;                (* last component of the directory path *)
  entries : list ArchiveEntry
}.

(** [(evidence_dir / name).exists()] *)
Definition dest_exists (d : EvidenceDir) (name : string) : bool :=
  str_in_list name (map entry_name (entries d)).

Definition dest_name_first (mtime : Z) (file_hash name : string) : string :=
  pretty mtime +:+ "_" +:+ PyStr.take 16 file_hash +:+ "__" +:+ name.

Definition dest_name_numbered (mtime : Z) (file_hash : string) (counter : Z)
    (name : string) : string :=
  pretty mtime +:+ "_" +:+ PyStr.take 16 file_hash +:+ "__" +:+ pretty counter
    +:+ "__" +:+ name.

(** The [while dest_path.exists()] loop. The fuel bounds the number of
    iterations; [find_free_dest_total] shows that one more than the number
    of directory entries is always enough. *)
Fixpoint find_free_dest (fuel : nat) (d : EvidenceDir) (numbered : Z -> string)
    (dest_name : string) (counter : Z) : option string :=
  if dest_exists d dest_name then
    match fuel with
    | O => None
    | S fuel' => find_free_dest fuel' d numbered (numbered counter) (counter + 1)
    end
  else Some dest_name.

(** Returns the string the function returns and the directory afterwards.
    Two failures end in [return f"error: ..."]: a source that is not a
    regular file, and [shutil.copy2] raising after the destination name
    was chosen; in both nothing is written. *)
Definition copy_evidence (src : File) (d : EvidenceDir) : string * EvidenceDir :=
  if negb (is_file src) then ("error: source not a file", d)
  else
    let mtime := st_mtime src in
    let file_hash := sha256_of_file src in
    let file_hash := if PyStr.startswith "error" file_hash then "unknown" else file_hash in
    let dest_name := dest_name_first mtime file_hash (file_name src) in
    match find_free_dest (S (List.length (entries d))) d
            (fun counter => dest_name_numbered mtime file_hash counter (file_name src))
            dest_name 1 with
    | Some dest_name =>
        match copy_error src with
        | Some e => ("error: " +:+ e, d)
        | None =>
            (dir_name d +:+ "/" +:+ dest_name,
             mkEvidenceDir (dir_name d) (entries d ++ [mkEntry dest_name (rel_path src)]))
        end
    | None => ("error: no free destination name", d)
    end.

(** ** Per-item result and the state of an audit run *)

(** The four status strings. [error] is written only by the handler of an
    exception escaping an iteration of the item loop; no operation of the
    model raises there, so the loop below never produces it. *)
Inductive Status : Type := found | not_found | optional | error.

(** The dictionary stored under [audit_results["details"][item_key]]
    (its [legal_basis] entry, a copy of the catalog's, is left out). *)
Record ItemResult : Type := mkItemResult {
  res_weight : Z;
  score : Z;
  checks : list string;
  evidence : list string;
  status : Status;
  is_required_for_risk : bool
}.

(** What a run mutates: the three growing parts of [audit_results] and the
    evidence directory on disk. *)
Record AuditState : Type := mkAuditState {
  total_score : Z;
  details : gmap string ItemResult;
  evidence_index : gmap string string;
  evidence_dir : EvidenceDir
}.

Definition with_details (st : AuditState) (d : gmap string ItemResult) : AuditState :=
  mkAuditState (total_score st) d (evidence_index st) (evidence_dir st).

Definition with_evidence_index (st : AuditState) (ix : gmap string string) : AuditState :=
  mkAuditState (total_score st) (details st) ix (evidence_dir st).

Definition with_evidence_dir (st : AuditState) (d : EvidenceDir) : AuditState :=
  mkAuditState (total_score st) (details st) (evidence_index st) d.

Definition with_total_score (st : AuditState) (t : Z) : AuditState :=
  mkAuditState t (details st) (evidence_index st) (evidence_dir st).

(** A mutation through the alias [item_result] of
    [audit_results["details"][item_key]]. *)
Definition update_item (item_key : string) (f : ItemResult -> ItemResult)
    (st : AuditState) : AuditState :=
  with_details st (alter f item_key (details st)).

Definition append_check (msg : string) (r : ItemResult) : ItemResult :=
  mkItemResult (res_weight r) (score r) (checks r ++ [msg]) (evidence r) (status r)
               (is_required_for_risk r).

Definition append_evidence (rel : string) (r : ItemResult) : ItemResult :=
  if str_in_list rel (evidence r) then r
  else mkItemResult (res_weight r) (score r) (checks r) (evidence r ++ [rel]) (status r)
                    (is_required_for_risk r).

Definition set_status (s : Status) (r : ItemResult) : ItemResult :=
  mkItemResult (res_weight r) (score r) (checks r) (evidence r) s (is_required_for_risk r).

Definition set_score (v : Z) (r : ItemResult) : ItemResult :=
  mkItemResult (res_weight r) v (checks r) (evidence r) (status r) (is_required_for_risk r).

(** [item_result["checks"].append(msg)] *)
Definition add_check (item_key msg : string) (st : AuditState) : AuditState :=
  update_item item_key (append_check msg) st.

(** The result dictionary built by [register_item_evidence] when the item
    has none yet: [TRACEABILITY_ITEMS.get(item_key, {})] with its defaults. *)
Definition registered_result (risk_level item_key : string) : ItemResult :=
  match table_get item_key TRACEABILITY_ITEMS with
  | Some meta => mkItemResult (weight meta) 0 [] [] not_found
                   (str_in_list risk_level (required_for meta))
  | None => mkItemResult 0 0 [] [] not_found false
  end.

(** The result dictionary built at the top of the item loop. *)
Definition initial_result (risk_level : string) (meta : ItemMeta) : ItemResult :=
  mkItemResult (weight meta) 0 [] [] not_found
               (str_in_list risk_level (required_for meta)).

(** Truthiness of a list: [if l:] *)
Definition non_nil {A : Type} (l : list A) : bool :=
  match l with [] => false | _ :: _ => true end.

(** Truthiness of a string *)
Definition non_empty (s : string) : bool :=
  match s with EmptyString => false | String _ _ => true end.

Definition register_item_evidence (risk_level item_key : string) (f : File)
    (st : AuditState) : AuditState :=
  if negb (is_file f) then st
  else
    let rel := rel_path f in
    let st1 :=
      match details st !! item_key with
      | Some _ => st
      | None => with_details st (<[item_key := registered_result risk_level item_key]> (details st))
      end in
    let st2 :=
      match evidence_index st1 !! rel with
      | Some _ => st1
      | None =>
          let '(copied_path, d) := copy_evidence f (evidence_dir st1) in
          let st1' := with_evidence_dir st1 d in
          if non_empty copied_path && negb (PyStr.startswith "error" copied_path)
          then with_evidence_index st1' (<[rel := copied_path]> (evidence_index st1'))
          else st1'
      end in
    update_item item_key (append_evidence rel) st2.

(** ** Cross-reference validator and the audit *)

Section Audit.

(** Python's built-in [str] on parsed values. *)
Variable py_str : pyval -> string.

Definition metadata_step (model_versions : gset string) (pm : File * pyval)
    : gset string :=
  match dict_field "version" (snd pm) with
  | Some v => model_versions ∪ {[ py_str v ]}
  | None => model_versions
  end.

Definition issue_text (f : File) (log_version : string) : string :=
  "Log " +:+ file_name f +:+ " referencia versão de modelo desconhecida: "
    +:+ log_version.

(** The loop over the entries of a list-shaped log, which stops at the
    first entry that yields an issue. *)
Fixpoint scan_entries (model_versions : gset string) (f : File)
    (log_data : list pyval) (issues : list string) : list string :=
  match log_data with
  | [] => issues
  | entry :: rest =>
      match dict_field "model_version" entry with
      | Some v =>
          if bool_decide (py_str v ∈ model_versions)
          then scan_entries model_versions f rest issues
          else issues ++ [issue_text f (py_str v)]
      | None => scan_entries model_versions f rest issues
      end
  end.

Definition log_step (model_versions : gset string) (issues : list string)
    (pl : File * pyval) : list string :=
  match dict_field "model_version" (snd pl) with
  | Some v =>
      if bool_decide (py_str v ∈ model_versions) then issues
      else issues ++ [issue_text (fst pl) (py_str v)]
  | None =>
      match snd pl with
      | PyList log_data => scan_entries model_versions (fst pl) log_data issues
      | _ => issues
      end
  end.

Definition declared_versions (metadata_files : list (File * pyval)) : gset string :=
  fold_left metadata_step metadata_files ∅.

Definition check_cross_references
    (metadata_files log_files : list (File * pyval)) : list string :=
  fold_left (log_step (declared_versions metadata_files)) log_files [].

(** What is fixed once the scan is done. *)
Record AuditEnv : Type := mkAuditEnv {
  env_root : Path;
  risk_level : string;
  candidates : gmap string (list File);
  parsed_metadata : list (File * pyval);
  parsed_logs : list (File * pyval);
  cross_reference_issues : list string
}.

Definition keyword_hit (meta : ItemMeta) (f : File) (content : string) : bool :=
  existsb (fun kw =>
             PyStr.contains (PyStr.lower kw) (PyStr.lower content)
             || PyStr.contains (PyStr.lower kw) (PyStr.lower (file_name f)))
          (keywords meta).

(** The body of the generic keyword loop for one file; the second
    component is the local [found_evidence]. *)
Definition keyword_step (env : AuditEnv) (item_key : string) (meta : ItemMeta)
    (acc : AuditState * bool) (f : File) : AuditState * bool :=
  match safe_read_text f with
  | None => acc
  | Some content =>
      if keyword_hit meta f content then
        (register_item_evidence (risk_level env) item_key f
           (add_check item_key
              ("Keyword match for '" +:+ en_name meta +:+ "' in " +:+ file_name f +:+ ".")
              (fst acc)),
         true)
      else acc
  end.

Definition keyword_loop (env : AuditEnv) (item_key : string) (meta : ItemMeta)
    (acc : AuditState * bool) : AuditState * bool :=
  fold_left (fun acc kv => fold_left (keyword_step env item_key meta) (snd kv) acc)
            (candidates_items (candidates env)) acc.

Definition register_all (env : AuditEnv) (item_key : string) (files : list File)
    (st : AuditState) : AuditState :=
  fold_left (fun st f => register_item_evidence (risk_level env) item_key f st) files st.

Definition dataset_hashes (env : AuditEnv) : list pyval :=
  omap (fun pm => dict_field "dataset_hash" (snd pm)) (parsed_metadata env).

Definition has_dvc_marker (env : AuditEnv) : bool :=
  existsb (fun p => PyStr.contains ".dvc" (path_str (abs_path (env_root env) p)))
          (cand (candidates env) "other_text").

Definition hash_listed (hashes : list pyval) (actual_hash : string) : bool :=
  existsb (fun v => py_eq_str v actual_hash) hashes.

Definition dataset_hash_step (env : AuditEnv) (item_key : string)
    (st : AuditState) (path : File) : AuditState :=
  if hash_listed (dataset_hashes env) (sha256_of_file path) then
    register_item_evidence (risk_level env) item_key path
      (add_check item_key ("Dataset hash validated for " +:+ file_name path +:+ ".") st)
  else st.

Definition has_version_metadata (env : AuditEnv) : bool :=
  existsb (fun pm => bool_decide (is_Some (dict_field "version" (snd pm))))
          (parsed_metadata env).

Definition all_components_found (env : AuditEnv) : bool :=
  forallb (fun b : bool => b)
    [ (0 <? List.length (cand (candidates env) "training_configs"))%nat;
      (0 <? List.length (cand (candidates env) "requirements_files"))%nat;
      (0 <? List.length (cand (candidates env) "dataset_files"))%nat;
      (0 <? List.length (cand (candidates env) "model_artifacts"))%nat ].

(** [m.get(field) == actual_hash] for some parsed metadata [m] *)
Definition metadata_records_hash (env : AuditEnv) (field actual_hash : string) : bool :=
  existsb (fun pm => match dict_field field (snd pm) with
                     | Some v => py_eq_str v actual_hash
                     | None => false
                     end)
          (parsed_metadata env).

Definition integrity_confirmed (env : AuditEnv) (path : File) : bool :=
  metadata_records_hash env "dataset_hash" (sha256_of_file path)
  || metadata_records_hash env "model_hash" (sha256_of_file path).

Definition integrity_step (env : AuditEnv) (item_key : string)
    (acc : AuditState * bool) (path : File) : AuditState * bool :=
  if integrity_confirmed env path then
    (register_item_evidence (risk_level env) item_key path
       (add_check item_key ("File integrity confirmed for " +:+ file_name path +:+ ".")
                  (fst acc)),
     true)
  else acc.

(** The [if item_key == ... elif ...] chain of item-specific checks. *)
Definition specific_checks (env : AuditEnv) (item_key : string)
    (acc : AuditState * bool) : AuditState * bool :=
  if String.eqb item_key "dataset_versioning" then
    if non_nil (dataset_hashes env) || has_dvc_marker env then
      (fold_left (dataset_hash_step env item_key) (cand (candidates env) "dataset_files")
         (add_check item_key
            "Specific dataset versioning artifacts found (DVC or dataset_hash)." (fst acc)),
       true)
    else acc
  else if String.eqb item_key "model_versioning" then
    if non_nil (cand (candidates env) "model_artifacts") || has_version_metadata env then
      (register_all env item_key (cand (candidates env) "model_artifacts")
         (add_check item_key
            "Specific model versioning artifacts found (model files or version metadata)."
            (fst acc)),
       true)
    else acc
  else if String.eqb item_key "reproducibility_capability" then
    if all_components_found env then
      (fold_left (fun st category => register_all env item_key (cand (candidates env) category) st)
         ["training_configs"; "requirements_files"; "dataset_files"; "model_artifacts"]
         (add_check item_key
            "All core components for reproducibility found (config, deps, data, model)."
            (fst acc)),
       true)
    else acc
  else if String.eqb item_key "cross_reference" then
    if negb (non_nil (cross_reference_issues env)) then
      (register_all env item_key (map fst (parsed_logs env ++ parsed_metadata env))
         (add_check item_key
            "Cross-references between logs and metadata are consistent." (fst acc)),
       true)
    else acc
  else if String.eqb item_key "file_integrity_hash" then
    fold_left (integrity_step env item_key)
              (cand (candidates env) "dataset_files" ++ cand (candidates env) "model_artifacts")
              acc
  else acc.

(** The last lines of the item loop: score, status and the running total. *)
Definition conclude_item (item_key : string) (meta : ItemMeta)
    (acc : AuditState * bool) : AuditState :=
  let st :=
    if snd acc then
      update_item item_key (set_status found)
        (update_item item_key (set_score (weight meta)) (fst acc))
    else
      update_item item_key (set_status not_found)
        (add_check item_key ("No clear evidence found for '" +:+ en_name meta +:+ "'.")
                   (fst acc)) in
  with_total_score st
    (total_score st + from_option score 0 (details st !! item_key)).

(** One iteration of [for item_key, item_meta in TRACEABILITY_ITEMS.items()].
    With a complete result already stored, every [setdefault] of the
    [else] arm leaves it as it is. *)
Definition eval_item (env : AuditEnv) (st : AuditState)
    (item : string * ItemMeta) : AuditState :=
  let item_key := fst item in
  let item_meta := snd item in
  let st0 :=
    match details st !! item_key with
    | None => with_details st (<[item_key := initial_result (risk_level env) item_meta]> (details st))
    | Some _ => st
    end in
  if negb (from_option is_required_for_risk false (details st0 !! item_key)) then
    update_item item_key (set_status optional) st0
  else
    conclude_item item_key item_meta
      (specific_checks env item_key
         (keyword_loop env item_key item_meta (st0, false))).

(** The dictionary [perform_audit] returns. [retention_issues], which
    compares creation times with the wall clock, is not part of it here. *)
Record AuditResults : Type := mkAuditResults {
  summary_total_score : Z;
  summary_max_score : Z;
  summary_scanned_files : nat;
  summary_risk_level : string;
  summary_required_items_count : nat;
  result_details : gmap string ItemResult;
  result_evidence_index : gmap string string;
  result_cross_reference_issues : list string;
  scanned_categories : list (string * nat)
}.

Definition audit_env (r : Repo) (risk : string) : AuditEnv :=
  let c := scan_repository r in
  let pm := map (fun p => (p, load_file p)) (cand c "metadata_files") in
  let pl := map (fun p => (p, load_file p)) (cand c "decision_logs") in
  mkAuditEnv (repo_root r) risk c pm pl (check_cross_references pm pl).

Definition initial_state (d : EvidenceDir) : AuditState :=
  mkAuditState 0 ∅ ∅ d.

(** The state after the item loop. *)
Definition audit_run (r : Repo) (d : EvidenceDir) (risk : string) : AuditState :=
  fold_left (eval_item (audit_env r risk)) TRACEABILITY_ITEMS (initial_state d).

Definition perform_audit (r : Repo) (d : EvidenceDir) (risk : string)
    : AuditResults * EvidenceDir :=
  let env := audit_env r risk in
  let st := audit_run r d risk in
  (mkAuditResults
     (total_score st)
     (max_score_for risk)
     (sum_list_with (fun kv => List.length (snd kv)) (candidates_items (candidates env)))
     risk
     (List.length (required_items risk))
     (details st)
     (evidence_index st)
     (cross_reference_issues env)
     (map (fun kv => (fst kv, List.length (snd kv))) (candidates_items (candidates env))),
   evidence_dir st).

End Audit.

(** ** Report assembly *)

(** A call either returns or raises. *)
Inductive outcome (A : Type) : Type :=
| Returns (a : A)
| Raises (exception : string).
Arguments Returns {A} a.
Arguments Raises {A} exception.

Definition bind_outcome {A B : Type} (m : outcome A) (k : A -> outcome B) : outcome B :=
  match m with
  | Returns a => k a
  | Raises e => Raises e
  end.

Section Report.

(** Python's [float] with the three operations the summary uses; the
    quotient is only ever asked for a divisor other than zero. *)
Variable float : Type.
Variable float_zero : float.                   (* [0.0] *)
Variable int_quotient : Z -> Z -> float.       (* [a / b] on integers, [b] not zero *)
Variable float_times : float -> Z -> float.    (* [x * n] *)
Variable float_round : float -> Z -> float.    (* [round(x, ndigits)] *)

(** [a / b] on Python integers *)
Definition truediv (a b : Z) : outcome float :=
  if b =? 0 then Raises "ZeroDivisionError: division by zero"
  else Returns (int_quotient a b).

(** [round((total_score / max_score) * 100, 2) if max_score > 0 else 0.0] *)
Definition compliance_percentage_of (total_score max_score : Z) : outcome float :=
  if 0 <? max_score then
    bind_outcome (truediv total_score max_score)
      (fun q => Returns (float_round (float_times q 100) 2))
  else Returns float_zero.

(** The report, without the fields drawn from the environment (identifier,
    timestamp, user) and with one rendering of the details instead of one
    per language: each language carries the same result. *)
Record Report : Type := mkReport {
  report_risk_level : string;
  report_total_score : Z;
  report_max_score : Z;
  compliance_percentage : float;
  report_scanned_files : nat;
  report_required_items_count : nat;
  report_details : gmap string ItemResult;
  report_evidence_index : gmap string string;
  issues_cross_reference : list string;
  report_scanned_categories : list (string * nat)
}.

Definition generate_multilingual_report (audit_results : AuditResults) : outcome Report :=
  let total_score := summary_total_score audit_results in
  let max_score := summary_max_score audit_results in
  bind_outcome (compliance_percentage_of total_score max_score)
    (fun pct =>
       Returns (mkReport
                  (summary_risk_level audit_results)
                  total_score max_score pct
                  (summary_scanned_files audit_results)
                  (summary_required_items_count audit_results)
                  (result_details audit_results)
                  (result_evidence_index audit_results)
                  (result_cross_reference_issues audit_results)
                  (scanned_categories audit_results))).

End Report.

(** ** The run as [main] starts it *)

(** [EVIDENCE_DIR = PRINCIPLE_DIR / "evidence"], created with
    [exist_ok=True]: it may already hold entries of earlier runs. *)
Definition EVIDENCE_DIR (existing : list ArchiveEntry) : EvidenceDir :=
  mkEvidenceDir "evidence" existing.

Definition main_audit (py_str : pyval -> string) (r : Repo)
    (existing : list ArchiveEntry) (risk : string) : AuditResults * EvidenceDir :=
  perform_audit py_str r (EVIDENCE_DIR existing) risk.

(** Python's [str] on the scalars of a parsed document; lists and
    dictionaries, whose text is their [repr], are not rendered. *)
Definition py_str_scalar (v : pyval) : string :=
  match v with
  | PyNone => "None"
  | PyBool true => "True"
  | PyBool false => "False"
  | PyInt z => pretty z
  | PyFloat shown => shown
  | PyStr s => s
  | PyList _ => "[...]"
  | PyDict _ => "{...}"
  end.

(** A readable regular text file for the examples. *)
Definition text_file (parts : list string) (content : string) (parsed : pyval) : File :=
  mkFile parts true 1700000000 (Some content) parsed
         "e3b0c44298fc1c149afbf4c8996fb92427ae41e4649b934ca495991b7852b855" None None.

(** A regular file that the process may not read: sampling gives nothing,
    [load_file] hands back its error text, hashing and copying raise. *)
Definition unreadable_file (parts : list string) : File :=
  mkFile parts true 1700000000 None (PyStr "error_reading_file: [Errno 13] Permission denied")
         "" (Some "[Errno 13] Permission denied") (Some "[Errno 13] Permission denied").

(** ** Specification-side notions *)

(** The catalog items whose [required_for] list contains the tier. *)
Definition applicable_items (tier : string) : list (string * ItemMeta) :=
  List.filter (fun kv => str_in_list tier (required_for (snd kv))) TRACEABILITY_ITEMS.

(** [pattern] matches the lowercased name or extension of [f]. *)
Definition file_matches (f : File) (pattern : string) : bool :=
  pattern_matches (PyStr.lower (file_name f)) (PyStr.lower (path_suffix (file_name f)))
                  pattern.

(** [category] is the first entry of [table] one of whose patterns matches
    [f]: some pattern of the entry matches, and no pattern of any earlier
    entry does. *)
Definition first_match_in (table : list (string * list string)) (f : File)
    (category : string) : Prop :=
  exists pre patterns post,
    table = pre ++ (category, patterns) :: post
    /\ (exists p, In p patterns /\ file_matches f p = true)
    /\ (forall c' patterns' p',
          In (c', patterns') pre -> In p' patterns' -> file_matches f p' = false).

(** [f] is a regular file of the listing that the ignore filter lets
    through. *)
Definition scanned (r : Repo) (f : File) : Prop :=
  root_is_dir r = true /\ In f (repo_listing r) /\ is_file f = true
  /\ is_skipped (repo_root r) f = false.

(** The test the scanner applies to one listing entry for one category. *)
Definition lands_in (root : Path) (category : string) (f : File) : bool :=
  is_file f && negb (is_skipped root f) &&
  match first_category FILE_PATTERNS (PyStr.lower (file_name f))
                       (PyStr.lower (path_suffix (file_name f))) with
  | Some c => String.eqb c category
  | None => false
  end.

Section ValidatorSpec.

Variable py_str : pyval -> string.

(** The documents a log holds: the log itself when it is a dictionary,
    its elements when it is a list. *)
Definition log_entries (log_data : pyval) : list pyval :=
  match log_data with
  | PyDict _ => [log_data]
  | PyList l => l
  | _ => []
  end.

(** The version an entry declares, when it declares one that is not in
    [versions]. *)
Definition unknown_version (versions : gset string) (entry : pyval) : option string :=
  match dict_field "model_version" entry with
  | Some v => if bool_decide (py_str v ∈ versions) then None else Some (py_str v)
  | None => None
  end.

(** All unknown versions a log declares, in entry order. *)
Definition unknown_versions (versions : gset string) (log_data : pyval) : list string :=
  omap (unknown_version versions) (log_entries log_data).

(** The issue, if any, that a log gives rise to: the one for its first
    unknown version. *)
Definition reported_issue (versions : gset string) (pl : File * pyval) : option string :=
  issue_text (fst pl) <$> head (unknown_versions versions (snd pl)).

End ValidatorSpec.

(** The digest part of an archive name: [file_hash], or ["unknown"] when
    hashing reported an error. *)
Definition archive_hash (src : File) : string :=
  if PyStr.startswith "error" (sha256_of_file src) then "unknown" else sha256_of_file src.

(** [<mtime>_<digest-prefix>__<original-name>] *)
Definition archive_name_first (src : File) : string :=
  dest_name_first (st_mtime src) (archive_hash src) (file_name src).

(** [<mtime>_<digest-prefix>__<counter>__<original-name>] *)
Definition archive_name_numbered (src : File) (counter : Z) : string :=
  dest_name_numbered (st_mtime src) (archive_hash src) counter (file_name src).

(** The directory after one more entry was written to it. *)
Definition with_entry (d : EvidenceDir) (name : string) (src : File) : EvidenceDir :=
  mkEvidenceDir (dir_name d) (entries d ++ [mkEntry name (rel_path src)]).

(** Some scanned, readable file has one of the item's keywords in its
    sampled content or in its name (both compared in lower case). *)
Definition keyword_evidence (env : AuditEnv) (meta : ItemMeta) : Prop :=
  exists category f content kw,
    In category (map fst FILE_PATTERNS)
    /\ In f (cand (candidates env) category)
    /\ safe_read_text f = Some content
    /\ In kw (keywords meta)
    /\ (PyStr.contains (PyStr.lower kw) (PyStr.lower content) = true
        \/ PyStr.contains (PyStr.lower kw) (PyStr.lower (file_name f)) = true).

(** The same, as the value of [found_evidence] after the keyword loop. *)
Definition keyword_found (env : AuditEnv) (meta : ItemMeta) : bool :=
  existsb (fun kv =>
             existsb (fun f => match safe_read_text f with
                               | Some content => keyword_hit meta f content
                               | None => false
                               end) (snd kv))
          (candidates_items (candidates env)).

(** Whether the item-specific check of [item_key] sets [found_evidence]. *)
Definition specific_found (env : AuditEnv) (item_key : string) : bool :=
  if String.eqb item_key "dataset_versioning" then
    non_nil (dataset_hashes env) || has_dvc_marker env
  else if String.eqb item_key "model_versioning" then
    non_nil (cand (candidates env) "model_artifacts") || has_version_metadata env
  else if String.eqb item_key "reproducibility_capability" then
    all_components_found env
  else if String.eqb item_key "cross_reference" then
    negb (non_nil (cross_reference_issues env))
  else if String.eqb item_key "file_integrity_hash" then
    existsb (integrity_confirmed env)
            (cand (candidates env) "dataset_files" ++ cand (candidates env) "model_artifacts")
  else false.

Definition item_found (env : AuditEnv) (item_key : string) (meta : ItemMeta) : bool :=
  keyword_found env meta || specific_found env item_key.

(** What the item loop leaves under an item's key. *)
Definition expected_result (risk : string) (meta : ItemMeta) (found_flag : bool)
    (r : ItemResult) : Prop :=
  res_weight r = weight meta
  /\ is_required_for_risk r = str_in_list risk (required_for meta)
  /\ if str_in_list risk (required_for meta)
     then status r = (if found_flag then found else not_found)
          /\ score r = (if found_flag then weight meta else 0)
     else status r = optional /\ score r = 0 /\ evidence r = [].

(** The fields of a result that recording checks and evidence leaves
    alone; evidence only grows. *)
Definition same_core (r r' : ItemResult) : Prop :=
  res_weight r' = res_weight r /\ score r' = score r /\ status r' = status r
  /\ is_required_for_risk r' = is_required_for_risk r
  /\ (evidence r <> [] -> evidence r' <> []).

(** [st'] differs from [st] in the details only under [item_key], and
    there only by recorded checks and evidence. *)
Definition item_rel (item_key : string) (st st' : AuditState) : Prop :=
  total_score st' = total_score st
  /\ (forall k, k <> item_key -> details st' !! k = details st !! k)
  /\ (forall r, details st !! item_key = Some r ->
                exists r', details st' !! item_key = Some r' /\ same_core r r').

(** The catalog entry of an item. *)
Definition catalog_meta (item_key : string) : ItemMeta :=
  default (mkItemMeta 0 "" [] []) (table_get item_key TRACEABILITY_ITEMS).

(** The item applies to the tier: the tier is in its [required_for]. *)
Definition applicable (risk item_key : string) : Prop :=
  In risk (required_for (catalog_meta item_key)).

(** The four categories the reproducibility check looks at all hold a file. *)
Definition four_components_present (c : gmap string (list File)) : Prop :=
  cand c "training_configs" <> [] /\ cand c "requirements_files" <> []
  /\ cand c "dataset_files" <> [] /\ cand c "model_artifacts" <> [].



(** The directory of the reproducibility scenario: a dependency manifest,
    a training configuration, a dataset and a model, none of which
    mentions a reproducibility keyword. *)
Definition reproducibility_scenario : list File :=
  [ text_file ["requirements.txt"] "numpy" (PyStr "numpy");
    text_file ["train_config.yaml"] "lr: 1" (PyDict [("lr", PyInt 1)]);
    text_file ["dataset.csv"] "id,label" (PyList []);
    text_file ["model.pkl"] "" (PyStr "") ].

(** ** Notions used by the further properties *)

(** The points an item adds to the running total: its weight when it
    applies to the tier and evidence was found, nothing otherwise. *)
Definition item_points (env : AuditEnv) (item : string * ItemMeta) : Z :=
  if str_in_list (risk_level env) (required_for (snd item))
  then if item_found env (fst item) (snd item) then weight (snd item) else 0
  else 0.

(** The name of a directory component makes the scanner skip what is
    below it. *)
Definition ignored_part (part : string) : bool := str_in_list part IGNORED_DIRS.

(** The result stored under [item_key] lists the path [p] as evidence. *)
Definition cites (item_key p : string) (st : AuditState) : Prop :=
  exists res, details st !! item_key = Some res /\ In p (evidence res).

(** The listing entry is a regular file that the ignore filter lets
    through and that some pattern of the table matches. *)
Definition classified (root : Path) (f : File) : bool :=
  is_file f && negb (is_skipped root f) &&
  bool_decide (is_Some (first_category FILE_PATTERNS (PyStr.lower (file_name f))
                                       (PyStr.lower (path_suffix (file_name f))))).

(** The items for which the evaluator has a check of its own. *)
Definition specific_items : list string :=
  [ "dataset_versioning"; "model_versioning"; "reproducibility_capability";
    "cross_reference"; "file_integrity_hash" ].

(** Some scanned metadata file parses to a dictionary with the field
    [field], whose value satisfies [ok]. *)
Definition metadata_declares (r : Repo) (field : string) (ok : pyval -> Prop) : Prop :=
  exists m v,
    In m (cand (scan_repository r) "metadata_files")
    /\ dict_field field (load_file m) = Some v /\ ok v.

(** Whether the item-specific check of [item_key] registers a file. *)
Definition specific_cited (env : AuditEnv) (item_key : string) : bool :=
  if String.eqb item_key "dataset_versioning" then
    existsb (fun f => hash_listed (dataset_hashes env) (sha256_of_file f))
            (cand (candidates env) "dataset_files")
  else if String.eqb item_key "model_versioning" then
    non_nil (cand (candidates env) "model_artifacts")
  else if String.eqb item_key "reproducibility_capability" then
    all_components_found env
  else if String.eqb item_key "cross_reference" then
    negb (non_nil (cross_reference_issues env))
    && non_nil (parsed_logs env ++ parsed_metadata env)
  else if String.eqb item_key "file_integrity_hash" then
    existsb (integrity_confirmed env)
            (cand (candidates env) "dataset_files" ++ cand (candidates env) "model_artifacts")
  else false.

(** The three situations in which a specific check can succeed with no
    file to show for it: consistent cross-references of a tree without
    decision logs and metadata files; model versioning known only from a
    [version] field, with no model artifact; dataset versioning known from
    a [dataset_hash] field or a [.dvc] path, with no dataset file whose
    digest is a declared [dataset_hash]. *)
Definition no_file_to_cite (r : Repo) (item_key : string) : Prop :=
  (item_key = "cross_reference"
   /\ cand (scan_repository r) "decision_logs" = []
   /\ cand (scan_repository r) "metadata_files" = [])
  \/ (item_key = "model_versioning" /\ cand (scan_repository r) "model_artifacts" = [])
  \/ (item_key = "dataset_versioning"
      /\ forall f, In f (cand (scan_repository r) "dataset_files") ->
           ~ metadata_declares r "dataset_hash" (fun v => v = PyStr (sha256_of_file f))).

(** Two states of a run agree on what goes into the scores and details. *)
Definition same_results (st1 st2 : AuditState) : Prop :=
  total_score st1 = total_score st2 /\ details st1 = details st2.

(** Two accumulators of the evidence-seeking loops agree: on the results
    and on the local [found_evidence]. *)
Definition same_progress (acc1 acc2 : AuditState * bool) : Prop :=
  same_results (fst acc1) (fst acc2) /\ snd acc1 = snd acc2.

(** * Properties *)

(** ** Strings and paths *)

Example ex_suffix :
  path_suffix "train_config.yaml" = ".yaml" /\ path_suffix ".bashrc" = ""
  /\ path_suffix "a.tar.gz" = ".gz" /\ path_suffix "foo." = "".
Proof. repeat split. Qed.

Example ex_parents : path_parents ["a"; "b"; "c"] = [["a"; "b"]; ["a"]; []].
Proof. reflexivity. Qed.

Example ex_lower : PyStr.lower "Train_Config.YAML" = "train_config.yaml".
Proof. reflexivity. Qed.

Example ex_scan_root :
  cand (scan_repository (mkRepo [] true [text_file ["train_config.yaml"] "" PyNone]))
       "dataset_files"
  = [text_file ["train_config.yaml"] "" PyNone].
Proof. vm_compute. reflexivity. Qed.

Example ex_scan_nonroot :
  cand (scan_repository (mkRepo ["repo"] true [text_file ["train_config.yaml"] "" PyNone]))
       "dataset_files"
  = [].
Proof. vm_compute. reflexivity. Qed.

Example ex_audit_empty_high :
  status <$> (result_details (fst (main_audit py_str_scalar (mkRepo ["repo"] true []) [] "high"))
              !! "cross_reference") = Some found.
Proof. vm_compute. reflexivity. Qed.

(** ** Catalog and risk tiers *)

Lemma str_in_list_In (s : string) (l : list string) :
  str_in_list s l = true <-> In s l.
Proof.
  unfold str_in_list. rewrite existsb_exists. split.
  - intros (x & Hx & Heq). apply String.eqb_eq in Heq. now subst.
  - intros H. exists s. split; [assumption | apply String.eqb_refl].
Qed.

Lemma table_get_In {A : Type} (key : string) (table : list (string * A)) (v : A) :
  table_get key table = Some v -> In (key, v) table.
Proof.
  induction table as [|[k a] rest IH]; simpl; [discriminate|].
  destruct (String.eqb k key) eqn:E.
  - apply String.eqb_eq in E. intros [= ->]. subst. now left.
  - intros H. right. now apply IH.
Qed.

Lemma table_get_NoDup {A : Type} (key : string) (table : list (string * A)) (v : A) :
  List.NoDup (map fst table) -> In (key, v) table -> table_get key table = Some v.
Proof.
  induction table as [|[k a] rest IH]; simpl; [intros _ []|].
  intros Hnd [Heq | Hin].
  - inversion Heq; subst. now rewrite String.eqb_refl.
  - apply NoDup_cons_iff in Hnd as [Hk Hnd].
    destruct (String.eqb k key) eqn:E.
    + apply String.eqb_eq in E. subst. exfalso. apply Hk.
      change key with (fst (key, v)). now apply in_map.
    + now apply IH.
Qed.

Lemma catalog_keys_NoDup : List.NoDup (map fst TRACEABILITY_ITEMS).
Proof.
  apply (NoDup_ListNoDup (map fst TRACEABILITY_ITEMS)).
  apply (bool_decide_unpack (NoDup (map fst TRACEABILITY_ITEMS))).
  vm_compute. exact I.
Qed.

(** Every identifier listed under a tier is a key of the catalog, so
    [TRACEABILITY_ITEMS[item]] never raises. *)
Lemma risk_levels_in_catalog (tier item : string) (items : list string) :
  In (tier, items) RISK_LEVELS -> In item items ->
  exists meta, table_get item TRACEABILITY_ITEMS = Some meta.
Proof.
  intros Ht Hi. simpl in Ht.
  destruct Ht as [Ht | [Ht | [Ht | []]]]; inversion Ht; subst; clear Ht;
    simpl in Hi;
    repeat (destruct Hi as [<- | Hi]; [eexists; vm_compute; reflexivity|]);
    destruct Hi.
Qed.

(** C5. For each of the tiers high, limited and low, the [max_score] of the
    summary is the sum of the weights of the catalog items whose
    [required_for] contains the tier, and the tier's list in [RISK_LEVELS]
    names exactly those items. *)
Theorem max_score_sums_applicable_weights
    (py_str : pyval -> string) (r : Repo) (d : EvidenceDir) (tier : string) :
  In tier ["high"; "limited"; "low"] ->
  summary_max_score (fst (perform_audit py_str r d tier))
    = sum_Z (map (fun kv => weight (snd kv)) (applicable_items tier))
  /\ required_items tier = map fst (applicable_items tier).
Proof.
  intros Ht. simpl in Ht.
  destruct Ht as [<- | [<- | [<- | []]]]; split; vm_compute; reflexivity.
Qed.

Lemma max_score_sums_applicable_weights_witness :
  summary_max_score
    (fst (perform_audit py_str_scalar (mkRepo ["srv"; "repo"] true []) (EVIDENCE_DIR []) "limited"))
    = sum_Z (map (fun kv => weight (snd kv)) (applicable_items "limited"))
  /\ required_items "limited" = map fst (applicable_items "limited").
Proof.
  apply (max_score_sums_applicable_weights py_str_scalar _ _ "limited").
  simpl. right. left. reflexivity.
Defined.

Example max_score_values :
  max_score_for "high" = 183 /\ max_score_for "limited" = 90 /\ max_score_for "low" = 46
  /\ max_score_for "unknown" = 0.
Proof. repeat split; vm_compute; reflexivity. Qed.

(** ** File classifier *)

Lemma first_category_first_match (table : list (string * list string)) (f : File)
    (category : string) :
  first_category table (PyStr.lower (file_name f))
                 (PyStr.lower (path_suffix (file_name f))) = Some category
  <-> first_match_in table f category.
Proof.
  unfold first_match_in, file_matches.
  set (n := PyStr.lower (file_name f)). set (s := PyStr.lower (path_suffix (file_name f))).
  induction table as [|[c pats] rest IH]; simpl.
  - split; [discriminate|]. intros (pre & ? & ? & Heq & _). now destruct pre.
  - destruct (existsb (pattern_matches n s) pats) eqn:E.
    + split.
      * intros [= <-]. exists [], pats, rest. split; [reflexivity|]. split.
        -- apply existsb_exists in E as (p & Hp & Hm). now exists p.
        -- intros ? ? ? [].
      * intros (pre & pats' & post & Heq & Hex & Hpre).
        destruct pre as [|[c0 pats0] pre].
        -- simpl in Heq. now inversion Heq.
        -- simpl in Heq. inversion Heq; subst. exfalso.
           apply existsb_exists in E as (p & Hp & Hm).
           rewrite (Hpre c0 pats0 p) in Hm; [discriminate | now left | assumption].
    + rewrite IH. split.
      * intros (pre & pats' & post & Heq & Hex & Hpre).
        exists ((c, pats) :: pre), pats', post. split; [simpl; now rewrite Heq|].
        split; [assumption|].
        intros c' patterns' p' [Hin | Hin] Hp'.
        -- inversion Hin; subst. destruct (pattern_matches n s p') eqn:Em; [|reflexivity].
           assert (existsb (pattern_matches n s) patterns' = true) as Hc
             by (apply existsb_exists; now exists p').
           congruence.
        -- now apply (Hpre c' patterns' p').
      * intros (pre & pats' & post & Heq & Hex & Hpre).
        destruct pre as [|[c0 pats0] pre].
        -- simpl in Heq. inversion Heq; subst. destruct Hex as (p & Hp & Hm).
           assert (existsb (pattern_matches n s) pats' = true) as Hc
             by (apply existsb_exists; now exists p).
           congruence.
        -- simpl in Heq. inversion Heq; subst.
           exists pre, pats', post. split; [reflexivity|]. split; [assumption|].
           intros c' patterns' p' Hin. apply (Hpre c' patterns' p'). now right.
Qed.

Lemma cand_empty_candidates (category : string) : cand empty_candidates category = [].
Proof.
  unfold cand. destruct (empty_candidates !! category) as [l|] eqn:E; [|reflexivity].
  simpl. unfold empty_candidates in E.
  apply elem_of_list_to_map_2 in E. apply list_elem_of_In in E.
  apply in_map_iff in E as (kv & Heq & _). now inversion Heq.
Qed.

Lemma cand_insert (c : gmap string (list File)) (k category : string) (l : list File) :
  cand (<[k := l]> c) category = if String.eqb k category then l else cand c category.
Proof.
  unfold cand. destruct (String.eqb k category) eqn:E.
  - apply String.eqb_eq in E. subst. now rewrite lookup_insert_eq.
  - apply String.eqb_neq in E. now rewrite lookup_insert_ne.
Qed.

Lemma scan_step_cand (root : Path) (c : gmap string (list File)) (f : File)
    (category : string) :
  cand (scan_step root c f) category
  = cand c category ++ (if lands_in root category f then [f] else []).
Proof.
  unfold scan_step, lands_in.
  generalize (first_category FILE_PATTERNS (PyStr.lower (file_name f))
                (PyStr.lower (path_suffix (file_name f)))) as fc.
  intros fc.
  destruct (is_file f); simpl; [|now rewrite app_nil_r].
  destruct (is_skipped root f); simpl; [now rewrite app_nil_r|].
  destruct fc as [k|]; [|now rewrite app_nil_r].
  rewrite cand_insert. destruct (String.eqb k category) eqn:E.
  - apply String.eqb_eq in E. now subst.
  - now rewrite app_nil_r.
Qed.

Lemma scan_fold_cand (root : Path) (l : list File) (c : gmap string (list File))
    (category : string) :
  cand (fold_left (scan_step root) l c) category
  = cand c category ++ List.filter (lands_in root category) l.
Proof.
  revert c. induction l as [|f l IH]; intros c; simpl.
  - now rewrite app_nil_r.
  - rewrite IH, scan_step_cand. rewrite <- app_assoc. f_equal.
    now destruct (lands_in root category f).
Qed.

(** Each category list is the sub-list of the listing, in listing order,
    of the entries that land in that category. *)
Lemma scan_repository_cand (r : Repo) (category : string) :
  cand (scan_repository r) category
  = if root_is_dir r then List.filter (lands_in (repo_root r) category) (repo_listing r)
    else [].
Proof.
  unfold scan_repository. destruct (root_is_dir r); simpl.
  - now rewrite scan_fold_cand, cand_empty_candidates.
  - apply cand_empty_candidates.
Qed.

Lemma in_scan_repository (r : Repo) (f : File) (category : string) :
  In f (cand (scan_repository r) category)
  <-> scanned r f /\ first_match_in FILE_PATTERNS f category.
Proof.
  rewrite scan_repository_cand, <- first_category_first_match. unfold scanned.
  destruct (root_is_dir r).
  - rewrite filter_In. unfold lands_in.
    generalize (first_category FILE_PATTERNS (PyStr.lower (file_name f))
                  (PyStr.lower (path_suffix (file_name f)))) as fc.
    intros fc.
    destruct (is_file f), (is_skipped (repo_root r) f); simpl;
      try (split; [intros [_ [=]] | intros [(_ & _ & H1 & H2) _]; discriminate]).
    destruct fc as [k|].
    + rewrite String.eqb_eq. split.
      * intros [Hin ->]. auto.
      * intros [(_ & Hin & _) [= ->]]. auto.
    + split; [intros [_ [=]] | intros [_ [=]]].
  - simpl. split; [intros [] | intros [([=] & _) _]].
Qed.

(** C8. A listing entry is put in at most one category, the first one of
    [FILE_PATTERNS] with a pattern matching its lowercased name or
    extension; an entry that no pattern matches is in no category. *)
Theorem classifier_first_match_wins (r : Repo) (f : File) :
  (forall category,
      In f (cand (scan_repository r) category)
      <-> scanned r f /\ first_match_in FILE_PATTERNS f category)
  /\ (forall c1 c2,
         In f (cand (scan_repository r) c1) -> In f (cand (scan_repository r) c2) -> c1 = c2)
  /\ ((forall category patterns p,
          In (category, patterns) FILE_PATTERNS -> In p patterns -> file_matches f p = false)
      -> forall category, ~ In f (cand (scan_repository r) category))
  /\ (forall category,
         root_is_dir r = true ->
         cand (scan_repository r) category
         = List.filter (lands_in (repo_root r) category) (repo_listing r)).
Proof.
  split; [intros category; apply in_scan_repository|].
  split.
  - intros c1 c2 H1 H2.
    apply in_scan_repository in H1 as [_ H1]. apply in_scan_repository in H2 as [_ H2].
    apply first_category_first_match in H1, H2. congruence.
  - split.
    + intros Hnone category Hin.
      apply in_scan_repository in Hin as [_ (pre & pats & post & Heq & (p & Hp & Hm) & _)].
      rewrite (Hnone category pats p) in Hm; [discriminate | | assumption].
      rewrite Heq. apply in_elt.
    + intros category Hdir. rewrite scan_repository_cand. now rewrite Hdir.
Qed.

(** Below any root other than [/], the ancestor [/] of every entry is not
    under the root, [relative_to] raises and the entry is skipped. *)
Lemma is_skipped_below_root (root : Path) (f : File) :
  root <> [] -> is_skipped root f = true.
Proof.
  intros Hroot. unfold is_skipped. apply existsb_exists. exists []. split.
  - unfold path_parents, abs_path. apply in_rev. rewrite rev_involutive.
    destruct root as [|x root]; [contradiction|]. simpl. now left.
  - unfold should_ignore_dir. destruct root; [contradiction | reflexivity].
Qed.

Lemma scan_repository_below_root (r : Repo) (category : string) :
  repo_root r <> [] -> cand (scan_repository r) category = [].
Proof.
  intros Hroot. rewrite scan_repository_cand. destruct (root_is_dir r); [|reflexivity].
  induction (repo_listing r) as [|f l IH]; [reflexivity|]. simpl.
  unfold lands_in at 1. rewrite (is_skipped_below_root _ f Hroot).
  rewrite andb_false_r. exact IH.
Qed.

(** ** Cross-reference validator *)

Section ValidatorFacts.

Variable py_str : pyval -> string.

Lemma declared_versions_fold (md : list (File * pyval)) (acc : gset string) (s : string) :
  s ∈ fold_left (metadata_step py_str) md acc
  <-> s ∈ acc
      \/ exists pm v, In pm md /\ dict_field "version" (snd pm) = Some v /\ s = py_str v.
Proof.
  revert acc. induction md as [|pm md IH]; intros acc; simpl.
  - split; [auto | intros [H | (? & ? & [] & _)]; exact H].
  - rewrite IH. unfold metadata_step at 1.
    destruct (dict_field "version" (snd pm)) as [v|] eqn:E.
    + rewrite elem_of_union, elem_of_singleton. split.
      * intros [[H | ->] | (pm' & v' & Hin & Hv & ->)]; eauto 8.
      * intros [H | (pm' & v' & [<- | Hin] & Hv & ->)]; eauto 8.
        rewrite E in Hv. inversion Hv; subst. auto.
    + split.
      * intros [H | (pm' & v' & Hin & Hv & ->)]; eauto 8.
      * intros [H | (pm' & v' & [<- | Hin] & Hv & ->)]; eauto 8. congruence.
Qed.

Lemma scan_entries_reports_first (versions : gset string) (f : File)
    (l : list pyval) (issues : list string) :
  scan_entries py_str versions f l issues
  = issues ++ match head (omap (unknown_version py_str versions) l) with
              | Some v => [issue_text f v]
              | None => []
              end.
Proof.
  induction l as [|entry l IH]; simpl.
  - now rewrite app_nil_r.
  - unfold unknown_version at 1.
    destruct (dict_field "model_version" entry) as [v|]; [|exact IH].
    destruct (bool_decide (py_str v ∈ versions)); [exact IH | reflexivity].
Qed.

Lemma log_step_reports (versions : gset string) (issues : list string)
    (pl : File * pyval) :
  log_step py_str versions issues pl
  = issues ++ match reported_issue py_str versions pl with
              | Some i => [i]
              | None => []
              end.
Proof.
  unfold log_step, reported_issue, unknown_versions.
  destruct pl as [f log_data]. simpl.
  destruct log_data as [| | | | |l|d]; simpl; try now rewrite app_nil_r.
  - rewrite scan_entries_reports_first.
    now destruct (head (omap (unknown_version py_str versions) l)).
  - unfold unknown_version. simpl.
    destruct (dict_lookup "model_version" d) as [v|]; [|now rewrite app_nil_r].
    now destruct (bool_decide (py_str v ∈ versions)); [rewrite app_nil_r|].
Qed.

Lemma check_fold_reports (versions : gset string) (logs : list (File * pyval))
    (issues : list string) :
  fold_left (log_step py_str versions) logs issues
  = issues ++ omap (reported_issue py_str versions) logs.
Proof.
  revert issues. induction logs as [|pl logs IH]; intros issues; simpl.
  - now rewrite app_nil_r.
  - rewrite IH, log_step_reports. rewrite <- app_assoc. f_equal.
    now destruct (reported_issue py_str versions pl).
Qed.

End ValidatorFacts.

(** C3, as the validator does it. The version set is the set of
    stringified [version] values of the metadata documents. Each log gives
    rise to at most one issue, which names the log file and the first
    unknown version the log declares: a dictionary log that declares an
    unknown version is reported with that version, a list log is reported
    once, for its first offending entry, and its later entries are not
    looked at. The issues come in log order. *)
Theorem cross_reference_issue_per_log
    (py_str : pyval -> string) (metadata_files log_files : list (File * pyval)) :
  (forall s, s ∈ declared_versions py_str metadata_files
             <-> exists pm v, In pm metadata_files
                              /\ dict_field "version" (snd pm) = Some v /\ s = py_str v)
  /\ check_cross_references py_str metadata_files log_files
     = omap (reported_issue py_str (declared_versions py_str metadata_files)) log_files
  /\ (forall pl v rest,
         In pl log_files ->
         unknown_versions py_str (declared_versions py_str metadata_files) (snd pl) = v :: rest ->
         In (issue_text (fst pl) v)
            (check_cross_references py_str metadata_files log_files)).
Proof.
  assert (check_cross_references py_str metadata_files log_files
          = omap (reported_issue py_str (declared_versions py_str metadata_files)) log_files)
    as Heq by (unfold check_cross_references; now rewrite check_fold_reports).
  split; [|split; [exact Heq|]].
  - intros s. unfold declared_versions. rewrite declared_versions_fold.
    rewrite elem_of_empty. tauto.
  - intros pl v rest Hin Hunk. rewrite Heq.
    apply list_elem_of_In. apply list_elem_of_omap. exists pl. split.
    + now apply list_elem_of_In.
    + unfold reported_issue. now rewrite Hunk.
Qed.

Lemma cross_reference_later_entry_unreported :
  let info := text_file ["metadata.yaml"] "version: '1.0'" (PyDict [("version", PyStr "1.0")]) in
  let log := text_file ["prediction_log.yaml"]
               "[{model_version: '2.0'}, {model_version: '3.0'}]"
               (PyList [PyDict [("model_version", PyStr "2.0")];
                        PyDict [("model_version", PyStr "3.0")]]) in
  let metadata_files := [(info, load_file info)] in
  let log_files := [(log, load_file log)] in
  In "3.0" (unknown_versions py_str_scalar
              (declared_versions py_str_scalar metadata_files) (load_file log))
  /\ check_cross_references py_str_scalar metadata_files log_files
     = [issue_text log "2.0"]
  /\ ~ In (issue_text log "3.0")
          (check_cross_references py_str_scalar metadata_files log_files).
Proof.
  split; [vm_compute; auto|].
  split; [vm_compute; reflexivity|].
  intros H. vm_compute in H. destruct H as [H | []]. discriminate H.
Qed.

(** ** Evidence archiver *)

Lemma string_length_app (s t : string) :
  String.length (s +:+ t) = (String.length s + String.length t)%nat.
Proof. induction s as [|c s IH]; simpl; [reflexivity | now rewrite IH]. Qed.

Lemma string_app_cancel_r (s1 s2 t : string) : s1 +:+ t = s2 +:+ t -> s1 = s2.
Proof.
  revert s2. induction s1 as [|c s1 IH]; intros [|c2 s2] H; simpl in H.
  - reflexivity.
  - apply (f_equal String.length) in H. simpl in H.
    rewrite !string_length_app in H. simpl in H. lia.
  - apply (f_equal String.length) in H. simpl in H.
    rewrite !string_length_app in H. simpl in H. lia.
  - inversion H; subst. f_equal. now apply IH.
Qed.

Lemma dest_name_numbered_inj (mtime : Z) (file_hash name : string) (i j : Z) :
  dest_name_numbered mtime file_hash i name = dest_name_numbered mtime file_hash j name ->
  i = j.
Proof.
  unfold dest_name_numbered. intros H.
  do 4 apply String.app_inj in H.
  apply string_app_cancel_r in H. now apply pretty_Z_inj in H.
Qed.

Lemma dest_exists_In (d : EvidenceDir) (name : string) :
  dest_exists d name = true <-> In name (map entry_name (entries d)).
Proof. apply str_in_list_In. Qed.

Lemma find_free_dest_is_free (fuel : nat) (d : EvidenceDir) (numbered : Z -> string)
    (dest : string) (counter : Z) (n : string) :
  find_free_dest fuel d numbered dest counter = Some n -> dest_exists d n = false.
Proof.
  revert dest counter. induction fuel as [|fuel IH]; intros dest counter; simpl;
    destruct (dest_exists d dest) eqn:E; try discriminate;
    try (intros [= <-]; exact E).
  apply IH.
Qed.

Lemma find_free_dest_shape (fuel : nat) (d : EvidenceDir) (numbered : Z -> string)
    (dest : string) (counter : Z) (n : string) :
  find_free_dest fuel d numbered dest counter = Some n ->
  (dest_exists d dest = false /\ n = dest)
  \/ (dest_exists d dest = true /\ exists k, counter <= k /\ n = numbered k).
Proof.
  revert dest counter. induction fuel as [|fuel IH]; intros dest counter; simpl;
    destruct (dest_exists d dest) eqn:E; try discriminate;
    try (intros [= <-]; left; split; reflexivity).
  intros H. right. split; [reflexivity|].
  apply IH in H as [[_ ->] | [_ (k & Hk & ->)]].
  - exists counter. split; [lia | reflexivity].
  - exists k. split; [lia | reflexivity].
Qed.

Lemma find_free_dest_exhausted (fuel : nat) (d : EvidenceDir) (numbered : Z -> string)
    (dest : string) (counter : Z) :
  find_free_dest fuel d numbered dest counter = None ->
  forall i, (i < fuel)%nat -> dest_exists d (numbered (counter + Z.of_nat i)) = true.
Proof.
  revert dest counter. induction fuel as [|fuel IH]; intros dest counter; simpl;
    destruct (dest_exists d dest) eqn:E; try discriminate.
  - intros _ i Hi. lia.
  - intros H i Hi. destruct i as [|i].
    + destruct fuel; simpl in H;
        destruct (dest_exists d (numbered counter)) eqn:E'; try discriminate;
        now rewrite Z.add_0_r.
    + replace (counter + Z.of_nat (S i)) with ((counter + 1) + Z.of_nat i) by lia.
      apply (IH _ _ H). lia.
Qed.

(** The loop ends: with one more unit of fuel than the directory has
    entries, a free name is found. *)
Lemma find_free_dest_total (d : EvidenceDir) (numbered : Z -> string)
    (dest : string) (counter : Z) :
  (forall i j, numbered i = numbered j -> i = j) ->
  exists n, find_free_dest (S (List.length (entries d))) d numbered dest counter = Some n.
Proof.
  intros Hinj.
  destruct (find_free_dest _ d numbered dest counter) as [n|] eqn:E; [now exists n|].
  exfalso.
  pose proof (find_free_dest_exhausted _ _ _ _ _ E) as Hall.
  set (tried := map (fun i => numbered (counter + Z.of_nat i))
                    (seq 0 (S (List.length (entries d))))).
  assert (List.NoDup tried) as Hnd.
  { apply Injective_map_NoDup_in; [|apply List.seq_NoDup].
    intros i j _ _ Hij. apply Hinj in Hij. lia. }
  assert (incl tried (map entry_name (entries d))) as Hincl.
  { intros x Hx. apply in_map_iff in Hx as (i & <- & Hi).
    apply in_seq in Hi. apply dest_exists_In. apply Hall. lia. }
  pose proof (List.NoDup_incl_length Hnd Hincl) as Hlen.
  unfold tried in Hlen. rewrite length_map, length_seq, length_map in Hlen. lia.
Qed.

Lemma find_free_dest_next (fuel : nat) (d : EvidenceDir) (numbered : Z -> string)
    (dest : string) (counter : Z) :
  dest_exists d dest = true -> dest_exists d (numbered counter) = false ->
  find_free_dest (S fuel) d numbered dest counter = Some (numbered counter).
Proof.
  intros Hdest Hfree. simpl. rewrite Hdest.
  destruct fuel; simpl; now rewrite Hfree.
Qed.

Lemma copy_evidence_archives (src : File) (d : EvidenceDir) :
  is_file src = true -> copy_error src = None ->
  exists n,
    find_free_dest (S (List.length (entries d))) d (archive_name_numbered src)
                   (archive_name_first src) 1 = Some n
    /\ copy_evidence src d = (dir_name d +:+ "/" +:+ n, with_entry d n src)
    /\ dest_exists d n = false
    /\ ((dest_exists d (archive_name_first src) = false /\ n = archive_name_first src)
        \/ (dest_exists d (archive_name_first src) = true
            /\ exists k, 1 <= k /\ n = archive_name_numbered src k)).
Proof.
  intros Hfile Hcopy.
  destruct (find_free_dest_total d (archive_name_numbered src) (archive_name_first src) 1)
    as [n Hn].
  { intros i j. apply dest_name_numbered_inj. }
  exists n. split; [exact Hn|]. split.
  - unfold copy_evidence. rewrite Hfile.
    change (negb true) with false. cbv beta iota zeta.
    fold (archive_hash src).
    change (dest_name_first (st_mtime src) (archive_hash src) (file_name src))
      with (archive_name_first src).
    change (fun counter : Z =>
              dest_name_numbered (st_mtime src) (archive_hash src) counter (file_name src))
      with (archive_name_numbered src).
    now rewrite Hn, Hcopy.
  - split; [exact (find_free_dest_is_free _ _ _ _ _ _ Hn)|].
    exact (find_free_dest_shape _ _ _ _ _ _ Hn).
Qed.

(** When [shutil.copy2] raises, the function hands back the error text
    and the directory is as it was. *)
Lemma copy_evidence_fails (src : File) (d : EvidenceDir) (e : string) :
  is_file src = true -> copy_error src = Some e ->
  copy_evidence src d = ("error: " +:+ e, d).
Proof.
  intros Hfile Hcopy.
  destruct (find_free_dest_total d (archive_name_numbered src) (archive_name_first src) 1)
    as [n Hn].
  { intros i j. apply dest_name_numbered_inj. }
  unfold copy_evidence. rewrite Hfile.
  change (negb true) with false. cbv beta iota zeta.
  fold (archive_hash src).
  change (dest_name_first (st_mtime src) (archive_hash src) (file_name src))
    with (archive_name_first src).
  change (fun counter : Z =>
            dest_name_numbered (st_mtime src) (archive_hash src) counter (file_name src))
    with (archive_name_numbered src).
  now rewrite Hn, Hcopy.
Qed.

(** What [copy_evidence] returns never depends on more than this: the
    directory keeps its name, and either stays as it is or gets one entry
    under a free name. *)
Lemma copy_evidence_cases (src : File) (d : EvidenceDir) :
  (snd (copy_evidence src d) = d
   /\ PyStr.startswith "error" (fst (copy_evidence src d)) = true)
  \/ (is_file src = true /\ copy_error src = None
      /\ exists n, dest_exists d n = false
                   /\ copy_evidence src d = (dir_name d +:+ "/" +:+ n, with_entry d n src)).
Proof.
  destruct (is_file src) eqn:Hfile.
  - destruct (copy_error src) as [e|] eqn:Hcopy.
    + left. rewrite (copy_evidence_fails src d e Hfile Hcopy). split; reflexivity.
    + right. destruct (copy_evidence_archives src d Hfile Hcopy) as (n & _ & Hc & Hfree & _).
      split; [reflexivity|]. split; [reflexivity|]. now exists n.
  - left. unfold copy_evidence. rewrite Hfile. split; reflexivity.
Qed.

Lemma dest_exists_with_entry (d : EvidenceDir) (n m : string) (src : File) :
  dest_exists (with_entry d n src) m = dest_exists d m || String.eqb m n.
Proof.
  unfold dest_exists, with_entry, str_in_list. simpl.
  rewrite map_app, existsb_app. simpl. now rewrite orb_false_r.
Qed.

(** The names the archiver builds, written out. *)
Lemma archive_name_first_eq (src : File) :
  archive_name_first src
  = pretty (st_mtime src) +:+ "_"
    +:+ String.substring 0 16
          (if String.prefix "error" (sha256_of_file src) then "unknown" else sha256_of_file src)
    +:+ "__" +:+ file_name src.
Proof. reflexivity. Qed.

Lemma archive_name_numbered_eq (src : File) (k : Z) :
  archive_name_numbered src k
  = pretty (st_mtime src) +:+ "_"
    +:+ String.substring 0 16
          (if String.prefix "error" (sha256_of_file src) then "unknown" else sha256_of_file src)
    +:+ "__" +:+ pretty k +:+ "__" +:+ file_name src.
Proof. reflexivity. Qed.

(** C9. Archiving one source file twice into the same evidence directory,
    the copy succeeding, writes two entries with different names, each
    under a name that was free when it was written, after the entries that
    were already there, which stay as they were. With [digest] the hex
    digest of the file, or [unknown] when hashing failed, the second name
    is [<mtime>_<first 16 characters of digest>__<k>__<original-name>] for
    a counter [k] from 1 on; the first is
    [<mtime>_<first 16 characters of digest>__<original-name>] when no
    entry of that name existed before, and then the second carries the
    first free counter. *)
Theorem archiving_twice_never_collides (src : File) (d : EvidenceDir) :
  is_file src = true -> copy_error src = None ->
  let digest :=
    if String.prefix "error" (sha256_of_file src) then "unknown" else sha256_of_file src in
  let first :=
    pretty (st_mtime src) +:+ "_" +:+ String.substring 0 16 digest
      +:+ "__" +:+ file_name src in
  let numbered := fun k : Z =>
    pretty (st_mtime src) +:+ "_" +:+ String.substring 0 16 digest
      +:+ "__" +:+ pretty k +:+ "__" +:+ file_name src in
  exists n1 n2 k,
    copy_evidence src d = (dir_name d +:+ "/" +:+ n1, with_entry d n1 src)
    /\ copy_evidence src (with_entry d n1 src)
       = (dir_name d +:+ "/" +:+ n2, with_entry (with_entry d n1 src) n2 src)
    /\ entries (with_entry (with_entry d n1 src) n2 src)
       = entries d ++ [mkEntry n1 (rel_path src); mkEntry n2 (rel_path src)]
    /\ ~ In n1 (map entry_name (entries d))
    /\ ~ In n2 (map entry_name (entries d))
    /\ n1 <> n2
    /\ 1 <= k /\ n2 = numbered k
    /\ (~ In first (map entry_name (entries d)) -> n1 = first)
    /\ (~ In first (map entry_name (entries d)) ->
        ~ In (numbered 1) (map entry_name (entries d)) -> k = 1).
Proof.
  intros Hfile Hcopy digest first numbered.
  assert (forall n, ~ In n (map entry_name (entries d)) <-> dest_exists d n = false) as Hfree_iff.
  { intros n. rewrite <- dest_exists_In. destruct (dest_exists d n); split; congruence. }
  change first with (archive_name_first src).
  change numbered with (archive_name_numbered src).
  clear digest first numbered.
  destruct (copy_evidence_archives src d Hfile Hcopy) as (n1 & _ & Hc1 & Hfree1 & Hshape1).
  destruct (copy_evidence_archives src (with_entry d n1 src) Hfile Hcopy)
    as (n2 & Hfind2 & Hc2 & Hfree2 & Hshape2).
  assert (dest_exists (with_entry d n1 src) (archive_name_first src) = true) as Hfirst.
  { rewrite dest_exists_with_entry. destruct Hshape1 as [[_ ->] | [-> _]].
    - rewrite String.eqb_refl. apply orb_true_r.
    - reflexivity. }
  destruct Hshape2 as [[Hno _] | [_ (k & Hk & Hn2)]]; [congruence|].
  assert (n1 <> n2) as Hne.
  { intros ->. rewrite dest_exists_with_entry, String.eqb_refl, orb_true_r in Hfree2.
    discriminate. }
  assert (dest_exists d n2 = false) as Hfree2'.
  { rewrite dest_exists_with_entry in Hfree2. now apply orb_false_iff in Hfree2 as [H _]. }
  assert (dest_exists d (archive_name_first src) = false -> n1 = archive_name_first src)
    as Hn1.
  { intros Hno. destruct Hshape1 as [[_ ->] | [Hyes _]]; [reflexivity | congruence]. }
  exists n1, n2, k. simpl in Hc2.
  split; [exact Hc1|]. split; [exact Hc2|].
  split; [simpl; now rewrite <- app_assoc|].
  split; [now apply Hfree_iff|]. split; [now apply Hfree_iff|].
  split; [exact Hne|]. split; [exact Hk|].
  split; [exact Hn2|]. split; [intros Hno; now apply Hn1, Hfree_iff|].
  intros Hno Hno1. apply Hfree_iff in Hno, Hno1.
  assert (dest_exists (with_entry d n1 src) (archive_name_numbered src 1) = false) as Hfree.
  { rewrite dest_exists_with_entry, Hno1, (Hn1 Hno). simpl.
    apply String.eqb_neq. unfold archive_name_numbered, archive_name_first,
      dest_name_numbered, dest_name_first.
    intros H. do 3 apply String.app_inj in H.
    apply (f_equal String.length) in H.
    rewrite !string_length_app in H. simpl in H. lia. }
  rewrite (find_free_dest_next _ _ _ _ _ Hfirst Hfree) in Hfind2.
  inversion Hfind2 as [Heq]. rewrite Hn2 in Heq.
  apply dest_name_numbered_inj in Heq. congruence.
Qed.

Lemma archiving_twice_never_collides_witness :
  let src := text_file ["data"; "dataset.csv"] "id,label" (PyList []) in
  let d := EVIDENCE_DIR [mkEntry "1700000000_e3b0c44298fc1c14__1__dataset.csv" "old.csv"] in
  is_file src = true /\ copy_error src = None
  /\ exists n1 n2 k,
       copy_evidence src d = ("evidence" +:+ "/" +:+ n1, with_entry d n1 src)
       /\ copy_evidence src (with_entry d n1 src)
          = ("evidence" +:+ "/" +:+ n2, with_entry (with_entry d n1 src) n2 src)
       /\ entries (with_entry (with_entry d n1 src) n2 src)
          = entries d ++ [mkEntry n1 (rel_path src); mkEntry n2 (rel_path src)]
       /\ ~ In n1 (map entry_name (entries d))
       /\ ~ In n2 (map entry_name (entries d))
       /\ n1 <> n2
       /\ 1 <= k
       /\ n2 = "1700000000" +:+ "_" +:+ "e3b0c44298fc1c14" +:+ "__" +:+ pretty k
                 +:+ "__" +:+ "dataset.csv"
       /\ (~ In "1700000000_e3b0c44298fc1c14__dataset.csv" (map entry_name (entries d)) ->
           n1 = "1700000000_e3b0c44298fc1c14__dataset.csv")
       /\ (~ In "1700000000_e3b0c44298fc1c14__dataset.csv" (map entry_name (entries d)) ->
           ~ In "1700000000_e3b0c44298fc1c14__1__dataset.csv" (map entry_name (entries d)) ->
           k = 1).
Proof.
  intros src d. split; [reflexivity|]. split; [reflexivity|].
  exact (archiving_twice_never_collides src d eq_refl eq_refl).
Defined.

Example archive_names_twice :
  let src := text_file ["data"; "dataset.csv"] "id,label" (PyList []) in
  let first := copy_evidence src (EVIDENCE_DIR []) in
  let second := copy_evidence src (snd first) in
  fst first = "evidence/1700000000_e3b0c44298fc1c14__dataset.csv"
  /\ fst second = "evidence/1700000000_e3b0c44298fc1c14__1__dataset.csv"
  /\ map entry_name (entries (snd second))
     = ["1700000000_e3b0c44298fc1c14__dataset.csv";
        "1700000000_e3b0c44298fc1c14__1__dataset.csv"].
Proof. vm_compute. repeat split. Qed.

(** A counter that is taken is passed over: with the first name and the
    counter 1 both in the directory, the copy is numbered 2. A file whose
    hashing fails is archived under [unknown]; one whose copy fails is not
    archived. *)
Example archive_names_special :
  let src := text_file ["data"; "dataset.csv"] "id,label" (PyList []) in
  let d := EVIDENCE_DIR [ mkEntry "1700000000_e3b0c44298fc1c14__dataset.csv" "a.csv";
                          mkEntry "1700000000_e3b0c44298fc1c14__1__dataset.csv" "b.csv" ] in
  let unhashed := mkFile ["model.pkl"] true 12 None PyNone "" (Some "read failed") None in
  fst (copy_evidence src d) = "evidence/1700000000_e3b0c44298fc1c14__2__dataset.csv"
  /\ fst (copy_evidence unhashed (EVIDENCE_DIR [])) = "evidence/12_unknown__model.pkl"
  /\ copy_evidence (unreadable_file ["model.pkl"]) d
     = ("error: [Errno 13] Permission denied", d).
Proof. vm_compute. repeat split. Qed.

(** ** The item loop: what a step may change *)

Lemma same_core_refl (r : ItemResult) : same_core r r.
Proof. unfold same_core. auto. Qed.

Lemma same_core_trans (r1 r2 r3 : ItemResult) :
  same_core r1 r2 -> same_core r2 r3 -> same_core r1 r3.
Proof.
  unfold same_core. intros (? & ? & ? & ? & ?) (? & ? & ? & ? & ?).
  repeat split; try congruence. auto.
Qed.

Lemma item_rel_refl (key : string) (st : AuditState) : item_rel key st st.
Proof.
  split; [reflexivity|]. split; [reflexivity|].
  intros r Hr. exists r. split; [assumption | apply same_core_refl].
Qed.

Lemma item_rel_trans (key : string) (st1 st2 st3 : AuditState) :
  item_rel key st1 st2 -> item_rel key st2 st3 -> item_rel key st1 st3.
Proof.
  intros (Ht1 & Hf1 & Hk1) (Ht2 & Hf2 & Hk2). split; [congruence|]. split.
  - intros k Hk. rewrite Hf2, Hf1; auto.
  - intros r Hr. destruct (Hk1 r Hr) as (r2 & Hr2 & Hc1).
    destruct (Hk2 r2 Hr2) as (r3 & Hr3 & Hc2).
    exists r3. split; [assumption | eapply same_core_trans; eassumption].
Qed.

Lemma item_rel_update (key : string) (f : ItemResult -> ItemResult) (st : AuditState) :
  (forall r, same_core r (f r)) -> item_rel key st (update_item key f st).
Proof.
  intros Hf. unfold update_item. split; [reflexivity|]. split; simpl.
  - intros k Hk. now rewrite lookup_alter_ne.
  - intros r Hr. exists (f r). rewrite lookup_alter_eq, Hr. split; [reflexivity | apply Hf].
Qed.

Lemma same_core_append_check (msg : string) (r : ItemResult) :
  same_core r (append_check msg r).
Proof. unfold same_core, append_check. simpl. auto. Qed.

Lemma same_core_append_evidence (rel : string) (r : ItemResult) :
  same_core r (append_evidence rel r).
Proof.
  unfold same_core, append_evidence. destruct (str_in_list rel (evidence r)); simpl; auto.
  repeat split. intros _ H. now destruct (evidence r).
Qed.

Lemma append_evidence_non_nil (rel : string) (r : ItemResult) :
  evidence (append_evidence rel r) <> [].
Proof.
  unfold append_evidence. destruct (str_in_list rel (evidence r)) eqn:E; simpl.
  - apply str_in_list_In in E. intros H. now rewrite H in E.
  - intros H. now destruct (evidence r).
Qed.

Lemma item_rel_add_check (key msg : string) (st : AuditState) :
  item_rel key st (add_check key msg st).
Proof. apply item_rel_update. apply same_core_append_check. Qed.

(** The details after a registration: the item's entry, created if
    missing, has the path appended to its evidence. *)
Lemma register_item_evidence_details (risk key : string) (f : File) (st : AuditState) :
  is_file f = true ->
  details (register_item_evidence risk key f st)
  = alter (append_evidence (rel_path f)) key
          (match details st !! key with
           | Some _ => details st
           | None => <[key := registered_result risk key]> (details st)
           end)
  /\ total_score (register_item_evidence risk key f st) = total_score st.
Proof.
  intros Hfile. unfold register_item_evidence. rewrite Hfile.
  change (negb true) with false. cbv beta iota zeta.
  destruct (details st !! key) eqn:Ed.
  - destruct (evidence_index st !! rel_path f); [split; reflexivity|].
    destruct (copy_evidence f (evidence_dir st)) as [copied dir'].
    destruct (non_empty copied && negb (PyStr.startswith "error" copied)); split; reflexivity.
  - simpl. destruct (evidence_index st !! rel_path f); [split; reflexivity|].
    destruct (copy_evidence f (evidence_dir st)) as [copied dir'].
    destruct (non_empty copied && negb (PyStr.startswith "error" copied)); split; reflexivity.
Qed.

Lemma item_rel_register (risk key : string) (f : File) (st : AuditState) :
  item_rel key st (register_item_evidence risk key f st).
Proof.
  destruct (is_file f) eqn:Hfile.
  - destruct (register_item_evidence_details risk key f st Hfile) as [Hd Ht].
    split; [exact Ht|]. rewrite Hd. split.
    + intros k Hk. rewrite lookup_alter_ne by congruence.
      destruct (details st !! key); [reflexivity|]. now rewrite lookup_insert_ne by congruence.
    + intros r Hr. rewrite Hr. exists (append_evidence (rel_path f) r).
      rewrite lookup_alter_eq, Hr. split; [reflexivity | apply same_core_append_evidence].
  - unfold register_item_evidence. rewrite Hfile. apply item_rel_refl.
Qed.

Lemma register_item_evidence_records (risk key : string) (f : File) (st : AuditState)
    (r : ItemResult) :
  is_file f = true -> details st !! key = Some r ->
  exists r', details (register_item_evidence risk key f st) !! key = Some r'
             /\ evidence r' <> [].
Proof.
  intros Hfile Hr.
  destruct (register_item_evidence_details risk key f st Hfile) as [Hd _].
  rewrite Hd, Hr, lookup_alter_eq, Hr. eexists. split; [reflexivity|].
  apply append_evidence_non_nil.
Qed.

Lemma fold_left_preserves {A B : Type} (P : A -> Prop) (f : A -> B -> A)
    (l : list B) (a : A) :
  (forall a b, P a -> P (f a b)) -> P a -> P (fold_left f l a).
Proof.
  intros Hstep. revert a. induction l as [|b l IH]; intros a Ha; simpl; auto.
Qed.

(** A property of the state that recording a check and registering
    evidence under [key] preserve is preserved by the two evidence-seeking
    phases of the item loop. *)
Section LoopRules.

Variable P : AuditState -> Prop.
Variable env : AuditEnv.
Variable key : string.
Hypothesis P_check : forall st msg, P st -> P (add_check key msg st).
Hypothesis P_register :
  forall st f, P st -> P (register_item_evidence (risk_level env) key f st).

Lemma keyword_step_preserves (meta : ItemMeta) (acc : AuditState * bool) (f : File) :
  P (fst acc) -> P (fst (keyword_step env key meta acc f)).
Proof.
  intros H. unfold keyword_step. destruct (safe_read_text f); [|exact H].
  destruct (keyword_hit meta f s); [|exact H]. simpl. auto.
Qed.

Lemma keyword_loop_preserves (meta : ItemMeta) (acc : AuditState * bool) :
  P (fst acc) -> P (fst (keyword_loop env key meta acc)).
Proof.
  unfold keyword_loop.
  apply (fold_left_preserves (fun acc => P (fst acc))).
  intros a kv. apply (fold_left_preserves (fun acc => P (fst acc))).
  intros a' f. apply keyword_step_preserves.
Qed.

Lemma register_all_preserves (files : list File) (st : AuditState) :
  P st -> P (register_all env key files st).
Proof. unfold register_all. apply fold_left_preserves. intros a f. apply P_register. Qed.

Lemma specific_checks_preserves (acc : AuditState * bool) :
  P (fst acc) -> P (fst (specific_checks env key acc)).
Proof.
  intros H. unfold specific_checks.
  repeat match goal with
         | |- context [if ?b then _ else _] => destruct b
         end; simpl; try exact H.
  - apply fold_left_preserves; [|auto].
    intros a f Ha. unfold dataset_hash_step.
    destruct (hash_listed _ _); auto.
  - apply register_all_preserves. auto.
  - repeat apply register_all_preserves. auto.
  - apply register_all_preserves. auto.
  - apply (fold_left_preserves (fun acc => P (fst acc))); [|exact H].
    intros a f Ha. unfold integrity_step. destruct (integrity_confirmed env f); simpl; auto.
Qed.

End LoopRules.

(** A property that, in addition, survives any update of the entry under
    [key], its creation, and a change of the running total is preserved by
    one whole iteration of the item loop. *)
Section ItemRules.

Variable P : AuditState -> Prop.
Variable env : AuditEnv.
Variable key : string.
Hypothesis P_update : forall st f, P st -> P (update_item key f st).
Hypothesis P_register :
  forall st f, P st -> P (register_item_evidence (risk_level env) key f st).
Hypothesis P_create :
  forall st r, P st -> P (with_details st (<[key := r]> (details st))).
Hypothesis P_total : forall st t, P st -> P (with_total_score st t).

Lemma eval_item_preserves (meta : ItemMeta) (st : AuditState) :
  P st -> P (eval_item env st (key, meta)).
Proof.
  intros H. unfold eval_item. cbv beta iota zeta. simpl fst. simpl snd.
  set (st0 := match details st !! key with
              | Some _ => st
              | None => _
              end).
  assert (P st0) as H0 by (unfold st0; destruct (details st !! key); auto).
  clearbody st0.
  destruct (negb _); [auto|].
  unfold conclude_item. cbv zeta.
  apply P_total.
  assert (P (fst (specific_checks env key (keyword_loop env key meta (st0, false))))) as H1.
  { apply specific_checks_preserves; [unfold add_check; auto | auto |].
    apply keyword_loop_preserves; [unfold add_check; auto | auto | exact H0]. }
  destruct (snd _); unfold add_check; auto.
Qed.

End ItemRules.

(** ** The item loop: the flag [found_evidence] *)

Lemma keyword_files_flag (env : AuditEnv) (key : string) (meta : ItemMeta)
    (files : list File) (acc : AuditState * bool) :
  snd (fold_left (keyword_step env key meta) files acc)
  = snd acc || existsb (fun f => match safe_read_text f with
                                 | Some content => keyword_hit meta f content
                                 | None => false
                                 end) files.
Proof.
  revert acc. induction files as [|f files IH]; intros acc; simpl.
  - now rewrite orb_false_r.
  - rewrite IH. unfold keyword_step.
    destruct (safe_read_text f) as [content|]; [|reflexivity].
    destruct (keyword_hit meta f content); simpl; [now rewrite orb_true_r | reflexivity].
Qed.

Lemma keyword_loop_flag (env : AuditEnv) (key : string) (meta : ItemMeta)
    (acc : AuditState * bool) :
  snd (keyword_loop env key meta acc) = snd acc || keyword_found env meta.
Proof.
  unfold keyword_loop, keyword_found.
  generalize (candidates_items (candidates env)) as items. intros items.
  revert acc. induction items as [|kv items IH]; intros acc; simpl.
  - now rewrite orb_false_r.
  - rewrite IH, keyword_files_flag. now rewrite orb_assoc.
Qed.

Lemma integrity_files_flag (env : AuditEnv) (key : string) (files : list File)
    (acc : AuditState * bool) :
  snd (fold_left (integrity_step env key) files acc)
  = snd acc || existsb (integrity_confirmed env) files.
Proof.
  revert acc. induction files as [|f files IH]; intros acc; simpl.
  - now rewrite orb_false_r.
  - rewrite IH. unfold integrity_step.
    destruct (integrity_confirmed env f); simpl; [now rewrite orb_true_r | reflexivity].
Qed.

Lemma specific_checks_flag (env : AuditEnv) (key : string) (acc : AuditState * bool) :
  snd (specific_checks env key acc) = snd acc || specific_found env key.
Proof.
  unfold specific_checks, specific_found.
  destruct (String.eqb key "dataset_versioning").
  { destruct (non_nil (dataset_hashes env) || has_dvc_marker env); simpl;
      [now rewrite orb_true_r | now rewrite orb_false_r]. }
  destruct (String.eqb key "model_versioning").
  { destruct (non_nil (cand (candidates env) "model_artifacts") || has_version_metadata env);
      simpl; [now rewrite orb_true_r | now rewrite orb_false_r]. }
  destruct (String.eqb key "reproducibility_capability").
  { destruct (all_components_found env); simpl;
      [now rewrite orb_true_r | now rewrite orb_false_r]. }
  destruct (String.eqb key "cross_reference").
  { destruct (negb (non_nil (cross_reference_issues env))); simpl;
      [now rewrite orb_true_r | now rewrite orb_false_r]. }
  destruct (String.eqb key "file_integrity_hash").
  { apply integrity_files_flag. }
  now rewrite orb_false_r.
Qed.

Lemma keyword_found_evidence (env : AuditEnv) (meta : ItemMeta) :
  keyword_found env meta = true <-> keyword_evidence env meta.
Proof.
  unfold keyword_found, keyword_evidence, candidates_items.
  rewrite existsb_exists. split.
  - intros (kv & Hkv & Hex). apply in_map_iff in Hkv as ([c pats] & <- & Hc).
    simpl in Hex. apply existsb_exists in Hex as (f & Hf & Hhit).
    destruct (safe_read_text f) as [content|] eqn:Er; [|discriminate].
    unfold keyword_hit in Hhit. apply existsb_exists in Hhit as (kw & Hkw & Hm).
    apply orb_true_iff in Hm.
    exists c, f, content, kw. repeat split; try assumption.
    change c with (fst (c, pats)). now apply in_map.
  - intros (c & f & content & kw & Hc & Hf & Hr & Hkw & Hm).
    apply in_map_iff in Hc as ([c' pats] & Hfst & Hc). simpl in Hfst. subst c'.
    exists (c, cand (candidates env) c). split.
    + apply in_map_iff. exists (c, pats). auto.
    + simpl. apply existsb_exists. exists f. split; [assumption|].
      rewrite Hr. unfold keyword_hit. apply existsb_exists. exists kw.
      split; [assumption|]. now apply orb_true_iff.
Qed.

(** ** The item loop: the result stored for an item *)

Lemma eval_item_frame (env : AuditEnv) (st : AuditState) (key : string)
    (meta : ItemMeta) (k : string) :
  k <> key -> details (eval_item env st (key, meta)) !! k = details st !! k.
Proof.
  intros Hk.
  apply (eval_item_preserves (fun st' => details st' !! k = details st !! k) env key).
  - intros st' f H. unfold update_item. simpl. now rewrite lookup_alter_ne by congruence.
  - intros st' f H. destruct (item_rel_register (risk_level env) key f st') as (_ & Hf & _).
    now rewrite Hf.
  - intros st' r H. simpl. now rewrite lookup_insert_ne by congruence.
  - intros st' t H. exact H.
  - reflexivity.
Qed.

Lemma safe_read_text_is_file (f : File) (content : string) :
  safe_read_text f = Some content -> is_file f = true.
Proof. unfold safe_read_text. now destruct (is_file f). Qed.

Lemma keyword_loop_records (env : AuditEnv) (key : string) (meta : ItemMeta)
    (st0 : AuditState) (r0 : ItemResult) :
  details st0 !! key = Some r0 ->
  snd (keyword_loop env key meta (st0, false)) = true ->
  exists r, details (fst (keyword_loop env key meta (st0, false))) !! key = Some r
            /\ evidence r <> [].
Proof.
  intros Hr0.
  set (J := fun acc : AuditState * bool =>
              (exists r, details (fst acc) !! key = Some r)
              /\ (snd acc = true ->
                  exists r, details (fst acc) !! key = Some r /\ evidence r <> [])).
  assert (J (keyword_loop env key meta (st0, false))) as [_ HJ]; [|exact HJ].
  unfold keyword_loop. apply (fold_left_preserves J).
  - intros a kv. apply (fold_left_preserves J). clear. intros acc f [[r Hr] Hev].
    unfold keyword_step. destruct (safe_read_text f) as [content|] eqn:Er; [|now split; eauto].
    destruct (keyword_hit meta f content); [|now split; eauto].
    apply safe_read_text_is_file in Er.
    destruct (item_rel_add_check key
                ("Keyword match for '" +:+ en_name meta +:+ "' in " +:+ file_name f +:+ ".")
                (fst acc)) as (_ & _ & Hk).
    destruct (Hk r Hr) as (r1 & Hr1 & _).
    destruct (register_item_evidence_records (risk_level env) key f _ r1 Er Hr1)
      as (r2 & Hr2 & Hne).
    simpl. split; eauto.
  - split; [now exists r0 | discriminate].
Qed.

Lemma eval_item_result (env : AuditEnv) (st : AuditState) (key : string) (meta : ItemMeta) :
  details st !! key = None ->
  exists r,
    details (eval_item env st (key, meta)) !! key = Some r
    /\ expected_result (risk_level env) meta (item_found env key meta) r
    /\ (str_in_list (risk_level env) (required_for meta) = true ->
        keyword_found env meta = true -> evidence r <> []).
Proof.
  intros Hnone. unfold eval_item. cbv beta iota zeta. simpl fst. simpl snd.
  rewrite Hnone.
  set (r0 := initial_result (risk_level env) meta).
  set (st0 := with_details st (<[key := r0]> (details st))).
  assert (details st0 !! key = Some r0) as H0 by (simpl; apply lookup_insert_eq).
  rewrite H0. simpl from_option.
  unfold expected_result.
  destruct (str_in_list (risk_level env) (required_for meta)) eqn:Ereq; simpl negb; cbv iota.
  2:{ exists (set_status optional r0). unfold update_item. simpl.
      rewrite lookup_alter_eq, lookup_insert_eq. simpl.
      rewrite Ereq. repeat split; auto; discriminate. }
  set (acc1 := keyword_loop env key meta (st0, false)).
  set (acc2 := specific_checks env key acc1).
  assert (item_rel key st0 (fst acc1)) as Hrel1.
  { apply (keyword_loop_preserves (item_rel key st0) env key).
    - intros s msg H. eapply item_rel_trans; [exact H | apply item_rel_add_check].
    - intros s f H. eapply item_rel_trans; [exact H | apply item_rel_register].
    - apply item_rel_refl. }
  assert (item_rel key (fst acc1) (fst acc2)) as Hrel2.
  { apply (specific_checks_preserves (item_rel key (fst acc1)) env key).
    - intros s msg H. eapply item_rel_trans; [exact H | apply item_rel_add_check].
    - intros s f H. eapply item_rel_trans; [exact H | apply item_rel_register].
    - apply item_rel_refl. }
  assert (snd acc1 = keyword_found env meta) as Hflag1
    by (unfold acc1; now rewrite keyword_loop_flag).
  assert (snd acc2 = item_found env key meta) as Hflag2
    by (unfold acc2, item_found; now rewrite specific_checks_flag, Hflag1).
  destruct Hrel1 as (_ & _ & Hk1). destruct (Hk1 r0 H0) as (r1 & Hr1 & Hc1).
  destruct Hrel2 as (_ & _ & Hk2). destruct (Hk2 r1 Hr1) as (r2 & Hr2 & Hc2).
  assert (keyword_found env meta = true -> evidence r2 <> []) as Hev.
  { intros Hkw. rewrite <- Hflag1 in Hkw.
    destruct (keyword_loop_records env key meta st0 r0 H0 Hkw) as (r1' & Hr1' & Hne).
    fold acc1 in Hr1'. rewrite Hr1 in Hr1'. inversion Hr1'; subst r1'.
    destruct Hc2 as (_ & _ & _ & _ & Hmono). auto. }
  destruct Hc1 as (Hw1 & Hs1 & _ & Hq1 & _). destruct Hc2 as (Hw2 & Hs2 & _ & Hq2 & _).
  unfold conclude_item. cbv zeta. rewrite Hflag2.
  destruct (item_found env key meta).
  - exists (set_status found (set_score (weight meta) r2)).
    unfold update_item. simpl. rewrite !lookup_alter_eq, Hr2. simpl.
    split; [reflexivity|]. split; [|intros _; exact Hev].
    repeat split; try congruence.
    + rewrite Hw2, Hw1. reflexivity.
    + rewrite Hq2, Hq1. simpl. exact Ereq.
  - exists (set_status not_found
              (append_check ("No clear evidence found for '" +:+ en_name meta +:+ "'.") r2)).
    unfold update_item, add_check, update_item. simpl. rewrite !lookup_alter_eq, Hr2. simpl.
    split; [reflexivity|]. split; [|intros _; exact Hev].
    repeat split; try congruence.
    + rewrite Hw2, Hw1. reflexivity.
    + rewrite Hq2, Hq1. simpl. exact Ereq.
    + rewrite Hs2, Hs1. reflexivity.
Qed.

Lemma fold_eval_item_frame (env : AuditEnv) (items : list (string * ItemMeta))
    (st : AuditState) (k : string) :
  ~ In k (map fst items) ->
  details (fold_left (eval_item env) items st) !! k = details st !! k.
Proof.
  revert st. induction items as [|[key meta] items IH]; intros st Hk; simpl; [reflexivity|].
  simpl in Hk. rewrite IH by tauto. apply eval_item_frame. intros ->. tauto.
Qed.

Lemma fold_eval_item_result (env : AuditEnv) (items : list (string * ItemMeta))
    (st : AuditState) (key : string) (meta : ItemMeta) :
  List.NoDup (map fst items) -> In (key, meta) items ->
  (forall k, In k (map fst items) -> details st !! k = None) ->
  exists r,
    details (fold_left (eval_item env) items st) !! key = Some r
    /\ expected_result (risk_level env) meta (item_found env key meta) r
    /\ (str_in_list (risk_level env) (required_for meta) = true ->
        keyword_found env meta = true -> evidence r <> []).
Proof.
  revert st. induction items as [|[k0 m0] items IH]; intros st Hnd Hin Hfresh; [destruct Hin|].
  simpl in Hnd. apply NoDup_cons_iff in Hnd as [Hk0 Hnd]. simpl.
  destruct Hin as [Heq | Hin].
  - inversion Heq; subst k0 m0.
    rewrite fold_eval_item_frame by exact Hk0.
    apply eval_item_result. apply Hfresh. now left.
  - apply IH; [exact Hnd | exact Hin |].
    intros k Hk. rewrite eval_item_frame.
    + apply Hfresh. now right.
    + intros ->. contradiction.
Qed.

Section AuditFacts.

Variable py_str : pyval -> string.

Lemma audit_run_eq (r : Repo) (d : EvidenceDir) (risk : string) :
  audit_run py_str r d risk
  = fold_left (eval_item (audit_env py_str r risk)) TRACEABILITY_ITEMS (initial_state d).
Proof. reflexivity. Qed.

Lemma risk_level_audit_env (r : Repo) (risk : string) :
  risk_level (audit_env py_str r risk) = risk.
Proof. reflexivity. Qed.

(** Every catalog item has a result, and it is the expected one. *)
Lemma audit_run_details (r : Repo) (d : EvidenceDir) (risk key : string)
    (meta : ItemMeta) :
  In (key, meta) TRACEABILITY_ITEMS ->
  exists res,
    details (audit_run py_str r d risk) !! key = Some res
    /\ expected_result risk meta (item_found (audit_env py_str r risk) key meta) res
    /\ (str_in_list risk (required_for meta) = true ->
        keyword_found (audit_env py_str r risk) meta = true -> evidence res <> []).
Proof.
  intros Hin. rewrite audit_run_eq.
  pose proof (fold_eval_item_result (audit_env py_str r risk) TRACEABILITY_ITEMS
                (initial_state d) key meta catalog_keys_NoDup Hin) as H.
  rewrite risk_level_audit_env in H. apply H.
  intros k _. apply lookup_empty.
Qed.

(** Only catalog items have a result. *)
Lemma audit_run_details_catalog (r : Repo) (d : EvidenceDir) (risk key : string)
    (res : ItemResult) :
  details (audit_run py_str r d risk) !! key = Some res ->
  exists meta, In (key, meta) TRACEABILITY_ITEMS.
Proof.
  intros Hres.
  destruct (in_dec string_dec key (map fst TRACEABILITY_ITEMS)) as [Hin | Hout].
  - apply in_map_iff in Hin as ([k meta] & Hk & Hin). simpl in Hk. subst k. now exists meta.
  - rewrite audit_run_eq in Hres.
    rewrite (fold_eval_item_frame _ _ _ _ Hout) in Hres.
    change (details (initial_state d)) with (∅ : gmap string ItemResult) in Hres.
    rewrite lookup_empty in Hres. discriminate.
Qed.

End AuditFacts.

(** ** Status of the items *)

Lemma catalog_meta_In (key : string) (meta : ItemMeta) :
  In (key, meta) TRACEABILITY_ITEMS -> catalog_meta key = meta.
Proof.
  intros Hin. unfold catalog_meta.
  now rewrite (table_get_NoDup key TRACEABILITY_ITEMS meta catalog_keys_NoDup Hin).
Qed.

Lemma length_pos_non_nil {A : Type} (l : list A) :
  (0 <? List.length l)%nat = true <-> l <> [].
Proof. destruct l; simpl; split; intros H; try easy. Qed.

Lemma all_components_found_present (env : AuditEnv) :
  all_components_found env = true <-> four_components_present (candidates env).
Proof.
  unfold all_components_found, four_components_present. simpl.
  rewrite !andb_true_iff, !length_pos_non_nil. tauto.
Qed.

Lemma non_nil_false {A : Type} (l : list A) : negb (non_nil l) = true <-> l = [].
Proof. destruct l; simpl; split; intros H; easy. Qed.

Section ItemStatus.

Variable py_str : pyval -> string.

Lemma perform_audit_details (r : Repo) (d : EvidenceDir) (risk : string) :
  result_details (fst (perform_audit py_str r d risk)) = details (audit_run py_str r d risk).
Proof. reflexivity. Qed.

(** An applicable catalog item is [found] exactly when the keyword loop
    or its specific check set [found_evidence], and [not_found]
    otherwise. *)
Lemma applicable_item_status (r : Repo) (d : EvidenceDir) (risk key : string)
    (meta : ItemMeta) :
  In (key, meta) TRACEABILITY_ITEMS -> In risk (required_for meta) ->
  exists res,
    result_details (fst (perform_audit py_str r d risk)) !! key = Some res
    /\ (status res = found <->
        keyword_evidence (audit_env py_str r risk) meta
        \/ specific_found (audit_env py_str r risk) key = true)
    /\ (status res = found \/ status res = not_found).
Proof.
  intros Hin Hreq. rewrite perform_audit_details.
  destruct (audit_run_details py_str r d risk key meta Hin) as (res & Hres & Hexp & _).
  exists res. split; [exact Hres|].
  destruct Hexp as (_ & _ & Hexp).
  apply str_in_list_In in Hreq. rewrite Hreq in Hexp. destruct Hexp as [Hst _].
  rewrite <- keyword_found_evidence. unfold item_found in Hst.
  destruct (keyword_found (audit_env py_str r risk) meta);
    destruct (specific_found (audit_env py_str r risk) key); simpl in Hst;
    rewrite Hst; (split; [split|]); auto;
    try discriminate; intros [H | H]; discriminate.
Qed.

End ItemStatus.

Lemma catalog_reproducibility :
  In ("reproducibility_capability", catalog_meta "reproducibility_capability")
     TRACEABILITY_ITEMS.
Proof. vm_compute. tauto. Qed.

Lemma catalog_cross_reference :
  In ("cross_reference", catalog_meta "cross_reference") TRACEABILITY_ITEMS.
Proof. vm_compute. tauto. Qed.

(** C1, as the evaluator does it. In a tier to which it applies, the
    reproducibility item is [found] if and only if the four categories
    training_configs, requirements_files, dataset_files and model_artifacts
    are all non-empty or some scanned readable file has one of the item's
    keywords in its name or sampled content; otherwise it is [not_found]. *)
Theorem reproducibility_found_iff
    (py_str : pyval -> string) (r : Repo) (d : EvidenceDir) (risk : string) :
  applicable risk "reproducibility_capability" ->
  exists res,
    result_details (fst (perform_audit py_str r d risk)) !! "reproducibility_capability"
      = Some res
    /\ (status res = found <->
        four_components_present (scan_repository r)
        \/ keyword_evidence (audit_env py_str r risk)
                            (catalog_meta "reproducibility_capability"))
    /\ (status res = found \/ status res = not_found).
Proof.
  intros Happ.
  destruct (applicable_item_status py_str r d risk _ _ catalog_reproducibility Happ)
    as (res & Hres & Hiff & Hcases).
  exists res. split; [exact Hres|]. split; [|exact Hcases].
  rewrite Hiff.
  change (specific_found (audit_env py_str r risk) "reproducibility_capability")
    with (all_components_found (audit_env py_str r risk)).
  rewrite all_components_found_present.
  change (candidates (audit_env py_str r risk)) with (scan_repository r). tauto.
Qed.

Lemma reproducibility_found_iff_witness :
  applicable "low" "reproducibility_capability"
  /\ exists res,
       result_details
         (fst (perform_audit py_str_scalar (mkRepo ["srv"; "repo"] true []) (EVIDENCE_DIR []) "low"))
         !! "reproducibility_capability" = Some res
       /\ (status res = found <->
           four_components_present (scan_repository (mkRepo ["srv"; "repo"] true []))
           \/ keyword_evidence (audit_env py_str_scalar (mkRepo ["srv"; "repo"] true []) "low")
                               (catalog_meta "reproducibility_capability"))
       /\ (status res = found \/ status res = not_found).
Proof.
  split.
  - unfold applicable. vm_compute. tauto.
  - apply (reproducibility_found_iff py_str_scalar). unfold applicable. vm_compute. tauto.
Defined.

(** A tree audited at [/] whose only file is [reproduce.md]: the item is
    found through the keyword in the file name although all four
    categories are empty. *)
Lemma reproducibility_found_without_components :
  let r := mkRepo [] true [text_file ["reproduce.md"] "notes" (PyStr "notes")] in
  let c := scan_repository r in
  applicable "low" "reproducibility_capability"
  /\ status <$> (result_details (fst (perform_audit py_str_scalar r (EVIDENCE_DIR []) "low"))
                 !! "reproducibility_capability") = Some found
  /\ cand c "training_configs" = [] /\ cand c "requirements_files" = []
  /\ cand c "dataset_files" = [] /\ cand c "model_artifacts" = []
  /\ ~ four_components_present c.
Proof.
  split; [unfold applicable; vm_compute; tauto|].
  split; [vm_compute; reflexivity|].
  repeat (split; [vm_compute; reflexivity|]).
  intros [H _]. apply H. vm_compute. reflexivity.
Qed.

(** C2, as the evaluator does it. In a tier to which it applies, the
    cross-reference item is [found] if and only if the validator's issue
    list is empty or some scanned readable file has one of the item's
    keywords in its name or sampled content; otherwise it is [not_found]. *)
Theorem cross_reference_found_iff
    (py_str : pyval -> string) (r : Repo) (d : EvidenceDir) (risk : string) :
  applicable risk "cross_reference" ->
  exists res,
    result_details (fst (perform_audit py_str r d risk)) !! "cross_reference" = Some res
    /\ (status res = found <->
        result_cross_reference_issues (fst (perform_audit py_str r d risk)) = []
        \/ keyword_evidence (audit_env py_str r risk) (catalog_meta "cross_reference"))
    /\ (status res = found \/ status res = not_found).
Proof.
  intros Happ.
  destruct (applicable_item_status py_str r d risk _ _ catalog_cross_reference Happ)
    as (res & Hres & Hiff & Hcases).
  exists res. split; [exact Hres|]. split; [|exact Hcases].
  rewrite Hiff.
  change (specific_found (audit_env py_str r risk) "cross_reference")
    with (negb (non_nil (cross_reference_issues (audit_env py_str r risk)))).
  rewrite non_nil_false.
  change (result_cross_reference_issues (fst (perform_audit py_str r d risk)))
    with (cross_reference_issues (audit_env py_str r risk)). tauto.
Qed.

Lemma cross_reference_found_iff_witness :
  applicable "limited" "cross_reference"
  /\ exists res,
       result_details
         (fst (perform_audit py_str_scalar (mkRepo ["srv"; "repo"] true []) (EVIDENCE_DIR [])
                             "limited"))
         !! "cross_reference" = Some res
       /\ (status res = found <->
           result_cross_reference_issues
             (fst (perform_audit py_str_scalar (mkRepo ["srv"; "repo"] true [])
                                 (EVIDENCE_DIR []) "limited")) = []
           \/ keyword_evidence (audit_env py_str_scalar (mkRepo ["srv"; "repo"] true []) "limited")
                               (catalog_meta "cross_reference"))
       /\ (status res = found \/ status res = not_found).
Proof.
  split.
  - unfold applicable. vm_compute. tauto.
  - apply (cross_reference_found_iff py_str_scalar). unfold applicable. vm_compute. tauto.
Defined.

(** A tree audited at [/] with a log citing version 2.0, metadata
    declaring 1.0 and a file named [references.md]: one issue is recorded
    and the item is found all the same, through the keyword. *)
Lemma cross_reference_found_despite_issue :
  let r := mkRepo [] true
             [ text_file ["info.yaml"] "version: '1.0'" (PyDict [("version", PyStr "1.0")]);
               text_file ["prediction_log.yaml"] "model_version: '2.0'"
                         (PyDict [("model_version", PyStr "2.0")]);
               text_file ["references.md"] "see the appendix" (PyStr "see the appendix") ] in
  let res := fst (perform_audit py_str_scalar r (EVIDENCE_DIR []) "high") in
  applicable "high" "cross_reference"
  /\ List.length (result_cross_reference_issues res) = 1%nat
  /\ result_cross_reference_issues res <> []
  /\ status <$> (result_details res !! "cross_reference") = Some found.
Proof.
  split; [unfold applicable; vm_compute; tauto|].
  split; [vm_compute; reflexivity|].
  split; [vm_compute; discriminate | vm_compute; reflexivity].
Qed.

(** ** Evidence index and archive *)

Lemma register_item_evidence_archive (risk key : string) (f : File) (st : AuditState) :
  is_file f = true ->
  (evidence_index (register_item_evidence risk key f st),
   evidence_dir (register_item_evidence risk key f st))
  = match evidence_index st !! rel_path f with
    | Some _ => (evidence_index st, evidence_dir st)
    | None =>
        let '(copied_path, d) := copy_evidence f (evidence_dir st) in
        if non_empty copied_path && negb (PyStr.startswith "error" copied_path)
        then (<[rel_path f := copied_path]> (evidence_index st), d)
        else (evidence_index st, d)
    end.
Proof.
  intros Hfile. unfold register_item_evidence. rewrite Hfile.
  change (negb true) with false. cbv beta iota zeta.
  destruct (details st !! key); simpl;
    (destruct (evidence_index st !! rel_path f); [reflexivity|]);
    destruct (copy_evidence f (evidence_dir st)) as [copied dir'];
    destruct (non_empty copied && negb (PyStr.startswith "error" copied)); reflexivity.
Qed.



(** A registration whose copy fails changes neither the index nor the
    directory. *)
Lemma register_failed_copy (risk key : string) (f : File) (st : AuditState) (e : string) :
  is_file f = true -> copy_error f = Some e ->
  evidence_index (register_item_evidence risk key f st) = evidence_index st
  /\ evidence_dir (register_item_evidence risk key f st) = evidence_dir st.
Proof.
  intros Hfile Hcopy.
  pose proof (register_item_evidence_archive risk key f st Hfile) as H.
  destruct (evidence_index st !! rel_path f) as [a|] eqn:Ea.
  - injection H as Hi Hd. auto.
  - rewrite (copy_evidence_fails f (evidence_dir st) e Hfile Hcopy) in H.
    simpl in H. injection H as Hi Hd. auto.
Qed.




(** ** The reproducibility scenario *)

(** No file whose name contains [train] reaches the training_configs
    category: the dataset_files entry, which comes first, claims it. The
    pattern [train_config] of training_configs can therefore never be the
    one that decides. *)
Lemma training_configs_exclude_train (r : Repo) (f : File) :
  In f (cand (scan_repository r) "training_configs") ->
  PyStr.contains "train" (PyStr.lower (file_name f)) = false.
Proof.
  intros Hin. apply in_scan_repository in Hin as [_ Hfirst].
  apply first_category_first_match in Hfirst.
  set (n := PyStr.lower (file_name f)) in *.
  set (s := PyStr.lower (path_suffix (file_name f))) in *.
  unfold FILE_PATTERNS in Hfirst. cbn [first_category] in Hfirst.
  destruct (existsb (pattern_matches n s) ["metadata"; "model_card"; "about"; "info"]);
    [discriminate|].
  destruct (existsb (pattern_matches n s)
              [".pt"; ".pth"; ".onnx"; ".joblib"; ".pkl"; "model."; "checkpoint"]);
    [discriminate|].
  destruct (existsb (pattern_matches n s)
              ["dataset"; "data"; "train"; "test"; "validation"; ".csv"; ".parquet"; ".jsonl"])
    eqn:E; [discriminate|].
  destruct (PyStr.contains "train" n) eqn:Ec; [|reflexivity].
  assert (existsb (pattern_matches n s)
            ["dataset"; "data"; "train"; "test"; "validation"; ".csv"; ".parquet"; ".jsonl"]
          = true) as Hc.
  { apply existsb_exists. exists "train". split; [simpl; tauto|].
    unfold pattern_matches. simpl. exact Ec. }
  congruence.
Qed.

(** C4, evaluated. Audited below [/srv/repo], the scenario directory has
    every category empty and the reproducibility item [not_found]. Audited
    at [/], where the scanner lets files through, [train_config.yaml] lands
    in dataset_files, training_configs stays empty and the item is
    [not_found] again. With [dataset.csv] removed the item is [not_found]
    as well. *)
Theorem reproducibility_scenario_not_found :
  let below := mkRepo ["srv"; "repo"] true reproducibility_scenario in
  let at_root := mkRepo [] true reproducibility_scenario in
  let without_dataset :=
    mkRepo ["srv"; "repo"] true
           (List.filter (fun f => negb (String.eqb (file_name f) "dataset.csv"))
                        reproducibility_scenario) in
  let status_of r :=
    status <$> (result_details (fst (perform_audit py_str_scalar r (EVIDENCE_DIR []) "high"))
                !! "reproducibility_capability") in
  status_of below = Some not_found
  /\ (forall category, cand (scan_repository below) category = [])
  /\ status_of at_root = Some not_found
  /\ map rel_path (cand (scan_repository at_root) "dataset_files")
     = ["train_config.yaml"; "dataset.csv"]
  /\ cand (scan_repository at_root) "training_configs" = []
  /\ status_of without_dataset = Some not_found.
Proof.
  cbv zeta.
  split; [vm_compute; reflexivity|].
  split; [intros category; apply scan_repository_below_root; discriminate|].
  split; [vm_compute; reflexivity|].
  split; [vm_compute; reflexivity|].
  split; vm_compute; reflexivity.
Qed.

(** ** Compliance percentage *)

Section ReportFacts.

Variable float : Type.
Variable float_zero : float.
Variable int_quotient : Z -> Z -> float.
Variable float_times : float -> Z -> float.
Variable float_round : float -> Z -> float.

Lemma compliance_percentage_of_returns (total_score max_score : Z) :
  compliance_percentage_of float float_zero int_quotient float_times float_round
                           total_score max_score
  = Returns (if 0 <? max_score
             then float_round (float_times (int_quotient total_score max_score) 100) 2
             else float_zero).
Proof.
  unfold compliance_percentage_of, truediv.
  destruct (0 <? max_score) eqn:E; [|reflexivity].
  apply Z.ltb_lt in E. destruct (max_score =? 0) eqn:E0; [|reflexivity].
  apply Z.eqb_eq in E0. lia.
Qed.

End ReportFacts.

(** C6. Whatever the audit results, assembling the report returns (the
    division never raises), and the reported percentage is
    [round((total_score / max_score) * 100, 2)] when [max_score] is
    positive and [0.0] otherwise, in particular when [max_score] is zero;
    the quotient is taken of the two scores of the summary. *)
Theorem compliance_percentage_formula
    (float : Type) (float_zero : float) (int_quotient : Z -> Z -> float)
    (float_times : float -> Z -> float) (float_round : float -> Z -> float)
    (audit_results : AuditResults) :
  exists report,
    generate_multilingual_report float float_zero int_quotient float_times float_round
                                 audit_results = Returns report
    /\ report_total_score float report = summary_total_score audit_results
    /\ report_max_score float report = summary_max_score audit_results
    /\ (0 < summary_max_score audit_results ->
        compliance_percentage float report
        = float_round
            (float_times
               (int_quotient (summary_total_score audit_results)
                             (summary_max_score audit_results)) 100) 2)
    /\ (summary_max_score audit_results = 0 ->
        compliance_percentage float report = float_zero)
    /\ (summary_max_score audit_results <= 0 ->
        compliance_percentage float report = float_zero).
Proof.
  unfold generate_multilingual_report.
  rewrite compliance_percentage_of_returns. simpl.
  eexists. split; [reflexivity|]. simpl.
  split; [reflexivity|]. split; [reflexivity|].
  split; [|split]; intros H.
  - apply Z.ltb_lt in H. now rewrite H.
  - rewrite H. reflexivity.
  - destruct (0 <? summary_max_score audit_results) eqn:E; [|reflexivity].
    apply Z.ltb_lt in E. lia.
Qed.

(** Rational arithmetic in place of floats: the percentage of an empty
    tier is zero, and 46 points out of 46 are a hundred percent. *)
Example compliance_percentage_examples :
  compliance_percentage_of (Z * Z) (0, 1) (fun a b => (a, b))
                           (fun q n => (fst q * n, snd q)) (fun q _ => q) 0 0
  = Returns (0, 1)
  /\ compliance_percentage_of (Z * Z) (0, 1) (fun a b => (a, b))
                              (fun q n => (fst q * n, snd q)) (fun q _ => q) 46 46
     = Returns (4600, 46)
  /\ truediv (Z * Z) (fun a b => (a, b)) 0 0
     = Raises "ZeroDivisionError: division by zero".
Proof. repeat split. Qed.

(** * Further properties of the runner *)

(** ** The ignore filter *)

Lemma existsb_reversed {A : Type} (g : A -> bool) (l : list A) :
  existsb g (rev l) = existsb g l.
Proof.
  induction l as [|a l IH]; [reflexivity|]. simpl.
  rewrite existsb_app, IH. simpl. rewrite orb_false_r. apply orb_comm.
Qed.

Lemma existsb_pointwise {A : Type} (g h : A -> bool) (l : list A) :
  (forall a, g a = h a) -> existsb g l = existsb h l.
Proof. intros Hgh. induction l as [|a l IH]; simpl; [reflexivity | now rewrite Hgh, IH]. Qed.

Lemma existsb_map_cons (x : string) (l : list Path) :
  l <> [] ->
  existsb (fun parent => existsb ignored_part parent) (map (cons x) l)
  = ignored_part x || existsb (fun parent => existsb ignored_part parent) l.
Proof.
  induction l as [|q l IH]; [contradiction|]. intros _.
  destruct l as [|q' l].
  - simpl. rewrite !orb_false_r. reflexivity.
  - change (map (cons x) (q :: q' :: l)) with ((x :: q) :: map (cons x) (q' :: l)).
    cbn [existsb]. rewrite IH by discriminate. cbn [existsb].
    destruct (ignored_part x); simpl; reflexivity.
Qed.

Lemma existsb_parents_rev (p : Path) :
  existsb (fun parent => existsb ignored_part parent) (path_parents_rev p)
  = existsb ignored_part (removelast p).
Proof.
  induction p as [|x rest IH]; [reflexivity|].
  destruct rest as [|y rest']; [reflexivity|].
  change (removelast (x :: y :: rest')) with (x :: removelast (y :: rest')).
  change (path_parents_rev (x :: y :: rest'))
    with ([] :: map (cons x) (path_parents_rev (y :: rest'))).
  cbn [existsb]. rewrite existsb_map_cons by (simpl; discriminate).
  now rewrite IH.
Qed.

Lemma relative_to_root (p : Path) : relative_to p [] = Some p.
Proof. now destruct p. Qed.

(** X1. A listing entry is skipped exactly when the audited root is not
    [/] or one of the directories above the entry, below the root, bears an
    ignored name; the entry's own name does not count. *)
Theorem ignore_filter_characterised (root : Path) (f : File) :
  is_skipped root f
  = non_nil root || existsb ignored_part (removelast (rel_parts f)).
Proof.
  destruct root as [|x root].
  - simpl. unfold is_skipped, path_parents, abs_path. simpl.
    rewrite existsb_reversed, <- existsb_parents_rev.
    apply existsb_pointwise. intros parent. unfold should_ignore_dir.
    now rewrite relative_to_root.
  - simpl. apply is_skipped_below_root. discriminate.
Qed.

Example ignore_filter_examples :
  is_skipped [] (text_file ["src"; "node_modules"; "pkg"; "data.csv"] "" PyNone) = true
  /\ is_skipped [] (text_file ["src"; "build"] "" PyNone) = false
  /\ is_skipped ["srv"] (text_file ["data.csv"] "" PyNone) = true.
Proof. repeat split. Qed.

(** ** The running total *)

Lemma eval_item_total (env : AuditEnv) (st : AuditState) (key : string) (meta : ItemMeta) :
  details st !! key = None ->
  total_score (eval_item env st (key, meta)) = total_score st + item_points env (key, meta).
Proof.
  intros Hnone. unfold eval_item, item_points. cbv beta iota zeta. simpl fst. simpl snd.
  rewrite Hnone.
  set (r0 := initial_result (risk_level env) meta).
  set (st0 := with_details st (<[key := r0]> (details st))).
  assert (details st0 !! key = Some r0) as H0 by (simpl; apply lookup_insert_eq).
  rewrite H0. simpl from_option.
  destruct (str_in_list (risk_level env) (required_for meta)) eqn:Ereq; simpl negb; cbv iota.
  2:{ simpl. lia. }
  set (acc1 := keyword_loop env key meta (st0, false)).
  set (acc2 := specific_checks env key acc1).
  assert (item_rel key st0 (fst acc2)) as Hrel.
  { apply (specific_checks_preserves (item_rel key st0) env key).
    - intros s msg H. eapply item_rel_trans; [exact H | apply item_rel_add_check].
    - intros s f H. eapply item_rel_trans; [exact H | apply item_rel_register].
    - apply (keyword_loop_preserves (item_rel key st0) env key).
      + intros s msg H. eapply item_rel_trans; [exact H | apply item_rel_add_check].
      + intros s f H. eapply item_rel_trans; [exact H | apply item_rel_register].
      + apply item_rel_refl. }
  assert (snd acc2 = item_found env key meta) as Hflag.
  { unfold acc2, acc1, item_found.
    now rewrite specific_checks_flag, keyword_loop_flag. }
  destruct Hrel as (Ht & _ & Hk). destruct (Hk r0 H0) as (r2 & Hr2 & (_ & Hs & _)).
  unfold conclude_item. cbv zeta. rewrite Hflag.
  destruct (item_found env key meta).
  - unfold update_item. simpl. rewrite !lookup_alter_eq, Hr2. simpl. rewrite Ht. reflexivity.
  - unfold add_check, update_item. simpl. rewrite !lookup_alter_eq, Hr2. simpl.
    rewrite Ht, Hs. reflexivity.
Qed.

Lemma fold_eval_item_total (env : AuditEnv) (items : list (string * ItemMeta))
    (st : AuditState) :
  List.NoDup (map fst items) ->
  (forall k, In k (map fst items) -> details st !! k = None) ->
  total_score (fold_left (eval_item env) items st)
  = total_score st + sum_Z (map (item_points env) items).
Proof.
  revert st. induction items as [|[k0 m0] items IH]; intros st Hnd Hfresh; simpl.
  - lia.
  - simpl in Hnd. apply NoDup_cons_iff in Hnd as [Hk0 Hnd].
    rewrite IH.
    + rewrite eval_item_total by (apply Hfresh; now left). lia.
    + exact Hnd.
    + intros k Hk. rewrite eval_item_frame.
      * apply Hfresh. now right.
      * intros ->. contradiction.
Qed.

Lemma table_get_None {A : Type} (key : string) (table : list (string * A)) :
  ~ In key (map fst table) -> table_get key table = None.
Proof.
  induction table as [|[k a] rest IH]; simpl; [reflexivity|]. intros Hout.
  destruct (String.eqb k key) eqn:E.
  - apply String.eqb_eq in E. tauto.
  - apply IH. tauto.
Qed.

(** Every tier named in a [required_for] list is one of the three tiers. *)
Lemma required_for_known_tier (kv : string * ItemMeta) (risk : string) :
  In kv TRACEABILITY_ITEMS -> str_in_list risk (required_for (snd kv)) = true ->
  In risk ["high"; "limited"; "low"].
Proof.
  intros Hin Hreq. apply str_in_list_In in Hreq.
  assert (forallb (fun kv : string * ItemMeta =>
                     forallb (fun t => str_in_list t ["high"; "limited"; "low"])
                             (required_for (snd kv)))
                  TRACEABILITY_ITEMS = true) as Hall by (vm_compute; reflexivity).
  rewrite forallb_forall in Hall. specialize (Hall kv Hin).
  rewrite forallb_forall in Hall. apply str_in_list_In. now apply Hall.
Qed.

Lemma catalog_weights_positive (kv : string * ItemMeta) :
  In kv TRACEABILITY_ITEMS -> 0 < weight (snd kv).
Proof.
  intros Hin.
  assert (forallb (fun kv : string * ItemMeta => 0 <? weight (snd kv))
                  TRACEABILITY_ITEMS = true) as Hall by (vm_compute; reflexivity).
  rewrite forallb_forall in Hall. apply Z.ltb_lt. now apply Hall.
Qed.

(** Whatever the tier string, [max_score] is the weight of the items whose
    [required_for] names it. *)
Lemma max_score_by_required_for (risk : string) :
  max_score_for risk
  = sum_Z (map (fun kv => if str_in_list risk (required_for (snd kv))
                          then weight (snd kv) else 0)
               TRACEABILITY_ITEMS).
Proof.
  destruct (in_dec string_dec risk ["high"; "limited"; "low"]) as [Hin | Hout].
  - simpl in Hin. destruct Hin as [<- | [<- | [<- | []]]]; vm_compute; reflexivity.
  - assert (forall l : list (string * ItemMeta),
               (forall kv, In kv l -> In kv TRACEABILITY_ITEMS) ->
               sum_Z (map (fun kv => if str_in_list risk (required_for (snd kv))
                                     then weight (snd kv) else 0) l) = 0) as Hzero.
    { induction l as [|kv l IH]; intros Hsub; [reflexivity|]. simpl.
      rewrite IH by (intros; apply Hsub; now right).
      destruct (str_in_list risk (required_for (snd kv))) eqn:E; [|reflexivity].
      exfalso. apply Hout. apply (required_for_known_tier kv); [apply Hsub; now left | exact E]. }
    rewrite Hzero by auto.
    unfold max_score_for, required_items.
    rewrite (table_get_None risk RISK_LEVELS) by exact Hout. reflexivity.
Qed.

Lemma item_points_bounds (env : AuditEnv) (l : list (string * ItemMeta)) :
  (forall kv, In kv l -> 0 < weight (snd kv)) ->
  0 <= sum_Z (map (item_points env) l)
  <= sum_Z (map (fun kv => if str_in_list (risk_level env) (required_for (snd kv))
                           then weight (snd kv) else 0) l).
Proof.
  induction l as [|kv l IH]; intros Hpos; simpl; [lia|].
  assert (0 < weight (snd kv)) as Hw by (apply Hpos; now left).
  specialize (IH (fun kv' H => Hpos kv' (or_intror H))).
  unfold item_points at 1 3.
  destruct (str_in_list (risk_level env) (required_for (snd kv)));
    [destruct (item_found env (fst kv) (snd kv))|]; lia.
Qed.

(** X2. For every tree, evidence directory and tier string, the total
    score of the summary is the sum of the weights of the applicable items
    for which evidence was found; it is never negative and never exceeds
    [max_score]. *)
Theorem total_score_within_max
    (py_str : pyval -> string) (r : Repo) (d : EvidenceDir) (risk : string) :
  summary_total_score (fst (perform_audit py_str r d risk))
  = sum_Z (map (item_points (audit_env py_str r risk)) TRACEABILITY_ITEMS)
  /\ 0 <= summary_total_score (fst (perform_audit py_str r d risk))
     <= summary_max_score (fst (perform_audit py_str r d risk)).
Proof.
  assert (summary_total_score (fst (perform_audit py_str r d risk))
          = sum_Z (map (item_points (audit_env py_str r risk)) TRACEABILITY_ITEMS)) as Heq.
  { change (summary_total_score (fst (perform_audit py_str r d risk)))
      with (total_score (audit_run py_str r d risk)).
    rewrite audit_run_eq, fold_eval_item_total.
    - reflexivity.
    - exact catalog_keys_NoDup.
    - intros k _. apply lookup_empty. }
  split; [exact Heq|]. rewrite Heq.
  change (summary_max_score (fst (perform_audit py_str r d risk))) with (max_score_for risk).
  rewrite max_score_by_required_for.
  apply (item_points_bounds (audit_env py_str r risk)).
  intros kv. apply catalog_weights_positive.
Qed.

(** ** The item loop, file by file *)

Lemma fold_left_preserves_in {A B : Type} (P : A -> Prop) (f : A -> B -> A)
    (l : list B) (a : A) :
  (forall a b, In b l -> P a -> P (f a b)) -> P a -> P (fold_left f l a).
Proof.
  revert a. induction l as [|b l IH]; intros a Hstep Ha; simpl; [exact Ha|].
  apply IH.
  - intros a' b' Hb'. apply Hstep. now right.
  - apply Hstep; [now left | exact Ha].
Qed.

(** The finer rule: the files that one iteration registers are files of
    the scan (or carry a parsed log or metadata document), and the entry
    under [key] is only touched by the updates the loop really makes. *)
Section FileRules.

Variable P : AuditState -> Prop.
Variable Q : File -> Prop.
Variable env : AuditEnv.
Variable key : string.
Variable meta : ItemMeta.
Hypothesis Q_candidates :
  forall category f, In f (cand (candidates env) category) -> Q f.
Hypothesis Q_logs : forall pl, In pl (parsed_logs env) -> Q (fst pl).
Hypothesis Q_metadata : forall pl, In pl (parsed_metadata env) -> Q (fst pl).
Hypothesis P_check : forall st msg, P st -> P (add_check key msg st).
Hypothesis P_register :
  forall st f, Q f -> P st -> P (register_item_evidence (risk_level env) key f st).
Hypothesis P_status : forall st s, P st -> P (update_item key (set_status s) st).
Hypothesis P_score : forall st v, P st -> P (update_item key (set_score v) st).
Hypothesis P_create :
  forall st, details st !! key = None -> P st ->
             P (with_details st (<[key := initial_result (risk_level env) meta]> (details st))).
Hypothesis P_total : forall st t, P st -> P (with_total_score st t).

Lemma keyword_loop_preserves_files (acc : AuditState * bool) :
  P (fst acc) -> P (fst (keyword_loop env key meta acc)).
Proof.
  unfold keyword_loop, candidates_items.
  apply (fold_left_preserves_in (fun acc => P (fst acc))).
  intros a kv Hkv. apply in_map_iff in Hkv as (kp & <- & _). simpl.
  apply (fold_left_preserves_in (fun acc => P (fst acc))).
  intros a' f Hf Ha. unfold keyword_step.
  destruct (safe_read_text f); [|exact Ha].
  destruct (keyword_hit meta f s); [|exact Ha]. simpl.
  apply P_register; [eapply Q_candidates; exact Hf | now apply P_check].
Qed.

Lemma register_all_preserves_files (files : list File) (st : AuditState) :
  (forall f, In f files -> Q f) -> P st -> P (register_all env key files st).
Proof.
  intros HQ. unfold register_all. apply fold_left_preserves_in.
  intros a f Hf. apply P_register. now apply HQ.
Qed.

Lemma specific_checks_preserves_files (acc : AuditState * bool) :
  P (fst acc) -> P (fst (specific_checks env key acc)).
Proof.
  intros H. unfold specific_checks.
  repeat match goal with
         | |- context [if ?b then _ else _] => destruct b
         end; simpl; try exact H.
  - apply fold_left_preserves_in; [|auto].
    intros a f Hf Ha. unfold dataset_hash_step.
    destruct (hash_listed _ _); [|exact Ha].
    apply P_register; [eapply Q_candidates; exact Hf | now apply P_check].
  - apply register_all_preserves_files; [apply Q_candidates | auto].
  - repeat (apply register_all_preserves_files; [apply Q_candidates|]). auto.
  - apply register_all_preserves_files; [|auto].
    intros f Hf. apply in_map_iff in Hf as (pl & <- & Hpl).
    apply in_app_iff in Hpl as [Hpl | Hpl]; [now apply Q_logs | now apply Q_metadata].
  - apply (fold_left_preserves_in (fun acc => P (fst acc))); [|exact H].
    intros a f Hf Ha. unfold integrity_step.
    destruct (integrity_confirmed env f); [|exact Ha]. simpl.
    apply P_register; [|now apply P_check].
    apply in_app_iff in Hf as [Hf | Hf]; eapply Q_candidates; exact Hf.
Qed.

Lemma eval_item_preserves_files (st : AuditState) :
  details st !! key = None -> P st -> P (eval_item env st (key, meta)).
Proof.
  intros Hnone H. unfold eval_item. cbv beta iota zeta. simpl fst. simpl snd.
  rewrite Hnone.
  set (st0 := with_details st _).
  assert (P st0) as H0 by (unfold st0; now apply P_create).
  clearbody st0.
  destruct (negb _); [now apply P_status|].
  unfold conclude_item. cbv zeta. apply P_total.
  assert (P (fst (specific_checks env key (keyword_loop env key meta (st0, false))))) as H1.
  { apply specific_checks_preserves_files. apply keyword_loop_preserves_files. exact H0. }
  destruct (snd _).
  - apply P_status. now apply P_score.
  - apply P_status. now apply P_check.
Qed.

End FileRules.

(** A property that holds of the initial state and is kept by every
    iteration, in the sense of the finer rule, holds after the run. *)
Lemma fold_eval_item_preserves_files (P : AuditState -> Prop) (Q : File -> Prop)
    (env : AuditEnv) (items : list (string * ItemMeta)) (st : AuditState) :
  (forall category f, In f (cand (candidates env) category) -> Q f) ->
  (forall pl, In pl (parsed_logs env) -> Q (fst pl)) ->
  (forall pl, In pl (parsed_metadata env) -> Q (fst pl)) ->
  (forall key st msg, P st -> P (add_check key msg st)) ->
  (forall key st f, Q f -> P st -> P (register_item_evidence (risk_level env) key f st)) ->
  (forall key st s, P st -> P (update_item key (set_status s) st)) ->
  (forall key st v, P st -> P (update_item key (set_score v) st)) ->
  (forall key meta st, details st !! key = None -> P st ->
     P (with_details st (<[key := initial_result (risk_level env) meta]> (details st)))) ->
  (forall st t, P st -> P (with_total_score st t)) ->
  List.NoDup (map fst items) ->
  (forall k, In k (map fst items) -> details st !! k = None) ->
  P st -> P (fold_left (eval_item env) items st).
Proof.
  intros HQ1 HQ2 HQ3 Hc Hr Hs Hv Hn Ht.
  revert st. induction items as [|[k0 m0] items IH]; intros st Hnd Hfresh HP; [exact HP|].
  simpl in Hnd. apply NoDup_cons_iff in Hnd as [Hk0 Hnd]. simpl.
  apply IH; [exact Hnd | |].
  - intros k Hk. rewrite eval_item_frame.
    + apply Hfresh. now right.
    + intros ->. contradiction.
  - apply (eval_item_preserves_files P Q env k0 m0); auto.
    apply Hfresh. now left.
Qed.

Section RunFacts.

Variable py_str : pyval -> string.

Lemma audit_env_logs_scanned (r : Repo) (risk : string) (pl : File * pyval) :
  In pl (parsed_logs (audit_env py_str r risk)) ->
  In (fst pl) (cand (scan_repository r) "decision_logs").
Proof.
  simpl. intros H. apply in_map_iff in H as (f & <- & Hf). exact Hf.
Qed.

Lemma audit_env_metadata_scanned (r : Repo) (risk : string) (pl : File * pyval) :
  In pl (parsed_metadata (audit_env py_str r risk)) ->
  In (fst pl) (cand (scan_repository r) "metadata_files").
Proof.
  simpl. intros H. apply in_map_iff in H as (f & <- & Hf). exact Hf.
Qed.

(** The rule for a whole run: [Q] holds of every scanned file. *)
Lemma audit_run_preserves (P : AuditState -> Prop) (Q : File -> Prop)
    (r : Repo) (d : EvidenceDir) (risk : string) :
  (forall category f, In f (cand (scan_repository r) category) -> Q f) ->
  (forall key st msg, P st -> P (add_check key msg st)) ->
  (forall key st f, Q f -> P st -> P (register_item_evidence risk key f st)) ->
  (forall key st s, P st -> P (update_item key (set_status s) st)) ->
  (forall key st v, P st -> P (update_item key (set_score v) st)) ->
  (forall key meta st, details st !! key = None -> P st ->
     P (with_details st (<[key := initial_result risk meta]> (details st)))) ->
  (forall st t, P st -> P (with_total_score st t)) ->
  P (initial_state d) ->
  P (audit_run py_str r d risk).
Proof.
  intros HQ Hc Hr Hs Hv Hn Ht H0. rewrite audit_run_eq.
  apply (fold_eval_item_preserves_files P Q); auto.
  - intros pl Hpl. apply (HQ "decision_logs").
    apply (audit_env_logs_scanned r risk). exact Hpl.
  - intros pl Hpl. apply (HQ "metadata_files").
    apply (audit_env_metadata_scanned r risk). exact Hpl.
  - exact catalog_keys_NoDup.
Qed.

End RunFacts.

(** ** Evidence lists, index and archive *)

Lemma append_evidence_In (rel p : string) (r : ItemResult) :
  In p (evidence (append_evidence rel r)) <-> In p (evidence r) \/ p = rel.
Proof.
  unfold append_evidence. destruct (str_in_list rel (evidence r)) eqn:E; simpl.
  - apply str_in_list_In in E. split; [auto | intros [H | ->]; assumption].
  - rewrite in_app_iff. simpl. split; intros [H | H]; auto.
    destruct H as [<- | []]. now right.
Qed.

Lemma append_evidence_NoDup (rel : string) (r : ItemResult) :
  List.NoDup (evidence r) -> List.NoDup (evidence (append_evidence rel r)).
Proof.
  intros Hnd. unfold append_evidence.
  destruct (str_in_list rel (evidence r)) eqn:E; simpl; [exact Hnd|].
  apply List.NoDup_app; [exact Hnd | constructor; [intros [] | constructor] |].
  intros a Ha [<- | []].
  assert (str_in_list rel (evidence r) = true) as Hc by now apply str_in_list_In.
  congruence.
Qed.

(** What a registration of a regular file does to the details. *)
Lemma register_item_evidence_lookup (risk key : string) (f : File) (st : AuditState) :
  is_file f = true ->
  details (register_item_evidence risk key f st) !! key
  = Some (append_evidence (rel_path f)
            (default (registered_result risk key) (details st !! key)))
  /\ forall k, k <> key ->
       details (register_item_evidence risk key f st) !! k = details st !! k.
Proof.
  intros Hfile.
  destruct (register_item_evidence_details risk key f st Hfile) as [Hd _].
  rewrite Hd. split.
  - rewrite lookup_alter_eq. destruct (details st !! key) as [r|] eqn:E; simpl.
    + now rewrite E.
    + now rewrite lookup_insert_eq.
  - intros k Hk. rewrite lookup_alter_ne by congruence.
    destruct (details st !! key); [reflexivity|]. now rewrite lookup_insert_ne by congruence.
Qed.

Lemma register_item_evidence_nonfile (risk key : string) (f : File) (st : AuditState) :
  is_file f = false -> register_item_evidence risk key f st = st.
Proof. intros Hfile. unfold register_item_evidence. now rewrite Hfile. Qed.

Lemma update_item_lookup (key k : string) (g : ItemResult -> ItemResult) (st : AuditState) :
  details (update_item key g st) !! k
  = if String.eqb key k then g <$> details st !! k else details st !! k.
Proof.
  unfold update_item. simpl. destruct (String.eqb key k) eqn:E.
  - apply String.eqb_eq in E. subst. apply lookup_alter_eq.
  - apply String.eqb_neq in E. now apply lookup_alter_ne.
Qed.

(** A property of every stored result that the loop's updates keep, that
    fresh results have and that registering a scanned file keeps holds of
    every result after the run. *)
Lemma audit_run_results (py_str : pyval -> string) (R : ItemResult -> Prop)
    (Q : File -> Prop) (r : Repo) (d : EvidenceDir) (risk : string) :
  (forall category f, In f (cand (scan_repository r) category) -> Q f) ->
  (forall res msg, R res -> R (append_check msg res)) ->
  (forall res s, R res -> R (set_status s res)) ->
  (forall res v, R res -> R (set_score v res)) ->
  (forall res f, Q f -> is_file f = true -> R res -> R (append_evidence (rel_path f) res)) ->
  (forall meta, R (initial_result risk meta)) ->
  (forall key, R (registered_result risk key)) ->
  forall key res, details (audit_run py_str r d risk) !! key = Some res -> R res.
Proof.
  intros HQ Hc Hs Hv He Hi Hg.
  apply (audit_run_preserves py_str
           (fun st => forall key res, details st !! key = Some res -> R res) Q r d risk HQ).
  - intros key st msg H k res. unfold add_check. rewrite update_item_lookup.
    destruct (String.eqb key k); [|apply H].
    destruct (details st !! k) as [r0|] eqn:E; [|discriminate].
    intros [= <-]. apply Hc. now apply (H k).
  - intros key st f Hf H k res.
    destruct (is_file f) eqn:Hfile.
    + destruct (register_item_evidence_lookup risk key f st Hfile) as [Hk Hother].
      destruct (string_dec k key) as [-> | Hne].
      * rewrite Hk. intros [= <-]. apply He; [exact Hf | exact Hfile |].
        destruct (details st !! key) as [r0|] eqn:E; simpl; [now apply (H key) | apply Hg].
      * rewrite Hother by exact Hne. apply H.
    + rewrite register_item_evidence_nonfile by exact Hfile. apply H.
  - intros key st s H k res. rewrite update_item_lookup.
    destruct (String.eqb key k); [|apply H].
    destruct (details st !! k) as [r0|] eqn:E; [|discriminate].
    intros [= <-]. apply Hs. now apply (H k).
  - intros key st v H k res. rewrite update_item_lookup.
    destruct (String.eqb key k); [|apply H].
    destruct (details st !! k) as [r0|] eqn:E; [|discriminate].
    intros [= <-]. apply Hv. now apply (H k).
  - intros key meta st Hnone H k res. simpl.
    destruct (string_dec key k) as [-> | Hne].
    + rewrite lookup_insert_eq. intros [= <-]. apply Hi.
    + rewrite lookup_insert_ne by exact Hne. apply H.
  - intros st t H. exact H.
  - intros key res. simpl. rewrite lookup_empty. discriminate.
Qed.

(** X3. In every audit result, the evidence list of every item is free of
    duplicates, and each of its paths is the relative path of a regular
    file that the scan classified (so one that the ignore filter let
    through and that matches a pattern). *)
Theorem evidence_cites_scanned_files_once
    (py_str : pyval -> string) (r : Repo) (d : EvidenceDir) (risk key : string)
    (res : ItemResult) :
  result_details (fst (perform_audit py_str r d risk)) !! key = Some res ->
  List.NoDup (evidence res)
  /\ forall p, In p (evidence res) ->
       exists category f,
         In f (cand (scan_repository r) category) /\ scanned r f /\ rel_path f = p.
Proof.
  rewrite perform_audit_details.
  apply (audit_run_results py_str
           (fun res => List.NoDup (evidence res)
                       /\ forall p, In p (evidence res) ->
                            exists category f,
                              In f (cand (scan_repository r) category)
                              /\ scanned r f /\ rel_path f = p)
           (fun f => exists category, In f (cand (scan_repository r) category))).
  - intros category f Hf. now exists category.
  - intros res0 msg H. exact H.
  - intros res0 s H. exact H.
  - intros res0 v H. exact H.
  - intros res0 f [category Hf] Hfile [Hnd Hsrc]. split.
    + now apply append_evidence_NoDup.
    + intros p Hp. apply append_evidence_In in Hp as [Hp | ->]; [now apply Hsrc|].
      exists category, f. split; [exact Hf|]. split; [|reflexivity].
      now apply in_scan_repository in Hf as [Hsc _].
  - intros meta. simpl. split; [constructor | intros p []].
  - intros k. unfold registered_result.
    destruct (table_get k TRACEABILITY_ITEMS); simpl; (split; [constructor | intros p []]).
Qed.

Lemma evidence_cites_scanned_files_once_witness :
  let f := text_file ["notes"; "changelog.md"] "Model update 1.2" (PyStr "Model update 1.2") in
  let r := mkRepo [] true [f] in
  exists res,
    result_details (fst (perform_audit py_str_scalar r (EVIDENCE_DIR []) "high"))
      !! "model_change_documentation" = Some res
    /\ evidence res = ["notes/changelog.md"]
    /\ List.NoDup (evidence res)
    /\ forall p, In p (evidence res) ->
         exists category f',
           In f' (cand (scan_repository r) category) /\ scanned r f' /\ rel_path f' = p.
Proof.
  intros f r.
  assert (exists res,
             result_details (fst (perform_audit py_str_scalar r (EVIDENCE_DIR []) "high"))
               !! "model_change_documentation" = Some res
             /\ evidence res = ["notes/changelog.md"]) as (res & H & Hev)
    by (eexists; split; vm_compute; reflexivity).
  exists res. split; [exact H|]. split; [exact Hev|].
  exact (evidence_cites_scanned_files_once py_str_scalar r (EVIDENCE_DIR []) "high"
           "model_change_documentation" res H).
Defined.

Lemma copy_evidence_dir_name (src : File) (d : EvidenceDir) :
  dir_name (snd (copy_evidence src d)) = dir_name d.
Proof.
  destruct (copy_evidence_cases src d) as [[-> _] | (_ & _ & n & _ & ->)]; reflexivity.
Qed.

(** A registration leaves the directory alone or writes one entry under a
    name that was free. *)
Lemma register_item_evidence_dir (risk key : string) (f : File) (st : AuditState) :
  evidence_dir (register_item_evidence risk key f st) = evidence_dir st
  \/ exists n, dest_exists (evidence_dir st) n = false
               /\ evidence_dir (register_item_evidence risk key f st)
                  = with_entry (evidence_dir st) n f.
Proof.
  destruct (is_file f) eqn:Hfile.
  2:{ left. now rewrite register_item_evidence_nonfile. }
  pose proof (register_item_evidence_archive risk key f st Hfile) as H.
  destruct (evidence_index st !! rel_path f).
  - injection H as _ Hd. now left.
  - destruct (copy_evidence_cases f (evidence_dir st))
      as [[Hsame _] | (_ & _ & n & Hfree & Hc)].
    + left. destruct (copy_evidence f (evidence_dir st)) as [copied dir'].
      simpl in Hsame. subst dir'.
      destruct (non_empty _ && negb _); injection H as _ Hd; exact Hd.
    + rewrite Hc in H. right. exists n. split; [exact Hfree|].
      destruct (non_empty _ && negb _); injection H as _ Hd; exact Hd.
Qed.

(** With the directory named [evidence], a registration of a regular file
    adds its path to the index when the copy succeeds, and removes none. *)
Lemma register_item_evidence_index_keys (risk key : string) (f : File) (st : AuditState)
    (p : string) :
  is_file f = true -> dir_name (evidence_dir st) = "evidence" ->
  (is_Some (evidence_index (register_item_evidence risk key f st) !! p)
   <-> is_Some (evidence_index st !! p) \/ (p = rel_path f /\ copy_error f = None)).
Proof.
  intros Hfile Hname.
  pose proof (register_item_evidence_archive risk key f st Hfile) as H.
  destruct (evidence_index st !! rel_path f) as [a|] eqn:Ea.
  - injection H as Hi _. rewrite Hi. split; [auto|].
    intros [Hp | [-> _]]; [exact Hp | rewrite Ea; eauto].
  - destruct (copy_error f) as [e|] eqn:Hcopy.
    + destruct (register_failed_copy risk key f st e Hfile Hcopy) as [Hi _].
      rewrite Hi. split; [auto|]. intros [Hp | [_ [=]]]. exact Hp.
    + destruct (copy_evidence_archives f (evidence_dir st) Hfile Hcopy) as (n & _ & Hc & _).
      rewrite Hc, Hname in H. simpl in H. injection H as Hi _. rewrite Hi.
      destruct (string_dec (rel_path f) p) as [<- | Hne].
      * rewrite lookup_insert_eq. split; eauto.
      * rewrite lookup_insert_ne by exact Hne. split; [auto|].
        intros [Hp | [-> _]]; [exact Hp | contradiction].
Qed.

Lemma register_item_evidence_dir_name (risk key : string) (f : File) (st : AuditState) :
  dir_name (evidence_dir (register_item_evidence risk key f st)) = dir_name (evidence_dir st).
Proof.
  destruct (register_item_evidence_dir risk key f st) as [-> | (n & _ & ->)]; reflexivity.
Qed.

(** The paths some item cites, before and after a step. *)
Lemma cited_update (key q : string) (g : ItemResult -> ItemResult) (st : AuditState) :
  (forall res, evidence (g res) = evidence res) ->
  ((exists k, cites k q (update_item key g st)) <-> exists k, cites k q st).
Proof.
  intros Hg. unfold cites. split.
  - intros (k & res & Hres & Hq). rewrite update_item_lookup in Hres.
    destruct (String.eqb key k); [|eauto].
    destruct (details st !! k) as [r0|] eqn:E; [|discriminate].
    injection Hres as <-. rewrite Hg in Hq. eauto.
  - intros (k & res & Hres & Hq). destruct (string_dec key k) as [-> | Hne].
    + exists k, (g res). rewrite update_item_lookup, String.eqb_refl, Hres.
      split; [reflexivity | now rewrite Hg].
    + exists k, res. rewrite update_item_lookup.
      apply String.eqb_neq in Hne. rewrite Hne. auto.
Qed.

Lemma cited_register (risk key q : string) (f : File) (st : AuditState) :
  is_file f = true ->
  ((exists k, cites k q (register_item_evidence risk key f st))
   <-> (exists k, cites k q st) \/ q = rel_path f).
Proof.
  intros Hfile. unfold cites.
  destruct (register_item_evidence_lookup risk key f st Hfile) as [Hk Hother]. split.
  - intros (k & res & Hres & Hq). destruct (string_dec k key) as [-> | Hne].
    + rewrite Hk in Hres. injection Hres as <-.
      apply append_evidence_In in Hq as [Hq | ->]; [|now right].
      destruct (details st !! key) as [r0|] eqn:E; simpl in Hq.
      * left. eauto.
      * unfold registered_result in Hq.
        destruct (table_get key TRACEABILITY_ITEMS); destruct Hq.
    + rewrite Hother in Hres by exact Hne. left. eauto.
  - intros [(k & res & Hres & Hq) | ->].
    + destruct (string_dec k key) as [-> | Hne].
      * eexists key, _. split; [exact Hk|]. rewrite Hres. simpl.
        apply append_evidence_In. now left.
      * exists k, res. now rewrite Hother.
    + eexists key, _. split; [exact Hk|]. apply append_evidence_In. now right.
Qed.

(** X4. In a run started by [main], a path is in the evidence index only
    if some item cites it and a scanned file of that path could be copied;
    a path that some item cites is in the index unless the copy of a
    scanned file of that path failed. So where every scanned file of the
    path can be copied, the path is indexed exactly when it is cited; a
    file whose copy fails is cited without being indexed. *)
Theorem evidence_index_lists_cited_paths
    (py_str : pyval -> string) (r : Repo) (existing : list ArchiveEntry)
    (risk p : string) :
  let a := fst (main_audit py_str r existing risk) in
  let cited := exists key res, result_details a !! key = Some res /\ In p (evidence res) in
  let scanned_as := fun (ok : File -> Prop) =>
    exists category f,
      In f (cand (scan_repository r) category) /\ rel_path f = p /\ ok f in
  (is_Some (result_evidence_index a !! p) ->
   cited /\ scanned_as (fun f => copy_error f = None))
  /\ (cited ->
      is_Some (result_evidence_index a !! p) \/ scanned_as (fun f => copy_error f <> None))
  /\ (~ scanned_as (fun f => copy_error f <> None) ->
      (is_Some (result_evidence_index a !! p) <-> cited)).
Proof.
  cbv zeta.
  change (result_evidence_index (fst (main_audit py_str r existing risk)))
    with (evidence_index (audit_run py_str r (EVIDENCE_DIR existing) risk)).
  change (result_details (fst (main_audit py_str r existing risk)))
    with (details (audit_run py_str r (EVIDENCE_DIR existing) risk)).
  set (scanned_as := fun (q : string) (ok : File -> Prop) =>
         exists category f,
           In f (cand (scan_repository r) category) /\ rel_path f = q /\ ok f).
  set (P := fun st : AuditState =>
              dir_name (evidence_dir st) = "evidence"
              /\ forall q,
                   (is_Some (evidence_index st !! q) ->
                    (exists k, cites k q st) /\ scanned_as q (fun f => copy_error f = None))
                   /\ ((exists k, cites k q st) ->
                       is_Some (evidence_index st !! q)
                       \/ scanned_as q (fun f => copy_error f <> None))).
  assert (forall key (g : ItemResult -> ItemResult) st,
             (forall res, evidence (g res) = evidence res) ->
             P st -> P (update_item key g st)) as Hupd.
  { intros key g st Hg [Hname Hq]. split; [exact Hname|].
    intros q. change (evidence_index (update_item key g st)) with (evidence_index st).
    rewrite (cited_update key q g st Hg). apply Hq. }
  assert (P (audit_run py_str r (EVIDENCE_DIR existing) risk)) as [_ H].
  { apply (audit_run_preserves py_str P
             (fun f => exists category, In f (cand (scan_repository r) category))).
    - intros category f Hf. now exists category.
    - intros key st msg. apply Hupd. reflexivity.
    - intros key st f [category Hf] [Hname Hq].
      split; [now rewrite register_item_evidence_dir_name|].
      destruct (is_file f) eqn:Hfile;
        [|now rewrite register_item_evidence_nonfile].
      intros q. rewrite (register_item_evidence_index_keys risk key f st q Hfile Hname).
      rewrite (cited_register risk key q f st Hfile).
      destruct (Hq q) as [Hix Hcit]. split.
      + intros [Hold | [-> Hcopy]].
        * destruct (Hix Hold) as [Hc Hs]. split; [now left | exact Hs].
        * split; [now right|]. exists category, f. auto.
      + intros [Hold | ->].
        * destruct (Hcit Hold) as [Hi | Hs]; [left; now left | now right].
        * destruct (copy_error f) as [e|] eqn:Hcopy.
          -- right. exists category, f. split; [exact Hf|]. split; [reflexivity|].
             rewrite Hcopy. discriminate.
          -- left. right. auto.
    - intros key st s0. apply Hupd. reflexivity.
    - intros key st v. apply Hupd. reflexivity.
    - intros key meta st Hnone [Hname Hq]. split; [exact Hname|].
      intros q. simpl.
      assert ((exists k, cites k q
                 (with_details st (<[key := initial_result risk meta]> (details st))))
              <-> exists k, cites k q st) as Hsame.
      { unfold cites. simpl. split.
        - intros (k & res & Hres & Hin). destruct (string_dec key k) as [-> | Hne].
          + rewrite lookup_insert_eq in Hres. injection Hres as <-. destruct Hin.
          + rewrite lookup_insert_ne in Hres by exact Hne. eauto.
        - intros (k & res & Hres & Hin). exists k, res. split; [|exact Hin].
          rewrite lookup_insert_ne; [exact Hres | congruence]. }
      rewrite Hsame. apply Hq.
    - intros st t H. exact H.
    - split; [reflexivity|]. intros q. simpl. rewrite lookup_empty. split.
      + intros [? [=]].
      + intros (k & res & Hres & _). simpl in Hres. rewrite lookup_empty in Hres.
        discriminate. }
  destruct (H p) as [Hix Hcit]. unfold cites in Hix, Hcit.
  split; [exact Hix|]. split; [exact Hcit|].
  intros Hnone. split; [intros Hi; now apply Hix|].
  intros Hc. destruct (Hcit Hc) as [Hi | Hs]; [exact Hi | contradiction].
Qed.

(** An unreadable model file beside a model card at [/]: the model
    versioning item cites both files, and only the one that could be
    copied is in the index and in the evidence directory. *)
Example failed_copy_cited_not_indexed :
  let card := text_file ["model_card.md"] "Model version 2" (PyStr "Model version 2") in
  let model := unreadable_file ["model.pkl"] in
  let run := main_audit py_str_scalar (mkRepo [] true [card; model]) [] "low" in
  evidence <$> (result_details (fst run) !! "model_versioning")
    = Some ["model_card.md"; "model.pkl"]
  /\ result_evidence_index (fst run) !! "model.pkl" = None
  /\ is_Some (result_evidence_index (fst run) !! "model_card.md")
  /\ map entry_src (entries (snd run)) = ["model_card.md"].
Proof.
  vm_compute. split; [reflexivity|]. split; [reflexivity|]. split; [eauto | reflexivity].
Qed.

Lemma dest_exists_false_iff (d : EvidenceDir) (n : string) :
  dest_exists d n = false <-> ~ In n (map entry_name (entries d)).
Proof.
  rewrite <- dest_exists_In. destruct (dest_exists d n); split; intros H; congruence.
Qed.

(** X5. Whatever evidence directory an audit is given, it only appends to
    it: afterwards the directory has the same name and holds the entries
    it held, in place, followed by new ones whose names differ from one
    another and from every name that was there. Names that were pairwise
    different at the start are pairwise different at the end. *)
Theorem audit_only_appends_to_archive
    (py_str : pyval -> string) (r : Repo) (d : EvidenceDir) (risk : string) :
  dir_name (snd (perform_audit py_str r d risk)) = dir_name d
  /\ exists copies,
       entries (snd (perform_audit py_str r d risk)) = entries d ++ copies
       /\ List.NoDup (map entry_name copies)
       /\ (forall e, In e copies -> dest_exists d (entry_name e) = false)
       /\ (List.NoDup (map entry_name (entries d)) ->
           List.NoDup (map entry_name (entries (snd (perform_audit py_str r d risk))))).
Proof.
  change (snd (perform_audit py_str r d risk))
    with (evidence_dir (audit_run py_str r d risk)).
  set (P := fun st : AuditState =>
              dir_name (evidence_dir st) = dir_name d
              /\ exists copies,
                   entries (evidence_dir st) = entries d ++ copies
                   /\ List.NoDup (map entry_name copies)
                   /\ forall e, In e copies -> dest_exists d (entry_name e) = false).
  assert (P (audit_run py_str r d risk)) as (Hname & copies & Hent & Hnd & Hnew).
  { rewrite audit_run_eq. apply fold_left_preserves.
    - intros st [key meta].
      apply (eval_item_preserves P (audit_env py_str r risk) key); try (intros; assumption).
      unfold P. clear. intros st f (Hname & copies & Hent & Hnd & Hnew).
      destruct (register_item_evidence_dir (risk_level (audit_env py_str r risk)) key f st)
        as [-> | (n & Hfree & ->)].
      + split; [exact Hname|]. exists copies. auto.
      + split; [exact Hname|]. exists (copies ++ [mkEntry n (rel_path f)]).
        apply dest_exists_false_iff in Hfree. rewrite Hent, map_app, in_app_iff in Hfree.
        split; [simpl; now rewrite Hent, app_assoc|]. split.
        * rewrite map_app. apply List.NoDup_app; [exact Hnd | |].
          -- constructor; [intros [] | constructor].
          -- intros a Ha [<- | []]. tauto.
        * intros e He. apply in_app_iff in He as [He | [<- | []]]; [now apply Hnew|].
          apply dest_exists_false_iff. simpl. tauto.
    - split; [reflexivity|]. exists []. simpl. rewrite app_nil_r.
      split; [reflexivity|]. split; [constructor | intros e []]. }
  split; [exact Hname|]. exists copies.
  split; [exact Hent|]. split; [exact Hnd|]. split; [exact Hnew|].
  intros Hold. rewrite Hent, map_app. apply List.NoDup_app; [exact Hold | exact Hnd |].
  intros a Ha Hin. apply in_map_iff in Hin as (e & <- & He).
  specialize (Hnew e He). apply dest_exists_false_iff in Hnew. contradiction.
Qed.

(** ** A file that matches a keyword *)

Lemma fold_left_reaches {A B : Type} (K M : A -> Prop) (step : A -> B -> A)
    (l : list B) (b0 : B) (a : A) :
  (forall a b, K a -> K (step a b)) ->
  (forall a b, M a -> M (step a b)) ->
  (forall a, K a -> M (step a b0)) ->
  In b0 l -> K a -> M (fold_left step l a).
Proof.
  intros HK HM Hhit. revert a. induction l as [|b l IH]; intros a Hin Ha; [destruct Hin|].
  simpl. destruct Hin as [-> | Hin].
  - apply fold_left_preserves; [exact HM | now apply Hhit].
  - apply IH; [exact Hin | now apply HK].
Qed.

Lemma cites_update (key p : string) (g : ItemResult -> ItemResult) (st : AuditState) :
  (forall res, evidence (g res) = evidence res) ->
  cites key p st -> cites key p (update_item key g st).
Proof.
  intros Hg (res & Hres & Hp). exists (g res).
  rewrite update_item_lookup, String.eqb_refl, Hres. split; [reflexivity | now rewrite Hg].
Qed.

Lemma cites_register (risk key p : string) (f : File) (st : AuditState) :
  cites key p st -> cites key p (register_item_evidence risk key f st).
Proof.
  intros (res & Hres & Hp). destruct (is_file f) eqn:Hfile.
  - destruct (register_item_evidence_lookup risk key f st Hfile) as [Hk _].
    eexists. split; [exact Hk|]. rewrite Hres. simpl. apply append_evidence_In. now left.
  - rewrite register_item_evidence_nonfile by exact Hfile. now exists res.
Qed.

Lemma register_cites (risk key : string) (f : File) (st : AuditState) :
  is_file f = true -> cites key (rel_path f) (register_item_evidence risk key f st).
Proof.
  intros Hfile. destruct (register_item_evidence_lookup risk key f st Hfile) as [Hk _].
  eexists. split; [exact Hk|]. apply append_evidence_In. now right.
Qed.

Lemma keyword_loop_cites (env : AuditEnv) (key : string) (meta : ItemMeta)
    (category : string) (f : File) (content : string) (acc : AuditState * bool) :
  In category (map fst FILE_PATTERNS) ->
  In f (cand (candidates env) category) ->
  safe_read_text f = Some content -> keyword_hit meta f content = true ->
  cites key (rel_path f) (fst (keyword_loop env key meta acc)).
Proof.
  intros Hcat Hf Hread Hhit.
  assert (forall a f', cites key (rel_path f) (fst a) ->
                       cites key (rel_path f) (fst (keyword_step env key meta a f'))) as Hkeep.
  { intros a f' Ha. unfold keyword_step. destruct (safe_read_text f'); [|exact Ha].
    destruct (keyword_hit meta f' s); [|exact Ha]. simpl.
    apply cites_register. now apply cites_update. }
  unfold keyword_loop.
  apply (fold_left_reaches (fun _ => True) (fun a => cites key (rel_path f) (fst a))
           _ _ (category, cand (candidates env) category)); auto.
  - intros a kv. apply (fold_left_preserves (fun a => cites key (rel_path f) (fst a))).
    exact Hkeep.
  - intros a _. simpl.
    apply (fold_left_reaches (fun _ => True) (fun a => cites key (rel_path f) (fst a))
             _ _ f); auto.
    intros a' _. unfold keyword_step. rewrite Hread, Hhit. simpl.
    apply register_cites. now apply safe_read_text_is_file in Hread.
  - unfold candidates_items. apply in_map_iff in Hcat as ([c pats] & Hc & Hin).
    simpl in Hc. subst c. apply in_map_iff. exists (category, pats). auto.
Qed.

Lemma eval_item_cites (env : AuditEnv) (st : AuditState) (key : string) (meta : ItemMeta)
    (category : string) (f : File) (content : string) :
  details st !! key = None ->
  str_in_list (risk_level env) (required_for meta) = true ->
  In category (map fst FILE_PATTERNS) ->
  In f (cand (candidates env) category) ->
  safe_read_text f = Some content -> keyword_hit meta f content = true ->
  cites key (rel_path f) (eval_item env st (key, meta)).
Proof.
  intros Hnone Hreq Hcat Hf Hread Hhit.
  unfold eval_item. cbv beta iota zeta. simpl fst. simpl snd. rewrite Hnone.
  set (st0 := with_details st _).
  assert (details st0 !! key = Some (initial_result (risk_level env) meta)) as H0
    by (simpl; apply lookup_insert_eq).
  rewrite H0. simpl from_option. rewrite Hreq. simpl negb. cbv iota.
  assert (cites key (rel_path f)
            (fst (specific_checks env key (keyword_loop env key meta (st0, false))))) as H1.
  { apply (specific_checks_preserves (cites key (rel_path f)) env key).
    - intros s msg. apply cites_update. reflexivity.
    - intros s f'. apply cites_register.
    - now apply (keyword_loop_cites env key meta category f content). }
  unfold conclude_item. cbv zeta.
  destruct H1 as (res & Hres & Hp).
  destruct (snd _).
  - exists (set_status found (set_score (weight meta) res)). simpl.
    rewrite !lookup_alter_eq, Hres. auto.
  - eexists. simpl. unfold add_check, update_item. simpl.
    rewrite !lookup_alter_eq, Hres. simpl. split; [reflexivity | exact Hp].
Qed.

Lemma fold_eval_item_at (env : AuditEnv) (items : list (string * ItemMeta))
    (st : AuditState) (key : string) (meta : ItemMeta) :
  List.NoDup (map fst items) -> In (key, meta) items ->
  (forall k, In k (map fst items) -> details st !! k = None) ->
  exists st',
    details st' !! key = None
    /\ details (fold_left (eval_item env) items st) !! key
       = details (eval_item env st' (key, meta)) !! key.
Proof.
  revert st. induction items as [|[k0 m0] items IH]; intros st Hnd Hin Hfresh; [destruct Hin|].
  simpl in Hnd. apply NoDup_cons_iff in Hnd as [Hk0 Hnd]. simpl.
  destruct Hin as [Heq | Hin].
  - inversion Heq; subst k0 m0. exists st. split; [apply Hfresh; now left|].
    now apply fold_eval_item_frame.
  - apply IH; [exact Hnd | exact Hin |].
    intros k Hk. rewrite eval_item_frame.
    + apply Hfresh. now right.
    + intros ->. contradiction.
Qed.

Lemma applicable_in_catalog (risk key : string) :
  applicable risk key -> In (key, catalog_meta key) TRACEABILITY_ITEMS.
Proof.
  unfold applicable, catalog_meta.
  destruct (table_get key TRACEABILITY_ITEMS) as [meta|] eqn:E.
  - intros _. exact (table_get_In key TRACEABILITY_ITEMS meta E).
  - intros [].
Qed.

Lemma scanned_category_in_table (r : Repo) (f : File) (category : string) :
  In f (cand (scan_repository r) category) -> In category (map fst FILE_PATTERNS).
Proof.
  intros Hf. apply in_scan_repository in Hf as [_ (pre & pats & post & Heq & _)].
  rewrite Heq, map_app, in_app_iff. right. now left.
Qed.

(** X6. When a classified, readable file has a keyword of an item in its
    name or in its sampled content, and the item applies to the tier, the
    item is [found] with its full weight and its evidence list contains
    the relative path of that file. *)
Theorem keyword_match_is_evidence
    (py_str : pyval -> string) (r : Repo) (d : EvidenceDir) (risk key category : string)
    (f : File) (content : string) :
  applicable risk key ->
  In f (cand (scan_repository r) category) ->
  safe_read_text f = Some content ->
  keyword_hit (catalog_meta key) f content = true ->
  exists res,
    result_details (fst (perform_audit py_str r d risk)) !! key = Some res
    /\ status res = found
    /\ score res = weight (catalog_meta key)
    /\ In (rel_path f) (evidence res).
Proof.
  intros Happ Hf Hread Hhit.
  pose proof (applicable_in_catalog risk key Happ) as Hin.
  pose proof (scanned_category_in_table r f category Hf) as Hcat.
  assert (str_in_list risk (required_for (catalog_meta key)) = true) as Hreq
    by now apply str_in_list_In.
  assert (keyword_found (audit_env py_str r risk) (catalog_meta key) = true) as Hkw.
  { apply keyword_found_evidence. unfold keyword_evidence.
    unfold keyword_hit in Hhit. apply existsb_exists in Hhit as (kw & Hkw & Hm).
    apply orb_true_iff in Hm. exists category, f, content, kw. auto. }
  rewrite perform_audit_details.
  destruct (audit_run_details py_str r d risk key _ Hin) as (res & Hres & Hexp & _).
  exists res. split; [exact Hres|].
  destruct Hexp as (_ & _ & Hexp). rewrite Hreq in Hexp. unfold item_found in Hexp.
  rewrite Hkw in Hexp. simpl in Hexp. destruct Hexp as [Hst Hsc].
  split; [exact Hst|]. split; [exact Hsc|].
  rewrite audit_run_eq in Hres.
  destruct (fold_eval_item_at (audit_env py_str r risk) TRACEABILITY_ITEMS
              (initial_state d) key _ catalog_keys_NoDup Hin) as (st' & Hnone & Heq).
  { intros k _. apply lookup_empty. }
  rewrite Heq in Hres.
  destruct (eval_item_cites (audit_env py_str r risk) st' key (catalog_meta key)
              category f content Hnone Hreq Hcat Hf Hread Hhit) as (res' & Hres' & Hp).
  rewrite Hres in Hres'. injection Hres' as <-. exact Hp.
Qed.

Lemma keyword_match_is_evidence_witness :
  let f := text_file ["notes"; "changelog.md"] "Model update 1.2" (PyStr "Model update 1.2") in
  let r := mkRepo [] true [f] in
  applicable "high" "model_change_documentation"
  /\ In f (cand (scan_repository r) "decision_logs")
  /\ safe_read_text f = Some "Model update 1.2"
  /\ keyword_hit (catalog_meta "model_change_documentation") f "Model update 1.2" = true
  /\ exists res,
       result_details (fst (perform_audit py_str_scalar r (EVIDENCE_DIR []) "high"))
         !! "model_change_documentation" = Some res
       /\ status res = found
       /\ score res = weight (catalog_meta "model_change_documentation")
       /\ In (rel_path f) (evidence res).
Proof.
  intros f r.
  assert (applicable "high" "model_change_documentation") as H1
    by (unfold applicable; vm_compute; tauto).
  assert (In f (cand (scan_repository r) "decision_logs")) as H2 by (vm_compute; tauto).
  assert (safe_read_text f = Some "Model update 1.2") as H3 by reflexivity.
  assert (keyword_hit (catalog_meta "model_change_documentation") f "Model update 1.2" = true)
    as H4 by (vm_compute; reflexivity).
  split; [exact H1|]. split; [exact H2|]. split; [exact H3|]. split; [exact H4|].
  exact (keyword_match_is_evidence py_str_scalar r (EVIDENCE_DIR []) "high"
           "model_change_documentation" "decision_logs" f "Model update 1.2" H1 H2 H3 H4).
Defined.

(** ** Audits below a root other than [/] *)


Section BelowRoot.

Variable py_str : pyval -> string.


Lemma audit_run_total (r : Repo) (d : EvidenceDir) (risk : string) :
  total_score (audit_run py_str r d risk)
  = sum_Z (map (item_points (audit_env py_str r risk)) TRACEABILITY_ITEMS).
Proof.
  rewrite audit_run_eq, fold_eval_item_total.
  - reflexivity.
  - exact catalog_keys_NoDup.
  - intros k _. apply lookup_empty.
Qed.



End BelowRoot.



(** ** More on the cross-reference validator *)

Lemma omap_nil_iff {A B : Type} (g : A -> option B) (l : list A) :
  omap g l = [] <-> forall a, In a l -> g a = None.
Proof.
  induction l as [|a l IH]; simpl.
  - split; [intros _ a [] | reflexivity].
  - destruct (g a) eqn:E.
    + split; [discriminate|]. intros H. specialize (H a (or_introl eq_refl)). congruence.
    + rewrite IH. split.
      * intros H b [<- | Hb]; auto.
      * intros H b Hb. apply H. now right.
Qed.

Lemma omap_length_le {A B : Type} (g : A -> option B) (l : list A) :
  (List.length (omap g l) <= List.length l)%nat.
Proof.
  induction l as [|a l IH]; [simpl; lia|].
  change (omap g (a :: l))
    with (match g a with Some y => y :: omap g l | None => omap g l end).
  destruct (g a); cbn [List.length]; lia.
Qed.

(** X8. The validator reports no issue exactly when no log document, and
    no entry of a list-shaped log, declares a model version missing from
    the metadata: stopping at the first offending entry of a list loses
    issues, never the fact that there is one. However many entries
    offend, there are at most as many issues as logs; without logs there
    is none. *)
Theorem cross_references_consistent_iff
    (py_str : pyval -> string) (metadata_files log_files : list (File * pyval)) :
  (check_cross_references py_str metadata_files log_files = []
   <-> forall pl, In pl log_files ->
         unknown_versions py_str (declared_versions py_str metadata_files) (snd pl) = [])
  /\ (List.length (check_cross_references py_str metadata_files log_files)
      <= List.length log_files)%nat
  /\ check_cross_references py_str metadata_files [] = [].
Proof.
  assert (check_cross_references py_str metadata_files log_files
          = omap (reported_issue py_str (declared_versions py_str metadata_files)) log_files)
    as Heq by (unfold check_cross_references; now rewrite check_fold_reports).
  split; [|split; [rewrite Heq; apply omap_length_le | reflexivity]].
  rewrite Heq, omap_nil_iff. split; intros H pl Hpl; specialize (H pl Hpl).
  - unfold reported_issue in H.
    destruct (unknown_versions py_str _ (snd pl)); [reflexivity | discriminate].
  - unfold reported_issue. now rewrite H.
Qed.

Example cross_references_examples :
  let info := text_file ["info.json"] "version 1.0" (PyDict [("version", PyFloat "1.0")]) in
  let good := text_file ["prediction.json"] "model_version 1.0"
                (PyDict [("model_version", PyStr "1.0"); ("prediction", PyInt 1)]) in
  let bad := text_file ["prediction.json"] "model_version 2.0"
               (PyDict [("model_version", PyStr "2.0"); ("prediction", PyInt 1)]) in
  check_cross_references py_str_scalar [(info, load_file info)] [(good, load_file good)] = []
  /\ check_cross_references py_str_scalar [(info, load_file info)] [(bad, load_file bad)]
     = [issue_text bad "2.0"]
  /\ check_cross_references py_str_scalar [] [(good, load_file good)]
     = [issue_text good "1.0"].
Proof. vm_compute. repeat split. Qed.

(** ** Patterns of the table that never decide *)

Lemma prefix_app_l (a b s : string) :
  String.prefix (a +:+ b) s = true -> String.prefix a s = true.
Proof.
  revert s. induction a as [|c a IH]; intros [|c' s]; simpl; try reflexivity.
  - discriminate.
  - destruct (ascii_dec c c'); [apply IH | discriminate].
Qed.

Lemma contains_unfold (needle hay : string) :
  PyStr.contains needle hay
  = if String.prefix needle hay then true
    else match hay with
         | EmptyString => false
         | String _ hay' => PyStr.contains needle hay'
         end.
Proof. now destruct hay. Qed.

Lemma contains_app_l (a b s : string) :
  PyStr.contains (a +:+ b) s = true -> PyStr.contains a s = true.
Proof.
  induction s as [|c s IH];
    rewrite (contains_unfold (a +:+ b)), (contains_unfold a);
    destruct (String.prefix (a +:+ b) _) eqn:E.
  - intros _. now rewrite (prefix_app_l a b _ E).
  - discriminate.
  - intros _. now rewrite (prefix_app_l a b _ E).
  - intros H. rewrite (IH H). now destruct (String.prefix a (String c s)).
Qed.

Lemma existsb_false_In {A : Type} (g : A -> bool) (l : list A) (x : A) :
  existsb g l = false -> In x l -> g x = false.
Proof.
  intros H Hin. destruct (g x) eqn:E; [|reflexivity].
  assert (existsb g l = true) as Hc by (apply existsb_exists; now exists x). congruence.
Qed.

Ltac skip_earlier_categories H :=
  repeat match type of H with
         | (if existsb ?g ?l then _ else _) = _ =>
             let E := fresh "E" in destruct (existsb g l) eqn:E; [discriminate H|]
         end.

Ltac earlier_pattern p :=
  match goal with
  | E : existsb _ ?l = false |- _ =>
      apply (existsb_false_In _ l p E); simpl; tauto
  end.

(** X9. Four patterns of [FILE_PATTERNS] can never be the reason for a
    classification, because an earlier entry claims every name they match:
    [train_config] under training_configs (names containing [train] go to
    dataset_files or earlier) and [.csv], [.txt], [.md] under other_text
    (claimed by dataset_files and documentation). A file classified as
    other_text therefore has the extension [.json], [.yaml] or [.yml]. *)
Theorem shadowed_patterns_never_decide (r : Repo) (f : File) :
  (In f (cand (scan_repository r) "training_configs") ->
   file_matches f "train_config" = false)
  /\ (In f (cand (scan_repository r) "other_text") ->
      file_matches f ".csv" = false /\ file_matches f ".txt" = false
      /\ file_matches f ".md" = false
      /\ In (PyStr.lower (path_suffix (file_name f))) [".json"; ".yaml"; ".yml"]).
Proof.
  unfold file_matches.
  set (n := PyStr.lower (file_name f)). set (s := PyStr.lower (path_suffix (file_name f))).
  split; intros Hin; apply in_scan_repository in Hin as [_ Hfirst];
    apply first_category_first_match in Hfirst; fold n s in Hfirst;
    unfold FILE_PATTERNS in Hfirst; cbn [first_category] in Hfirst;
    skip_earlier_categories Hfirst.
  - assert (pattern_matches n s "train" = false) as Htrain by earlier_pattern "train".
    unfold pattern_matches in *. simpl in *.
    destruct (PyStr.contains "train_config" n) eqn:Ec; [|reflexivity].
    now rewrite (contains_app_l "train" "_config" n Ec) in Htrain.
  - assert (pattern_matches n s ".csv" = false) as Hcsv by earlier_pattern ".csv".
    assert (pattern_matches n s ".txt" = false) as Htxt by earlier_pattern ".txt".
    assert (pattern_matches n s ".md" = false) as Hmd by earlier_pattern ".md".
    repeat (split; [assumption|]).
    destruct (existsb (pattern_matches n s) [".json"; ".yaml"; ".yml"; ".csv"; ".txt"; ".md"])
      eqn:Elast; [|discriminate].
    apply existsb_exists in Elast as (p & Hp & Hm).
    simpl in Hp.
    destruct Hp as [<- | [<- | [<- | [<- | [<- | [<- | []]]]]]]; try congruence;
      unfold pattern_matches in Hm; simpl in Hm; rewrite orb_false_r in Hm;
      apply String.eqb_eq in Hm; rewrite Hm; simpl; tauto.
Qed.

Lemma shadowed_patterns_never_decide_witness :
  let f := text_file ["conf"; "params.yaml"] "lr: 1" (PyDict [("lr", PyInt 1)]) in
  let r := mkRepo [] true [f] in
  In f (cand (scan_repository r) "other_text")
  /\ file_matches f ".csv" = false /\ file_matches f ".txt" = false
  /\ file_matches f ".md" = false
  /\ In (PyStr.lower (path_suffix (file_name f))) [".json"; ".yaml"; ".yml"].
Proof.
  intros f r.
  assert (In f (cand (scan_repository r) "other_text")) as H by (vm_compute; tauto).
  split; [exact H|].
  exact (proj2 (shadowed_patterns_never_decide r f) H).
Defined.

(** ** The count of scanned files *)

Lemma first_category_in_table (table : list (string * list string)) (n s c : string) :
  first_category table n s = Some c -> In c (map fst table).
Proof.
  induction table as [|[k pats] rest IH]; simpl; [discriminate|].
  destruct (existsb (pattern_matches n s) pats).
  - intros [= <-]. now left.
  - intros H. right. now apply IH.
Qed.

Lemma sum_list_with_map {A B : Type} (g : B -> nat) (h : A -> B) (l : list A) :
  sum_list_with g (map h l) = sum_list_with (fun a => g (h a)) l.
Proof. induction l as [|a l IH]; simpl; [reflexivity | now rewrite IH]. Qed.

Lemma sum_list_with_add {A : Type} (g h : A -> nat) (l : list A) :
  sum_list_with (fun a => (g a + h a)%nat) l
  = (sum_list_with g l + sum_list_with h l)%nat.
Proof. induction l as [|a l IH]; simpl; [reflexivity | rewrite IH; lia]. Qed.

Lemma sum_list_with_pointwise {A : Type} (g h : A -> nat) (l : list A) :
  (forall a, g a = h a) -> sum_list_with g l = sum_list_with h l.
Proof. intros Hgh. induction l as [|a l IH]; simpl; [reflexivity | now rewrite Hgh, IH]. Qed.

(** Over the categories of the table, an entry lands in exactly one or in
    none. *)
Lemma lands_in_once (root : Path) (f : File) :
  sum_list_with (fun kv : string * list string =>
                   if lands_in root (fst kv) f then 1%nat else 0%nat) FILE_PATTERNS
  = if classified root f then 1%nat else 0%nat.
Proof.
  unfold lands_in, classified.
  destruct (first_category FILE_PATTERNS (PyStr.lower (file_name f))
              (PyStr.lower (path_suffix (file_name f)))) as [c|] eqn:E.
  - apply first_category_in_table in E.
    destruct (is_file f && negb (is_skipped root f)).
    + simpl in E.
      repeat (destruct E as [<- | E]; [vm_compute; reflexivity|]). destruct E.
    + simpl. clear. induction FILE_PATTERNS; simpl; auto.
  - rewrite !andb_false_r. simpl. clear. induction FILE_PATTERNS; simpl; auto.
Qed.

Lemma category_lengths_sum (root : Path) (l : list File) :
  sum_list_with (fun kv : string * list string =>
                   List.length (List.filter (lands_in root (fst kv)) l)) FILE_PATTERNS
  = List.length (List.filter (classified root) l).
Proof.
  induction l as [|f l IH].
  - simpl. induction FILE_PATTERNS; simpl; auto.
  - rewrite (sum_list_with_pointwise _
               (fun kv : string * list string =>
                  ((if lands_in root (fst kv) f then 1 else 0)
                   + List.length (List.filter (lands_in root (fst kv)) l))%nat)).
    + rewrite sum_list_with_add, IH, lands_in_once. simpl.
      destruct (classified root f); reflexivity.
    + intros kv. simpl. destruct (lands_in root (fst kv) f); reflexivity.
Qed.

(** X11. The [scanned_files] figure of the summary counts each listing
    entry that is a regular file, passes the ignore filter and matches
    some pattern exactly once, and counts nothing else; it is zero when
    the root is not a directory. *)
Theorem scanned_files_counts_classified
    (py_str : pyval -> string) (r : Repo) (d : EvidenceDir) (risk : string) :
  summary_scanned_files (fst (perform_audit py_str r d risk))
  = (if root_is_dir r
     then List.length (List.filter (classified (repo_root r)) (repo_listing r))
     else 0%nat)
  /\ (summary_scanned_files (fst (perform_audit py_str r d risk))
      <= List.length (List.filter is_file (repo_listing r)))%nat.
Proof.
  assert (summary_scanned_files (fst (perform_audit py_str r d risk))
          = if root_is_dir r
            then List.length (List.filter (classified (repo_root r)) (repo_listing r))
            else 0%nat) as Heq.
  { change (summary_scanned_files (fst (perform_audit py_str r d risk)))
      with (sum_list_with (fun kv : string * list File => List.length (snd kv))
              (candidates_items (scan_repository r))).
    unfold candidates_items. rewrite sum_list_with_map.
    rewrite (sum_list_with_pointwise _
               (fun kv : string * list string =>
                  List.length (if root_is_dir r
                               then List.filter (lands_in (repo_root r) (fst kv))
                                                (repo_listing r)
                               else [])))
      by (intros kv; cbn [fst snd]; now rewrite scan_repository_cand).
    destruct (root_is_dir r).
    - apply category_lengths_sum.
    - clear. induction FILE_PATTERNS; simpl; auto. }
  split; [exact Heq|]. rewrite Heq. destruct (root_is_dir r); [|lia].
  clear. induction (repo_listing r) as [|f l IH]; simpl; [lia|].
  unfold classified at 1. destruct (is_file f); simpl; [|exact IH].
  destruct (negb _ && _); simpl; lia.
Qed.

(** ** Every item of the catalog, in every tier *)

(** X12. The details of an audit result have an entry for every item of
    the catalog and for nothing else. An entry carries the catalog weight;
    it is flagged as required exactly when the item applies to the tier;
    its status is [optional] exactly when it does not, and then it has no
    score and no evidence; its status is never [error]; and its score is
    either zero or the full weight. *)
Theorem every_catalog_item_is_reported
    (py_str : pyval -> string) (r : Repo) (d : EvidenceDir) (risk key : string) :
  (is_Some (result_details (fst (perform_audit py_str r d risk)) !! key)
   <-> In key (map fst TRACEABILITY_ITEMS))
  /\ forall res,
       result_details (fst (perform_audit py_str r d risk)) !! key = Some res ->
       res_weight res = weight (catalog_meta key)
       /\ (is_required_for_risk res = true <-> applicable risk key)
       /\ (status res = optional <-> ~ applicable risk key)
       /\ status res <> error
       /\ (~ applicable risk key -> score res = 0 /\ evidence res = [])
       /\ (score res = 0 \/ score res = res_weight res).
Proof.
  rewrite perform_audit_details. split.
  - split.
    + intros [res Hres].
      destruct (audit_run_details_catalog py_str r d risk key res Hres) as [meta Hin].
      change key with (fst (key, meta)). now apply in_map.
    + intros Hin. apply in_map_iff in Hin as ([k meta] & Hk & Hin). simpl in Hk. subst k.
      destruct (audit_run_details py_str r d risk key meta Hin) as (res & Hres & _).
      rewrite Hres. eauto.
  - intros res Hres.
    destruct (audit_run_details_catalog py_str r d risk key res Hres) as [meta Hin].
    destruct (audit_run_details py_str r d risk key meta Hin) as (res' & Hres' & Hexp & _).
    rewrite Hres in Hres'. injection Hres' as <-.
    unfold applicable. rewrite (catalog_meta_In key meta Hin).
    rewrite <- str_in_list_In.
    destruct Hexp as (Hw & Hq & Hexp). rewrite Hq.
    destruct (str_in_list risk (required_for meta)).
    + destruct Hexp as [Hst Hsc].
      destruct (item_found (audit_env py_str r risk) key meta); rewrite Hst, Hsc, Hw;
        (split; [reflexivity|]); (split; [tauto|]);
        (split; [split; [discriminate | intros H; exfalso; now apply H]|]);
        (split; [discriminate|]); (split; [intros H; exfalso; now apply H|]); auto.
    + destruct Hexp as (Hst & Hsc & Hev). rewrite Hst, Hsc, Hev.
      split; [exact Hw|]. split; [split; intros; discriminate|].
      split; [split; [discriminate | reflexivity]|].
      split; [discriminate|]. split; auto.
Qed.

(** ** The tiers compared *)

Lemma required_for_nested (kv : string * ItemMeta) :
  In kv TRACEABILITY_ITEMS ->
  (str_in_list "low" (required_for (snd kv)) = true ->
   str_in_list "limited" (required_for (snd kv)) = true)
  /\ (str_in_list "limited" (required_for (snd kv)) = true ->
      str_in_list "high" (required_for (snd kv)) = true).
Proof.
  intros Hin.
  assert (forallb (fun kv : string * ItemMeta =>
                     implb (str_in_list "low" (required_for (snd kv)))
                           (str_in_list "limited" (required_for (snd kv)))
                     && implb (str_in_list "limited" (required_for (snd kv)))
                              (str_in_list "high" (required_for (snd kv))))
                  TRACEABILITY_ITEMS = true) as Hall by (vm_compute; reflexivity).
  rewrite forallb_forall in Hall. specialize (Hall kv Hin).
  apply andb_true_iff in Hall as [H1 H2].
  split; intros H; [rewrite H in H1 | rewrite H in H2]; assumption.
Qed.

Lemma item_found_any_tier (py_str : pyval -> string) (r : Repo) (risk1 risk2 key : string)
    (meta : ItemMeta) :
  item_found (audit_env py_str r risk1) key meta
  = item_found (audit_env py_str r risk2) key meta.
Proof. reflexivity. Qed.

Lemma item_points_monotone (env1 env2 : AuditEnv) (l : list (string * ItemMeta)) :
  (forall kv, In kv l ->
     0 < weight (snd kv)
     /\ item_found env1 (fst kv) (snd kv) = item_found env2 (fst kv) (snd kv)
     /\ (str_in_list (risk_level env1) (required_for (snd kv)) = true ->
         str_in_list (risk_level env2) (required_for (snd kv)) = true)) ->
  sum_Z (map (item_points env1) l) <= sum_Z (map (item_points env2) l).
Proof.
  induction l as [|kv l IH]; intros H; simpl; [lia|].
  destruct (H kv (or_introl eq_refl)) as (Hw & Hf & Himp).
  specialize (IH (fun kv' Hin => H kv' (or_intror Hin))).
  unfold item_points at 1 3. rewrite Hf.
  destruct (str_in_list (risk_level env1) (required_for (snd kv))).
  - rewrite (Himp eq_refl). lia.
  - destruct (str_in_list (risk_level env2) (required_for (snd kv)));
      [destruct (item_found env2 (fst kv) (snd kv))|]; lia.
Qed.

(** X13. The tiers are nested and so are their scores: on the same tree
    the total score of the low tier is at most that of the limited tier,
    which is at most that of the high tier, and an item found in a tier is
    found in every stricter tier. *)
Theorem stricter_tier_scores_no_less
    (py_str : pyval -> string) (r : Repo) (d1 d2 d3 : EvidenceDir) :
  summary_total_score (fst (perform_audit py_str r d1 "low"))
    <= summary_total_score (fst (perform_audit py_str r d2 "limited"))
  /\ summary_total_score (fst (perform_audit py_str r d2 "limited"))
     <= summary_total_score (fst (perform_audit py_str r d3 "high"))
  /\ (forall key,
         status <$> (result_details (fst (perform_audit py_str r d1 "low")) !! key)
           = Some found ->
         status <$> (result_details (fst (perform_audit py_str r d2 "limited")) !! key)
           = Some found)
  /\ (forall key,
         status <$> (result_details (fst (perform_audit py_str r d2 "limited")) !! key)
           = Some found ->
         status <$> (result_details (fst (perform_audit py_str r d3 "high")) !! key)
           = Some found).
Proof.
  assert (forall da db ra rb,
             (forall kv, In kv TRACEABILITY_ITEMS ->
                str_in_list ra (required_for (snd kv)) = true ->
                str_in_list rb (required_for (snd kv)) = true) ->
             summary_total_score (fst (perform_audit py_str r da ra))
               <= summary_total_score (fst (perform_audit py_str r db rb))
             /\ forall key,
                  status <$> (result_details (fst (perform_audit py_str r da ra)) !! key)
                    = Some found ->
                  status <$> (result_details (fst (perform_audit py_str r db rb)) !! key)
                    = Some found) as Hstep.
  { intros da db ra rb Hnest. split.
    - change (summary_total_score (fst (perform_audit py_str r da ra)))
        with (total_score (audit_run py_str r da ra)).
      change (summary_total_score (fst (perform_audit py_str r db rb)))
        with (total_score (audit_run py_str r db rb)).
      rewrite !audit_run_total. apply item_points_monotone.
      intros kv Hin. split; [now apply catalog_weights_positive|].
      split; [apply item_found_any_tier | now apply Hnest].
    - intros key. rewrite !perform_audit_details.
      destruct (details (audit_run py_str r da ra) !! key) as [res|] eqn:Hres; [|discriminate].
      change (status <$> Some res) with (Some (status res)). intros [= Hst].
      destruct (audit_run_details_catalog py_str r da ra key res Hres) as [meta Hin].
      destruct (audit_run_details py_str r da ra key meta Hin) as (res1 & Hres1 & Hexp1 & _).
      rewrite Hres in Hres1. injection Hres1 as <-.
      destruct (audit_run_details py_str r db rb key meta Hin) as (res2 & Hres2 & Hexp2 & _).
      rewrite Hres2. change (Some (status res2) = Some found). f_equal.
      destruct Hexp1 as (_ & _ & Hexp1). destruct Hexp2 as (_ & _ & Hexp2).
      destruct (str_in_list ra (required_for meta)) eqn:Ea.
      + pose proof (Hnest (key, meta) Hin Ea) as Eb. simpl in Eb. rewrite Eb in Hexp2.
        rewrite (item_found_any_tier py_str r rb ra) in Hexp2.
        destruct Hexp1 as [Hs1 _]. destruct Hexp2 as [Hs2 _].
        destruct (item_found (audit_env py_str r ra) key meta); congruence.
      + destruct Hexp1 as [Hs1 _]. congruence. }
  destruct (Hstep d1 d2 "low" "limited") as [Ht1 Hf1].
  { intros kv Hin. apply (required_for_nested kv Hin). }
  destruct (Hstep d2 d3 "limited" "high") as [Ht2 Hf2].
  { intros kv Hin. apply (required_for_nested kv Hin). }
  auto.
Qed.

(** ** What makes the other items found *)

Lemma specific_found_generic (env : AuditEnv) (key : string) :
  ~ In key specific_items -> specific_found env key = false.
Proof.
  intros Hout. unfold specific_found.
  repeat match goal with
         | |- context [String.eqb key ?k] =>
             let E := fresh "E" in
             destruct (String.eqb key k) eqn:E;
             [apply String.eqb_eq in E; exfalso; apply Hout; rewrite E; simpl; tauto|]
         end.
  reflexivity.
Qed.

(** X14. For the seventeen items without a check of their own, and in a
    tier to which the item applies, the status is [found] if and only if
    some scanned readable file has one of the item's keywords in its name
    or sampled content; otherwise it is [not_found]. *)
Theorem generic_item_found_iff_keyword
    (py_str : pyval -> string) (r : Repo) (d : EvidenceDir) (risk key : string) :
  applicable risk key -> ~ In key specific_items ->
  exists res,
    result_details (fst (perform_audit py_str r d risk)) !! key = Some res
    /\ (status res = found <-> keyword_evidence (audit_env py_str r risk) (catalog_meta key))
    /\ (status res = found \/ status res = not_found).
Proof.
  intros Happ Hgen.
  destruct (applicable_item_status py_str r d risk key (catalog_meta key)
              (applicable_in_catalog risk key Happ) Happ) as (res & Hres & Hiff & Hcases).
  exists res. split; [exact Hres|]. split; [|exact Hcases].
  rewrite Hiff, (specific_found_generic _ key Hgen).
  split; [intros [H | H]; [exact H | discriminate] | auto].
Qed.

Lemma generic_item_found_iff_keyword_witness :
  let r := mkRepo [] true [text_file ["fairness_report.md"] "bias audit" (PyStr "bias audit")] in
  applicable "limited" "bias_metrics" /\ ~ In "bias_metrics" specific_items
  /\ exists res,
       result_details (fst (perform_audit py_str_scalar r (EVIDENCE_DIR []) "limited"))
         !! "bias_metrics" = Some res
       /\ (status res = found
           <-> keyword_evidence (audit_env py_str_scalar r "limited") (catalog_meta "bias_metrics"))
       /\ (status res = found \/ status res = not_found).
Proof.
  intros r.
  assert (applicable "limited" "bias_metrics") as H1 by (unfold applicable; vm_compute; tauto).
  assert (~ In "bias_metrics" specific_items) as H2.
  { simpl. intros [H | [H | [H | [H | [H | []]]]]]; discriminate H. }
  split; [exact H1|]. split; [exact H2|].
  exact (generic_item_found_iff_keyword py_str_scalar r (EVIDENCE_DIR []) "limited"
           "bias_metrics" H1 H2).
Defined.

Lemma non_nil_true {A : Type} (l : list A) : non_nil l = true <-> l <> [].
Proof. destruct l; simpl; split; intros H; try easy. Qed.

Lemma py_eq_str_true (v : pyval) (s : string) : py_eq_str v s = true <-> v = PyStr s.
Proof.
  destruct v; simpl; try (split; [discriminate | intros [=]]).
  rewrite String.eqb_eq. split; [now intros -> | now intros [= ->]].
Qed.

Section SpecificItems.

Variable py_str : pyval -> string.
Variable r : Repo.
Variable risk : string.

Let env := audit_env py_str r risk.

Lemma in_parsed_metadata (pm : File * pyval) :
  In pm (parsed_metadata env)
  <-> exists m, In m (cand (scan_repository r) "metadata_files") /\ pm = (m, load_file m).
Proof.
  unfold env. simpl. rewrite in_map_iff. split; intros (m & H1 & H2); exists m; auto.
Qed.

Lemma metadata_records_hash_declares (field h : string) :
  metadata_records_hash env field h = true
  <-> metadata_declares r field (fun v => v = PyStr h).
Proof.
  unfold metadata_records_hash, metadata_declares. rewrite existsb_exists. split.
  - intros (pm & Hpm & Hv). apply in_parsed_metadata in Hpm as (m & Hm & ->). simpl in Hv.
    destruct (dict_field field (load_file m)) as [v|] eqn:E; [|discriminate].
    apply py_eq_str_true in Hv. exists m, v. auto.
  - intros (m & v & Hm & Hf & ->). exists (m, load_file m). split.
    + apply in_parsed_metadata. eauto.
    + simpl. rewrite Hf. now apply py_eq_str_true.
Qed.

Lemma dataset_hashes_declared :
  non_nil (dataset_hashes env) = true <-> metadata_declares r "dataset_hash" (fun _ => True).
Proof.
  rewrite non_nil_true. unfold dataset_hashes, metadata_declares. split.
  - intros Hne. destruct (omap _ (parsed_metadata env)) as [|v l] eqn:E; [contradiction|].
    assert (v ∈ omap (fun pm : File * pyval => dict_field "dataset_hash" (snd pm))
                     (parsed_metadata env)) as Hv by (rewrite E; apply list_elem_of_here).
    apply list_elem_of_omap in Hv as (pm & Hpm & Hf).
    apply list_elem_of_In, in_parsed_metadata in Hpm as (m & Hm & ->).
    exists m, v. auto.
  - intros (m & v & Hm & Hf & _) Hnil.
    assert (v ∈ omap (fun pm : File * pyval => dict_field "dataset_hash" (snd pm))
                     (parsed_metadata env)) as Hv.
    { apply list_elem_of_omap. exists (m, load_file m). split; [|exact Hf].
      apply list_elem_of_In, in_parsed_metadata. eauto. }
    rewrite Hnil in Hv. now apply not_elem_of_nil in Hv.
Qed.

Lemma version_metadata_declared :
  has_version_metadata env = true <-> metadata_declares r "version" (fun _ => True).
Proof.
  unfold has_version_metadata, metadata_declares. rewrite existsb_exists. split.
  - intros (pm & Hpm & Hv). apply in_parsed_metadata in Hpm as (m & Hm & ->).
    apply bool_decide_eq_true in Hv as [v Hv]. exists m, v. auto.
  - intros (m & v & Hm & Hf & _). exists (m, load_file m). split.
    + apply in_parsed_metadata. eauto.
    + apply bool_decide_eq_true. simpl. rewrite Hf. eauto.
Qed.

End SpecificItems.

(** X15. The three remaining items with a check of their own, in a tier
    to which they apply (each applies to all three). Besides a keyword
    match, model versioning is found when a model artifact was scanned or
    some metadata has a [version] field; dataset versioning when some
    metadata has a [dataset_hash] field or the path of an other_text file
    contains [.dvc]; file integrity when the digest of a scanned dataset
    or model file is the [dataset_hash] or [model_hash] string of some
    metadata. Nothing else makes them found. *)
Theorem versioning_and_integrity_found_iff
    (py_str : pyval -> string) (r : Repo) (d : EvidenceDir) (risk : string) :
  In risk ["high"; "limited"; "low"] ->
  let a := fst (perform_audit py_str r d risk) in
  let env := audit_env py_str r risk in
  (exists res,
      result_details a !! "model_versioning" = Some res
      /\ (status res = found <->
          keyword_evidence env (catalog_meta "model_versioning")
          \/ cand (scan_repository r) "model_artifacts" <> []
          \/ metadata_declares r "version" (fun _ => True)))
  /\ (exists res,
         result_details a !! "dataset_versioning" = Some res
         /\ (status res = found <->
             keyword_evidence env (catalog_meta "dataset_versioning")
             \/ metadata_declares r "dataset_hash" (fun _ => True)
             \/ exists p, In p (cand (scan_repository r) "other_text")
                          /\ PyStr.contains ".dvc" (path_str (abs_path (repo_root r) p)) = true))
  /\ (exists res,
         result_details a !! "file_integrity_hash" = Some res
         /\ (status res = found <->
             keyword_evidence env (catalog_meta "file_integrity_hash")
             \/ exists f,
                  In f (cand (scan_repository r) "dataset_files"
                        ++ cand (scan_repository r) "model_artifacts")
                  /\ (metadata_declares r "dataset_hash" (fun v => v = PyStr (sha256_of_file f))
                      \/ metadata_declares r "model_hash"
                           (fun v => v = PyStr (sha256_of_file f))))).
Proof.
  intros Hrisk a env.
  assert (forall key, In key ["model_versioning"; "dataset_versioning"; "file_integrity_hash"] ->
                      In (key, catalog_meta key) TRACEABILITY_ITEMS
                      /\ In risk (required_for (catalog_meta key))) as Hcat.
  { intros key Hkey. simpl in Hkey.
    destruct Hkey as [<- | [<- | [<- | []]]]; (split; [vm_compute; tauto|]); exact Hrisk. }
  split; [|split].
  - destruct (Hcat "model_versioning") as [Hin Hreq]; [simpl; tauto|].
    destruct (applicable_item_status py_str r d risk _ _ Hin Hreq) as (res & Hres & Hiff & _).
    exists res. split; [exact Hres|]. rewrite Hiff.
    change (specific_found (audit_env py_str r risk) "model_versioning")
      with (non_nil (cand (scan_repository r) "model_artifacts")
            || has_version_metadata (audit_env py_str r risk)).
    rewrite orb_true_iff, non_nil_true, version_metadata_declared. tauto.
  - destruct (Hcat "dataset_versioning") as [Hin Hreq]; [simpl; tauto|].
    destruct (applicable_item_status py_str r d risk _ _ Hin Hreq) as (res & Hres & Hiff & _).
    exists res. split; [exact Hres|]. rewrite Hiff.
    change (specific_found (audit_env py_str r risk) "dataset_versioning")
      with (non_nil (dataset_hashes (audit_env py_str r risk))
            || has_dvc_marker (audit_env py_str r risk)).
    rewrite orb_true_iff, dataset_hashes_declared.
    unfold has_dvc_marker. rewrite existsb_exists. tauto.
  - destruct (Hcat "file_integrity_hash") as [Hin Hreq]; [simpl; tauto|].
    destruct (applicable_item_status py_str r d risk _ _ Hin Hreq) as (res & Hres & Hiff & _).
    exists res. split; [exact Hres|]. rewrite Hiff.
    change (specific_found (audit_env py_str r risk) "file_integrity_hash")
      with (existsb (integrity_confirmed (audit_env py_str r risk))
              (cand (scan_repository r) "dataset_files"
               ++ cand (scan_repository r) "model_artifacts")).
    rewrite existsb_exists.
    assert (forall f, integrity_confirmed (audit_env py_str r risk) f = true
                      <-> metadata_declares r "dataset_hash"
                            (fun v => v = PyStr (sha256_of_file f))
                          \/ metadata_declares r "model_hash"
                               (fun v => v = PyStr (sha256_of_file f))) as Hint.
    { intros f. unfold integrity_confirmed.
      now rewrite orb_true_iff, !metadata_records_hash_declares. }
    split.
    + intros [H | (f & Hf & Hc)]; [now left|]. right. exists f. split; [exact Hf|].
      now apply Hint.
    + intros [H | (f & Hf & Hc)]; [now left|]. right. exists f. split; [exact Hf|].
      now apply Hint.
Qed.

Lemma versioning_and_integrity_found_iff_witness :
  let model := text_file ["model.pkl"] "" (PyStr "") in
  let r := mkRepo [] true [model] in
  In "low" ["high"; "limited"; "low"]
  /\ exists res,
       result_details (fst (perform_audit py_str_scalar r (EVIDENCE_DIR []) "low"))
         !! "model_versioning" = Some res
       /\ (status res = found <->
           keyword_evidence (audit_env py_str_scalar r "low") (catalog_meta "model_versioning")
           \/ cand (scan_repository r) "model_artifacts" <> []
           \/ metadata_declares r "version" (fun _ => True)).
Proof.
  intros model r.
  assert (In "low" ["high"; "limited"; "low"]) as H by (simpl; tauto).
  split; [exact H|].
  exact (proj1 (versioning_and_integrity_found_iff py_str_scalar r (EVIDENCE_DIR []) "low" H)).
Defined.

(** ** The evidence directory does not influence the findings *)

Lemma fold_left_related {A B : Type} (R : A -> A -> Prop) (f : A -> B -> A)
    (l : list B) (a a' : A) :
  (forall a a' b, R a a' -> R (f a b) (f a' b)) -> R a a' ->
  R (fold_left f l a) (fold_left f l a').
Proof.
  intros Hstep. revert a a'. induction l as [|b l IH]; intros a a' H; simpl; auto.
Qed.

Lemma same_results_update (key : string) (g : ItemResult -> ItemResult)
    (st1 st2 : AuditState) :
  same_results st1 st2 -> same_results (update_item key g st1) (update_item key g st2).
Proof. intros [Ht Hd]. split; simpl; congruence. Qed.

Lemma same_results_register (risk key : string) (f : File) (st1 st2 : AuditState) :
  same_results st1 st2 ->
  same_results (register_item_evidence risk key f st1) (register_item_evidence risk key f st2).
Proof.
  intros [Ht Hd]. destruct (is_file f) eqn:Hfile.
  - destruct (register_item_evidence_details risk key f st1 Hfile) as [Hd1 Ht1].
    destruct (register_item_evidence_details risk key f st2 Hfile) as [Hd2 Ht2].
    split; [congruence|]. rewrite Hd1, Hd2, Hd. reflexivity.
  - rewrite !register_item_evidence_nonfile by exact Hfile. now split.
Qed.

Lemma keyword_loop_related (env : AuditEnv) (key : string) (meta : ItemMeta)
    (acc1 acc2 : AuditState * bool) :
  same_progress acc1 acc2 ->
  same_progress (keyword_loop env key meta acc1) (keyword_loop env key meta acc2).
Proof.
  unfold keyword_loop. apply (fold_left_related same_progress).
  intros a a' kv. apply (fold_left_related same_progress).
  clear. intros a a' f [Hs Hb]. unfold keyword_step.
  destruct (safe_read_text f); [|now split].
  destruct (keyword_hit meta f s); [|now split].
  split; [|reflexivity]. simpl.
  apply same_results_register. now apply same_results_update.
Qed.

Lemma register_all_related (env : AuditEnv) (key : string) (files : list File)
    (st1 st2 : AuditState) :
  same_results st1 st2 ->
  same_results (register_all env key files st1) (register_all env key files st2).
Proof.
  unfold register_all. apply (fold_left_related same_results).
  intros a a' f. apply same_results_register.
Qed.

Lemma specific_checks_related (env : AuditEnv) (key : string)
    (acc1 acc2 : AuditState * bool) :
  same_progress acc1 acc2 ->
  same_progress (specific_checks env key acc1) (specific_checks env key acc2).
Proof.
  intros [Hs Hb]. unfold specific_checks.
  repeat match goal with
         | |- context [if ?b then _ else _] => destruct b
         end;
    try (split; [exact Hs | exact Hb]);
    try (split; [|reflexivity]); simpl.
  - apply (fold_left_related same_results); [|now apply same_results_update].
    intros a a' f Ha. unfold dataset_hash_step. destruct (hash_listed _ _); [|exact Ha].
    apply same_results_register. now apply same_results_update.
  - apply register_all_related. now apply same_results_update.
  - repeat apply register_all_related. now apply same_results_update.
  - apply register_all_related. now apply same_results_update.
  - apply (fold_left_related same_progress); [|now split].
    clear. intros a a' f [Hs Hb]. unfold integrity_step.
    destruct (integrity_confirmed env f); [|now split].
    split; [|reflexivity]. simpl.
    apply same_results_register. now apply same_results_update.
Qed.

Lemma conclude_item_related (key : string) (meta : ItemMeta)
    (acc1 acc2 : AuditState * bool) :
  same_progress acc1 acc2 ->
  same_results (conclude_item key meta acc1) (conclude_item key meta acc2).
Proof.
  intros [[Ht Hd] Hb]. unfold conclude_item. cbv zeta. rewrite <- Hb.
  destruct (snd acc1); split; simpl; rewrite ?Hd, ?Ht; reflexivity.
Qed.

Lemma eval_item_related (env : AuditEnv) (item : string * ItemMeta)
    (st1 st2 : AuditState) :
  same_results st1 st2 ->
  same_results (eval_item env st1 item) (eval_item env st2 item).
Proof.
  intros [Ht Hd]. unfold eval_item. cbv zeta.
  assert (same_results
            (match details st1 !! fst item with
             | None => with_details st1
                         (<[fst item := initial_result (risk_level env) (snd item)]> (details st1))
             | Some _ => st1
             end)
            (match details st2 !! fst item with
             | None => with_details st2
                         (<[fst item := initial_result (risk_level env) (snd item)]> (details st2))
             | Some _ => st2
             end)) as Hs0.
  { rewrite <- Hd. destruct (details st1 !! fst item); split; simpl; congruence. }
  revert Hs0.
  generalize (match details st1 !! fst item with
              | None => with_details st1
                          (<[fst item := initial_result (risk_level env) (snd item)]> (details st1))
              | Some _ => st1
              end).
  generalize (match details st2 !! fst item with
              | None => with_details st2
                          (<[fst item := initial_result (risk_level env) (snd item)]> (details st2))
              | Some _ => st2
              end).
  intros s2 s1 Hs0. pose proof Hs0 as [_ Hd0]. rewrite <- Hd0.
  destruct (negb _).
  - now apply same_results_update.
  - apply conclude_item_related, specific_checks_related, keyword_loop_related.
    split; [exact Hs0 | reflexivity].
Qed.

(** The fields of the result that are read off the scan alone. *)
Lemma perform_audit_env_fields
    (py_str : pyval -> string) (r : Repo) (d : EvidenceDir) (risk : string) :
  summary_max_score (fst (perform_audit py_str r d risk)) = max_score_for risk
  /\ summary_scanned_files (fst (perform_audit py_str r d risk))
     = sum_list_with (fun kv : string * list File => List.length (snd kv))
         (candidates_items (scan_repository r))
  /\ scanned_categories (fst (perform_audit py_str r d risk))
     = map (fun kv : string * list File => (fst kv, List.length (snd kv)))
         (candidates_items (scan_repository r))
  /\ result_cross_reference_issues (fst (perform_audit py_str r d risk))
     = cross_reference_issues (audit_env py_str r risk).
Proof. repeat split. Qed.

(** X16. What an audit finds does not depend on the evidence directory it
    is given: for one listing of the tree and two evidence directories,
    whatever their names and contents, the details (weights, scores,
    statuses, checks and evidence lists of all items), the total and
    maximal scores, the file counts and the cross-reference issues are
    the same. In particular an audit repeated on the same listing, into
    the directory the first run filled, finds the same. *)
Theorem findings_independent_of_archive
    (py_str : pyval -> string) (r : Repo) (d1 d2 : EvidenceDir) (risk : string) :
  let a1 := fst (perform_audit py_str r d1 risk) in
  let a2 := fst (perform_audit py_str r d2 risk) in
  result_details a1 = result_details a2
  /\ summary_total_score a1 = summary_total_score a2
  /\ summary_max_score a1 = summary_max_score a2
  /\ summary_scanned_files a1 = summary_scanned_files a2
  /\ scanned_categories a1 = scanned_categories a2
  /\ result_cross_reference_issues a1 = result_cross_reference_issues a2
  /\ result_details (fst (perform_audit py_str r (snd (perform_audit py_str r d1 risk)) risk))
     = result_details a1.
Proof.
  assert (forall da db, same_results (audit_run py_str r da risk) (audit_run py_str r db risk))
    as Hsame.
  { intros da db. rewrite !audit_run_eq.
    apply (fold_left_related same_results).
    - intros a a' item. apply eval_item_related.
    - split; reflexivity. }
  cbv zeta. rewrite !perform_audit_details.
  destruct (Hsame d1 d2) as [Ht Hd].
  destruct (perform_audit_env_fields py_str r d1 risk) as (Hm1 & Hn1 & Hc1 & Hi1).
  destruct (perform_audit_env_fields py_str r d2 risk) as (Hm2 & Hn2 & Hc2 & Hi2).
  split; [exact Hd|]. split; [exact Ht|].
  split; [now rewrite Hm1, Hm2|]. split; [now rewrite Hn1, Hn2|].
  split; [now rewrite Hc1, Hc2|]. split; [now rewrite Hi1, Hi2|].
  now destruct (Hsame (snd (perform_audit py_str r d1 risk)) d1) as [_ Hd'].
Qed.

(** ** Evidence of a scored item *)

Lemma fold_left_idle {A B : Type} (f : A -> B -> A) (l : list B) (a : A) :
  (forall b, In b l -> forall a, f a b = a) -> fold_left f l a = a.
Proof.
  revert a. induction l as [|b l IH]; intros a H; simpl; [reflexivity|].
  rewrite (H b) by now left. apply IH. intros b' Hb'. apply H. now right.
Qed.

(** Without a keyword hit the keyword loop leaves everything as it is. *)
Lemma keyword_loop_idle (env : AuditEnv) (key : string) (meta : ItemMeta)
    (acc : AuditState * bool) :
  keyword_found env meta = false -> keyword_loop env key meta acc = acc.
Proof.
  unfold keyword_loop, keyword_found. intros H.
  apply fold_left_idle. intros kv Hkv acc'.
  pose proof (existsb_false_In _ _ kv H Hkv) as Hfiles. cbv beta in Hfiles.
  apply fold_left_idle. intros f Hf acc''.
  pose proof (existsb_false_In _ _ f Hfiles Hf) as Hhit. cbv beta in Hhit.
  unfold keyword_step. destruct (safe_read_text f); [|reflexivity]. now rewrite Hhit.
Qed.

Lemma item_rel_entry (key : string) (st st' : AuditState) :
  item_rel key st st' -> is_Some (details st !! key) -> is_Some (details st' !! key).
Proof. intros (_ & _ & Hk) [r Hr]. destruct (Hk r Hr) as (r' & Hr' & _). eauto. Qed.

Lemma item_rel_evidence (key : string) (st st' : AuditState) :
  item_rel key st st' ->
  (exists r, details st !! key = Some r /\ evidence r <> []) ->
  exists r, details st' !! key = Some r /\ evidence r <> [].
Proof.
  intros (_ & _ & Hk) (r & Hr & Hne).
  destruct (Hk r Hr) as (r' & Hr' & _ & _ & _ & _ & Hmono). eauto.
Qed.

Lemma register_records (risk key : string) (f : File) (st : AuditState) :
  is_file f = true -> is_Some (details st !! key) ->
  exists r, details (register_item_evidence risk key f st) !! key = Some r /\ evidence r <> [].
Proof. intros Hfile [r Hr]. now apply (register_item_evidence_records risk key f st r). Qed.

(** Registering a non-empty list of regular files leaves evidence. *)
Lemma register_all_records (env : AuditEnv) (key : string) (files : list File)
    (st : AuditState) :
  files <> [] -> (forall f, In f files -> is_file f = true) ->
  is_Some (details st !! key) ->
  exists r, details (register_all env key files st) !! key = Some r /\ evidence r <> [].
Proof.
  intros Hne Hreg Hst. destruct files as [|f files]; [contradiction|].
  unfold register_all.
  apply (fold_left_reaches (fun st => is_Some (details st !! key))
           (fun st => exists r, details st !! key = Some r /\ evidence r <> [])
           _ _ f).
  - intros a b Ha. eapply item_rel_entry; [apply item_rel_register | exact Ha].
  - intros a b Ha. eapply item_rel_evidence; [apply item_rel_register | exact Ha].
  - intros a Ha. apply register_records; [apply Hreg; now left | exact Ha].
  - now left.
  - exact Hst.
Qed.

Lemma register_all_keeps (env : AuditEnv) (key : string) (files : list File)
    (st : AuditState) :
  (exists r, details st !! key = Some r /\ evidence r <> []) ->
  exists r, details (register_all env key files st) !! key = Some r /\ evidence r <> [].
Proof.
  intros H. unfold register_all.
  apply (fold_left_preserves
           (fun s => exists r, details s !! key = Some r /\ evidence r <> [])); [|exact H].
  intros a b Ha. eapply item_rel_evidence; [apply item_rel_register | exact Ha].
Qed.

Lemma add_check_entry (key msg : string) (st : AuditState) (r0 : ItemResult) :
  details st !! key = Some r0 ->
  details (add_check key msg st) !! key = Some (append_check msg r0).
Proof.
  intros Hr. unfold add_check. now rewrite update_item_lookup, String.eqb_refl, Hr.
Qed.

Lemma hash_listed_nil (h : string) : hash_listed [] h = false.
Proof. reflexivity. Qed.

(** A specific check that registers a file leaves evidence. *)
Lemma specific_checks_cites (env : AuditEnv) (key : string) (acc : AuditState * bool) :
  (forall category f, In f (cand (candidates env) category) -> is_file f = true) ->
  (forall pl, In pl (parsed_logs env ++ parsed_metadata env) -> is_file (fst pl) = true) ->
  specific_cited env key = true ->
  is_Some (details (fst acc) !! key) ->
  exists r, details (fst (specific_checks env key acc)) !! key = Some r /\ evidence r <> [].
Proof.
  intros Hreg Hlogs Hc Hst.
  assert (forall msg, is_Some (details (add_check key msg (fst acc)) !! key)) as Hchk.
  { intros msg. apply (item_rel_entry key (fst acc)); [apply item_rel_add_check | exact Hst]. }
  unfold specific_checks. unfold specific_cited in Hc.
  destruct (String.eqb key "dataset_versioning").
  { apply existsb_exists in Hc as (f & Hf & Hlisted).
    assert (non_nil (dataset_hashes env) = true) as Hnn.
    { revert Hlisted. destruct (dataset_hashes env); [simpl; discriminate | reflexivity]. }
    rewrite Hnn. cbn [orb fst].
    apply (fold_left_reaches (fun st => is_Some (details st !! key))
             (fun st => exists r, details st !! key = Some r /\ evidence r <> [])
             _ _ f).
    - intros a b Ha. unfold dataset_hash_step.
      destruct (hash_listed _ (sha256_of_file b)); [|exact Ha].
      eapply item_rel_entry; [apply item_rel_register|].
      eapply item_rel_entry; [apply item_rel_add_check | exact Ha].
    - intros a b Ha. unfold dataset_hash_step.
      destruct (hash_listed _ (sha256_of_file b)); [|exact Ha].
      eapply item_rel_evidence; [apply item_rel_register|].
      eapply item_rel_evidence; [apply item_rel_add_check | exact Ha].
    - intros a Ha. unfold dataset_hash_step. rewrite Hlisted.
      apply register_records; [now apply (Hreg "dataset_files")|].
      eapply item_rel_entry; [apply item_rel_add_check | exact Ha].
    - exact Hf.
    - apply Hchk. }
  destruct (String.eqb key "model_versioning").
  { rewrite Hc. cbn [orb fst].
    apply register_all_records; [|apply (Hreg "model_artifacts") | apply Hchk].
    destruct (cand (candidates env) "model_artifacts"); [discriminate | discriminate]. }
  destruct (String.eqb key "reproducibility_capability").
  { rewrite Hc. cbn [fst fold_left].
    apply all_components_found_present in Hc as (Htc & _).
    do 3 apply register_all_keeps.
    apply register_all_records; [exact Htc | apply (Hreg "training_configs") | apply Hchk]. }
  destruct (String.eqb key "cross_reference").
  { apply andb_true_iff in Hc as [Hno Hnn]. rewrite Hno. cbn [fst].
    apply register_all_records; [| | apply Hchk].
    - destruct (parsed_logs env ++ parsed_metadata env); [discriminate | discriminate].
    - intros f Hf. apply in_map_iff in Hf as (pl & <- & Hpl). now apply Hlogs. }
  destruct (String.eqb key "file_integrity_hash"); [|discriminate].
  apply existsb_exists in Hc as (f & Hf & Hconf).
  apply (fold_left_reaches (fun a : AuditState * bool => is_Some (details (fst a) !! key))
           (fun a : AuditState * bool =>
              exists r, details (fst a) !! key = Some r /\ evidence r <> [])
           _ _ f).
  - intros a b Ha. unfold integrity_step. destruct (integrity_confirmed env b); [|exact Ha].
    cbn [fst]. eapply item_rel_entry; [apply item_rel_register|].
    eapply item_rel_entry; [apply item_rel_add_check | exact Ha].
  - intros a b Ha. unfold integrity_step. destruct (integrity_confirmed env b); [|exact Ha].
    cbn [fst]. eapply item_rel_evidence; [apply item_rel_register|].
    eapply item_rel_evidence; [apply item_rel_add_check | exact Ha].
  - intros a Ha. unfold integrity_step. rewrite Hconf. cbn [fst].
    apply register_records.
    + apply in_app_iff in Hf as [Hf | Hf];
        [now apply (Hreg "dataset_files") | now apply (Hreg "model_artifacts")].
    + eapply item_rel_entry; [apply item_rel_add_check | exact Ha].
  - exact Hf.
  - exact Hst.
Qed.

(** A specific check that registers no file leaves the evidence list of
    the item as it was. *)
Lemma specific_checks_idle (env : AuditEnv) (key : string) (acc : AuditState * bool)
    (r0 : ItemResult) :
  specific_cited env key = false ->
  details (fst acc) !! key = Some r0 ->
  exists r, details (fst (specific_checks env key acc)) !! key = Some r
            /\ evidence r = evidence r0.
Proof.
  intros Hc Hr0.
  assert (forall msg, exists r, details (add_check key msg (fst acc)) !! key = Some r
                                /\ evidence r = evidence r0) as Hchk.
  { intros msg. exists (append_check msg r0).
    split; [apply add_check_entry; exact Hr0 | reflexivity]. }
  unfold specific_checks. unfold specific_cited in Hc.
  destruct (String.eqb key "dataset_versioning").
  { destruct (non_nil (dataset_hashes env) || has_dvc_marker env); [|eauto].
    cbn [fst]. rewrite fold_left_idle; [apply Hchk|].
    intros f Hf a. unfold dataset_hash_step.
    pose proof (existsb_false_In _ _ f Hc Hf) as Hno. cbv beta in Hno. now rewrite Hno. }
  destruct (String.eqb key "model_versioning").
  { destruct (cand (candidates env) "model_artifacts"); [|discriminate].
    destruct (non_nil [] || has_version_metadata env); [|eauto].
    cbn [fst]. apply Hchk. }
  destruct (String.eqb key "reproducibility_capability").
  { rewrite Hc. eauto. }
  destruct (String.eqb key "cross_reference").
  { destruct (negb (non_nil (cross_reference_issues env))); [|eauto].
    cbn [andb] in Hc.
    destruct (parsed_logs env ++ parsed_metadata env); [|discriminate].
    cbn [fst]. apply Hchk. }
  destruct (String.eqb key "file_integrity_hash"); [|eauto].
  rewrite fold_left_idle; [eauto|].
  intros f Hf a. unfold integrity_step.
  pose proof (existsb_false_In _ _ f Hc Hf) as Hno. now rewrite Hno.
Qed.

Lemma conclude_item_evidence (key : string) (meta : ItemMeta) (acc : AuditState * bool)
    (r0 : ItemResult) :
  details (fst acc) !! key = Some r0 ->
  exists r, details (conclude_item key meta acc) !! key = Some r
            /\ evidence r = evidence r0.
Proof.
  intros Hr0. unfold conclude_item. cbv zeta.
  destruct (snd acc).
  - exists (set_status found (set_score (weight meta) r0)).
    split; [|reflexivity].
    change (details (with_total_score ?s ?t)) with (details s).
    now rewrite !update_item_lookup, String.eqb_refl, Hr0.
  - eexists. split.
    + change (details (with_total_score ?s ?t)) with (details s).
      rewrite update_item_lookup, String.eqb_refl.
      now rewrite (add_check_entry key _ (fst acc) r0 Hr0).
    + reflexivity.
Qed.

(** The evidence list an applicable item ends with is empty exactly when
    neither the keyword loop nor the specific check registered a file. *)
Lemma eval_item_evidence (env : AuditEnv) (st : AuditState) (key : string) (meta : ItemMeta) :
  (forall category f, In f (cand (candidates env) category) -> is_file f = true) ->
  (forall pl, In pl (parsed_logs env ++ parsed_metadata env) -> is_file (fst pl) = true) ->
  details st !! key = None ->
  str_in_list (risk_level env) (required_for meta) = true ->
  exists r,
    details (eval_item env st (key, meta)) !! key = Some r
    /\ (evidence r = [] <-> keyword_found env meta = false /\ specific_cited env key = false).
Proof.
  intros Hreg Hlogs Hnone Hreq. unfold eval_item. cbv beta iota zeta. simpl fst. simpl snd.
  rewrite Hnone.
  set (r0 := initial_result (risk_level env) meta).
  set (st0 := with_details st (<[key := r0]> (details st))).
  assert (details st0 !! key = Some r0) as H0 by (simpl; apply lookup_insert_eq).
  rewrite H0. simpl from_option. rewrite Hreq. simpl negb. cbv iota.
  set (acc1 := keyword_loop env key meta (st0, false)).
  assert (exists r2, details (fst (specific_checks env key acc1)) !! key = Some r2
                     /\ (evidence r2 = [] <->
                         keyword_found env meta = false /\ specific_cited env key = false))
    as (r2 & Hr2 & Hiff).
  { destruct (keyword_found env meta) eqn:Ekw.
    - assert (snd acc1 = true) as Hflag
        by (unfold acc1; now rewrite keyword_loop_flag, Ekw).
      pose proof (keyword_loop_records env key meta st0 r0 H0 Hflag) as Hn1. fold acc1 in Hn1.
      assert (item_rel key (fst acc1) (fst (specific_checks env key acc1))) as Hrel.
      { apply (specific_checks_preserves (item_rel key (fst acc1)) env key).
        - intros s msg H. eapply item_rel_trans; [exact H | apply item_rel_add_check].
        - intros s f H. eapply item_rel_trans; [exact H | apply item_rel_register].
        - apply item_rel_refl. }
      destruct (item_rel_evidence _ _ _ Hrel Hn1) as (r2 & Hr2 & Hne).
      exists r2. split; [exact Hr2|]. split; [contradiction | intros [[=] _]].
    - assert (acc1 = (st0, false)) as -> by (unfold acc1; now apply keyword_loop_idle).
      destruct (specific_cited env key) eqn:Ec.
      + destruct (specific_checks_cites env key (st0, false) Hreg Hlogs Ec) as (r2 & Hr2 & Hne).
        { cbn [fst]. rewrite H0. eauto. }
        exists r2. split; [exact Hr2|]. split; [contradiction | intros [_ [=]]].
      + destruct (specific_checks_idle env key (st0, false) r0 Ec H0) as (r2 & Hr2 & Hev).
        exists r2. split; [exact Hr2|]. rewrite Hev. split; auto. }
  destruct (conclude_item_evidence key meta _ r2 Hr2) as (r & Hr & Hev).
  exists r. split; [exact Hr|]. now rewrite Hev.
Qed.

Section ScoredItems.

Variable py_str : pyval -> string.
Variable r : Repo.
Variable risk : string.

Let env := audit_env py_str r risk.

Lemma candidates_regular (category : string) (f : File) :
  In f (cand (candidates env) category) -> is_file f = true.
Proof.
  intros Hf. change (candidates env) with (scan_repository r) in Hf.
  apply in_scan_repository in Hf as [(_ & _ & Hfile & _) _]. exact Hfile.
Qed.

Lemma parsed_files_regular (pl : File * pyval) :
  In pl (parsed_logs env ++ parsed_metadata env) -> is_file (fst pl) = true.
Proof.
  intros H. apply in_app_iff in H as [H | H].
  - apply (candidates_regular "decision_logs").
    exact (audit_env_logs_scanned py_str r risk pl H).
  - apply (candidates_regular "metadata_files").
    exact (audit_env_metadata_scanned py_str r risk pl H).
Qed.

Lemma hash_listed_declares (h : string) :
  hash_listed (dataset_hashes env) h = true
  <-> metadata_declares r "dataset_hash" (fun v => v = PyStr h).
Proof.
  unfold hash_listed, dataset_hashes, metadata_declares. rewrite existsb_exists. split.
  - intros (v & Hv & Heq). apply py_eq_str_true in Heq.
    apply list_elem_of_In, list_elem_of_omap in Hv as (pm & Hpm & Hf).
    apply list_elem_of_In, in_parsed_metadata in Hpm as (m & Hm & ->).
    exists m, v. auto.
  - intros (m & v & Hm & Hf & ->). exists (PyStr h). split; [|now apply py_eq_str_true].
    apply list_elem_of_In, list_elem_of_omap. exists (m, load_file m). split; [|exact Hf].
    apply list_elem_of_In, in_parsed_metadata. eauto.
Qed.

Lemma parsed_files_nil :
  parsed_logs env ++ parsed_metadata env = []
  <-> cand (scan_repository r) "decision_logs" = []
      /\ cand (scan_repository r) "metadata_files" = [].
Proof.
  change (parsed_logs env)
    with (map (fun p => (p, load_file p)) (cand (scan_repository r) "decision_logs")).
  change (parsed_metadata env)
    with (map (fun p => (p, load_file p)) (cand (scan_repository r) "metadata_files")).
  destruct (cand (scan_repository r) "decision_logs");
    destruct (cand (scan_repository r) "metadata_files"); simpl;
    split; try (intros [? ?]); try discriminate; auto.
Qed.

(** With no keyword match, a found item has registered no file exactly in
    the three situations of [no_file_to_cite]. *)
Lemma specific_cited_false_iff (key : string) :
  specific_found env key = true ->
  (specific_cited env key = false <-> no_file_to_cite r key).
Proof.
  unfold specific_found, specific_cited, no_file_to_cite.
  change (candidates env) with (scan_repository r).
  destruct (String.eqb key "dataset_versioning") eqn:E1.
  { apply String.eqb_eq in E1. subst key. intros _. split.
    - intros Hc. right. right. split; [reflexivity|].
      intros f Hf Hd. apply hash_listed_declares in Hd.
      pose proof (existsb_false_In _ _ f Hc Hf) as Hno. cbv beta in Hno. congruence.
    - intros [[[=] _] | [[[=] _] | [_ Hall]]].
      destruct (existsb _ (cand (scan_repository r) "dataset_files")) eqn:Ex; [|reflexivity].
      apply existsb_exists in Ex as (f & Hf & Hl). apply hash_listed_declares in Hl.
      now destruct (Hall f Hf). }
  destruct (String.eqb key "model_versioning") eqn:E2.
  { apply String.eqb_eq in E2. subst key. intros _. split.
    - intros Hc. right. left. split; [reflexivity|].
      destruct (cand (scan_repository r) "model_artifacts"); [reflexivity | discriminate].
    - intros [[[=] _] | [[_ ->] | [[=] _]]]. reflexivity. }
  destruct (String.eqb key "reproducibility_capability") eqn:E3.
  { apply String.eqb_eq in E3. subst key. intros ->. split; [discriminate|].
    intros [[[=] _] | [[[=] _] | [[=] _]]]. }
  destruct (String.eqb key "cross_reference") eqn:E4.
  { apply String.eqb_eq in E4. subst key. intros ->. cbn [andb]. split.
    - intros Hc. left. split; [reflexivity|]. apply parsed_files_nil.
      destruct (parsed_logs env ++ parsed_metadata env); [reflexivity | discriminate].
    - intros [(_ & Hl & Hm) | [[[=] _] | [[=] _]]].
      now rewrite (proj2 parsed_files_nil (conj Hl Hm)). }
  destruct (String.eqb key "file_integrity_hash") eqn:E5.
  { apply String.eqb_eq in E5. subst key. intros ->. split; [discriminate|].
    intros [[[=] _] | [[[=] _] | [[=] _]]]. }
  discriminate.
Qed.

End ScoredItems.

(** C7. An item with a positive score has status [found] and its full
    weight as score. Its evidence list is empty in exactly these cases: no
    scanned readable file matched one of its keywords, and the item is
    cross_reference in a tree without decision logs and metadata files, or
    model_versioning without a scanned model artifact, or
    dataset_versioning without a scanned dataset file whose digest some
    metadata declares as [dataset_hash]. Every other scored item, among
    them reproducibility_capability and file_integrity_hash, has evidence. *)
Theorem positive_score_means_found
    (py_str : pyval -> string) (r : Repo) (d : EvidenceDir) (risk key : string)
    (res : ItemResult) :
  result_details (fst (perform_audit py_str r d risk)) !! key = Some res ->
  0 < score res ->
  status res = found
  /\ score res = res_weight res
  /\ (evidence res = [] <->
      ~ keyword_evidence (audit_env py_str r risk) (catalog_meta key)
      /\ no_file_to_cite r key)
  /\ (~ In key ["cross_reference"; "model_versioning"; "dataset_versioning"] ->
      evidence res <> []).
Proof.
  rewrite perform_audit_details. intros Hres Hpos.
  destruct (audit_run_details_catalog py_str r d risk key res Hres) as [meta Hin].
  destruct (audit_run_details py_str r d risk key meta Hin) as (res' & Hres' & Hexp & _).
  rewrite Hres in Hres'. inversion Hres'; subst res'. clear Hres'.
  rewrite (catalog_meta_In key meta Hin).
  destruct Hexp as (Hw & _ & Hexp).
  destruct (str_in_list risk (required_for meta)) eqn:Hreq;
    [|destruct Hexp as (_ & Hsc & _); lia].
  destruct Hexp as [Hst Hsc].
  destruct (item_found (audit_env py_str r risk) key meta) eqn:Hfound; [|lia].
  assert (evidence res = [] <->
          ~ keyword_evidence (audit_env py_str r risk) meta /\ no_file_to_cite r key) as Hiff.
  { rewrite audit_run_eq in Hres.
    destruct (fold_eval_item_at (audit_env py_str r risk) TRACEABILITY_ITEMS
                (initial_state d) key meta catalog_keys_NoDup Hin) as (st' & Hnone & Heq).
    { intros k _. apply lookup_empty. }
    rewrite Heq in Hres.
    destruct (eval_item_evidence (audit_env py_str r risk) st' key meta
                (candidates_regular py_str r risk) (parsed_files_regular py_str r risk)
                Hnone Hreq) as (res' & Hres' & Hev).
    rewrite Hres in Hres'. injection Hres' as <-.
    rewrite Hev, <- keyword_found_evidence. unfold item_found in Hfound.
    destruct (keyword_found (audit_env py_str r risk) meta) eqn:Ekw.
    - split; [intros [[=] _] | intros [Hn _]; now destruct Hn].
    - simpl in Hfound.
      rewrite (specific_cited_false_iff py_str r risk key Hfound).
      split; [intros [_ H]; split; [discriminate | exact H] | intros [_ H]; auto]. }
  split; [exact Hst|]. split; [congruence|]. split; [exact Hiff|].
  intros Hkey Hnil. apply Hiff in Hnil as [_ [(-> & _) | [(-> & _) | (-> & _)]]];
    apply Hkey; simpl; auto.
Qed.

Lemma positive_score_means_found_witness :
  let r := mkRepo [] true
             [ text_file ["requirements.txt"] "numpy" (PyStr "numpy");
               text_file ["config.yaml"] "lr: 1" (PyDict [("lr", PyInt 1)]);
               text_file ["dataset.csv"] "id,label" (PyList []);
               text_file ["model.pkl"] "" (PyStr "") ] in
  let a := fst (perform_audit py_str_scalar r (EVIDENCE_DIR []) "high") in
  exists res,
    result_details a !! "reproducibility_capability" = Some res
    /\ 0 < score res
    /\ evidence res = ["config.yaml"; "requirements.txt"; "dataset.csv"; "model.pkl"]
    /\ status res = found
    /\ score res = res_weight res
    /\ (evidence res = [] <->
        ~ keyword_evidence (audit_env py_str_scalar r "high")
            (catalog_meta "reproducibility_capability")
        /\ no_file_to_cite r "reproducibility_capability")
    /\ (~ In "reproducibility_capability"
             ["cross_reference"; "model_versioning"; "dataset_versioning"] ->
        evidence res <> []).
Proof.
  intros r a.
  assert (exists res,
             result_details a !! "reproducibility_capability" = Some res
             /\ 0 < score res
             /\ evidence res = ["config.yaml"; "requirements.txt"; "dataset.csv"; "model.pkl"])
    as (res & H & Hpos & Hev)
    by (eexists; split; [vm_compute; reflexivity | split; reflexivity]).
  exists res. split; [exact H|]. split; [exact Hpos|]. split; [exact Hev|].
  exact (positive_score_means_found py_str_scalar r (EVIDENCE_DIR []) "high"
           "reproducibility_capability" res H Hpos).
Defined.

(** An empty directory audited at the high tier: the validator has no
    issue to report, the cross-reference item gets its weight, and no file
    stands as evidence. *)
Lemma scored_item_without_evidence :
  let a := fst (perform_audit py_str_scalar (mkRepo ["srv"; "repo"] true []) (EVIDENCE_DIR []) "high") in
  exists res,
    result_details a !! "cross_reference" = Some res
    /\ 0 < score res /\ status res = found /\ evidence res = [].
Proof.
  eexists. split; [vm_compute; reflexivity|]. repeat split.
Qed.

(** ** A copy that fails *)


